(** * Ticket booking handler: reservation, confirmation and cancellation

    A shallow embedding of [src/lambdas/booking/handler.py].  The handler is
    a Python function over three DynamoDB tables (events, tickets, bookings),
    a Redis cache and an SQS queue.  Here the external services are a record
    [World] that every operation threads explicitly, Python exceptions are
    the [Raise] branch of a result type, and the few inputs the handler reads
    from its surroundings (the clock, [uuid4], service faults, the request
    validator of the layer) are the fields of a record [Env]. *)

From stdpp Require Import gmap strings list fin_maps pretty sorting.
From Stdlib Require Import ZArith.

Local Open Scope Z_scope.

(** ** Data model *)

(** A scalar attribute value of an item: DynamoDB type S or N. *)
Inductive AttrVal :=
  | AStr (s : string)
  | ANum (n : Z).

Global Instance AttrVal_eq_dec : EqDecision AttrVal.
Proof. solve_decision. Defined.

(** A number that the handler holds.  boto3 returns every number of an
    item as a [decimal.Decimal]; the literal [0] that [total_amount] starts
    from is an [int], and adding a price to it gives a [Decimal].  The
    total amount of a booking is the one number whose type decides a path
    of the handler: it reaches [json.dumps] in [send_to_queue], which
    refuses a [Decimal].  Prices, times and counts are kept by their value
    alone. *)
Inductive Number :=
  | PyInt (n : Z)
  | PyDecimal (n : Z).

Global Instance Number_eq_dec : EqDecision Number.
Proof. solve_decision. Defined.

Definition value (x : Number) : Z :=
  match x with
  | PyInt n => n
  | PyDecimal n => n
  end.

(** A Python dict with scalar values, such as the ticket snapshots that
    [reserve_tickets] appends to [reserved_tickets]. *)
Abbreviation Dict := (gmap string AttrVal).

(** An item of the events table.  The handler only reads it. *)
Record Event := mkEvent {
  ev_event_id : string;
  ev_status : string
}.

(** An item of the tickets table, key [(event_id, ticket_id)].  Every other
    attribute may be absent: [update_item] creates an item that holds only
    the key and the attributes it sets, and [REMOVE] deletes attributes.
    Times are seconds on the clock of [Env]; the source stores their
    ISO-8601 text. *)
Record Ticket := mkTicket {
  tk_event_id : string;
  tk_ticket_id : string;
  tk_tier : option string;
  tk_price : option Z;
  tk_seat_number : option string;
  tk_status : option string;
  tk_reserved_by : option string;
  tk_reserved_until : option Z
}.

(** An item of the bookings table, key [booking_id]. *)
Record Booking := mkBooking {
  bk_booking_id : string;
  bk_user_id : option string;
  bk_event_id : option string;
  bk_tickets : option (list Dict);
  bk_total_amount : option Number;
  bk_status : option string;
  bk_reserved_until : option Z;
  bk_created_at : option Z;
  bk_updated_at : option Z;
  bk_ttl : option Z
}.

Global Instance Event_eq_dec : EqDecision Event.
Proof. solve_decision. Defined.
Global Instance Ticket_eq_dec : EqDecision Ticket.
Proof. solve_decision. Defined.
Global Instance Booking_eq_dec : EqDecision Booking.
Proof. solve_decision. Defined.

(** The three queues named by the environment variables of the handler. *)
Inductive QueueUrl :=
  | BOOKING_QUEUE_URL
  | PAYMENT_QUEUE_URL
  | NOTIFICATION_QUEUE_URL.

(** A message body handed to [send_to_queue]. *)
Record Message := mkMessage {
  msg_action : string;
  msg_booking_id : string;
  msg_user_id : string;
  msg_amount : option Number;
  msg_payment_method : option string
}.

(** Modelled from the spec: [lib.cache_utils] is not part of the sources.
    The spec gives the cache the interface get / set-with-ttl / delete; an
    entry is stored with the time at which it expires and [get] returns
    nothing from that time on.  The three key prefixes of the handler,
    [event:], [booking:] and [user_bookings_count:], are the three fields,
    each keyed by the identifier that follows the prefix. *)
Record Cache := mkCache {
  c_event : gmap string (Event * Z);
  c_booking : gmap string (Booking * Z);
  c_count : gmap string (Z * Z)
}.

(** Everything outside the handler that it reads or writes. *)
Record World := mkWorld {
  events : gmap string Event;
  tickets : gmap (string * string) Ticket;
  bookings : gmap string Booking;
  cache : Cache;
  queue : list (QueueUrl * Message);
  stdout : list string
}.

(** ** Requests and responses *)

(** The primary key of an item of [UserBookingsIndex], as the store
    returns it in [LastEvaluatedKey] and takes it in [ExclusiveStartKey]:
    the key attributes of the index, [user_id] and [created_at], and that
    of the table. *)
Record StartKey := mkStartKey {
  sk_user_id : string;
  sk_created_at : Z;
  sk_booking_id : string
}.

Global Instance StartKey_eq_dec : EqDecision StartKey.
Proof. solve_decision. Defined.

Record TicketRequest := mkTicketRequest {
  tier : string;
  quantity : Z
}.

(** The parsed JSON body of a request; a key that is absent is [None]. *)
Record Body := mkBody {
  b_event_id : option string;
  b_tickets : option (list TicketRequest);
  b_booking_id : option string;
  b_payment_method : option string
}.

Inductive RespBody :=
  | ErrorBody (error : string)
  | MessageBody (message : string)
  | ReservedBody (booking_id : string) (status : string) (reserved_until : Z)
      (tickets : list Dict) (total_amount : Number) (expires_in_minutes : Z)
  | ProcessingBody (booking_id : string) (status : string) (message : string)
  | BookingBody (booking : Booking)
  | BookingsBody (bookings : list Booking) (count : Z) (last_key : option StartKey).

Record Response := mkResponse {
  statusCode : Z;
  body : RespBody
}.

Definition create_response (status_code : Z) (b : RespBody) : Response :=
  {| statusCode := status_code; body := b |}.

(** ** Exceptions *)

Inductive Exn :=
  | ValidationError (msg : string)
  | BookingError (msg : string)
  | TicketNotAvailableError (msg : string)
  | ClientError (code : string)
  | KeyError (key : string)
  | IndexError
  | TypeError (msg : string)
  | ValueError (msg : string)
  | ParamValidationError (report : string)
  | LockTimeout.

Inductive Result (A : Type) :=
  | Ok (a : A)
  | Raise (e : Exn).
Arguments Ok {A} a.
Arguments Raise {A} e.

(** ** The surroundings of one request *)

(** A call to an external service, as far as a fault can single it out. *)
Inductive Call :=
  | EventsGetItem (event_id : string)
  | TicketsQuery (event_id tier : string)
  | TicketsReserve (event_id ticket_id : AttrVal)
  | TicketsRollback (event_id ticket_id : AttrVal)
  | TicketsRelease (event_id ticket_id : AttrVal)
  | BookingsPutItem (booking_id : string)
  | BookingsGetItem (booking_id : string)
  | BookingsUpdateItem (booking_id : string)
  | BookingsQuery (user_id : string)
  | SqsSendMessage (url : QueueUrl).

(** [now] is [datetime.utcnow()], read once per request; [uuid4] is the
    identifier [uuid.uuid4()] returns; [fault c = Some code] makes the call
    [c] raise botocore's [ClientError] with that error code;
    [lock_acquired] tells whether [cache_utils.distributed_lock] is entered
    within its timeout; [validate_booking_request] is the validator of
    [lib.validation], which is not part of the sources: it returns the
    message of the [ValidationError] it raises, if any. *)
Record Env := mkEnv {
  now : Z;
  uuid4 : string;
  fault : Call -> option string;
  lock_acquired : bool;
  validate_booking_request : Body -> option string
}.

Definition RESERVATION_TIMEOUT_MINUTES : Z := 5.
Definition MAX_TICKETS_PER_USER : Z := 6.

(** ** State and exceptions *)

(** A computation over a state [S] that returns a value or raises.  The
    state it leaves is kept in both cases: what a Python function wrote
    before it raised stays written. *)
Definition M (S A : Type) : Type := S -> Result A * S.

Global Instance M_ret S : MRet (M S) := λ A a s, (Ok a, s).
Global Instance M_bind S : MBind (M S) := λ A B f c s,
  match c s with
  | (Ok a, s') => f a s'
  | (Raise e, s') => (Raise e, s')
  end.

Definition raise {S A} (e : Exn) : M S A := λ s, (Raise e, s).
Definition gets {S A} (f : S -> A) : M S A := λ s, (Ok (f s), s).
Definition modify {S} (f : S -> S) : M S unit := λ s, (Ok tt, f s).

(** [try: c  except ClientError as e: h e]. *)
Definition except_ClientError {S A} (c : M S A) (h : string -> M S A) : M S A :=
  λ s, match c s with
       | (Raise (ClientError code), s') => h code s'
       | r => r
       end.

(** [try: c  except Exception as e: h e]. *)
Definition except_Exception {S A} (c : M S A) (h : Exn -> M S A) : M S A :=
  λ s, match c s with
       | (Raise e, s') => h e s'
       | r => r
       end.

(** [for x in l: body x]. *)
Fixpoint for_in {S A} (l : list A) (body : A -> M S unit) : M S unit :=
  match l with
  | [] => mret tt
  | x :: l' => body x ;; for_in l' body
  end.

(** [d[key]] on an attribute that may be absent. *)
Definition getitem {S A} (key : string) (o : option A) : M S A :=
  match o with
  | Some a => mret a
  | None => raise (KeyError key)
  end.

(** [l[i]]. *)
Definition getindex {S A} (l : list A) (i : nat) : M S A :=
  match l !! i with
  | Some a => mret a
  | None => raise IndexError
  end.

(** ** The cache *)

(** Modelled from the spec: the operations of [lib.cache_utils], which is
    not part of the sources.  [cache_get_*] is [cache_utils.get] on a key of
    the prefix, [cache_set_*] is [cache_utils.set] with its [ttl] in
    seconds, [cache_delete_*] is [cache_utils.delete]. *)
Definition set_cache (f : Cache -> Cache) (w : World) : World :=
  {| events := events w; tickets := tickets w; bookings := bookings w;
     cache := f (cache w); queue := queue w; stdout := stdout w |}.

(** An entry is returned until the time at which it expires. *)
Definition live {A} (env : Env) (entry : option (A * Z)) : option A :=
  match entry with
  | Some (a, expires) => if bool_decide (now env < expires) then Some a else None
  | None => None
  end.

Definition cache_get_event (env : Env) (event_id : string) : M World (option Event) :=
  gets (λ w, live env (c_event (cache w) !! event_id)).

Definition cache_set_event (env : Env) (event_id : string) (e : Event) (ttl : Z)
  : M World unit :=
  modify (set_cache (λ c,
    {| c_event := <[event_id := (e, now env + ttl)]> (c_event c);
       c_booking := c_booking c; c_count := c_count c |})).

Definition cache_get_booking (env : Env) (booking_id : string)
  : M World (option Booking) :=
  gets (λ w, live env (c_booking (cache w) !! booking_id)).

Definition cache_set_booking (env : Env) (booking_id : string) (b : Booking) (ttl : Z)
  : M World unit :=
  modify (set_cache (λ c,
    {| c_event := c_event c;
       c_booking := <[booking_id := (b, now env + ttl)]> (c_booking c);
       c_count := c_count c |})).

Definition cache_delete_booking (booking_id : string) : M World unit :=
  modify (set_cache (λ c,
    {| c_event := c_event c; c_booking := delete booking_id (c_booking c);
       c_count := c_count c |})).

Definition cache_get_count (env : Env) (user_id : string) : M World (option Z) :=
  gets (λ w, live env (c_count (cache w) !! user_id)).

Definition cache_set_count (env : Env) (user_id : string) (n : Z) (ttl : Z)
  : M World unit :=
  modify (set_cache (λ c,
    {| c_event := c_event c; c_booking := c_booking c;
       c_count := <[user_id := (n, now env + ttl)]> (c_count c) |})).

Definition cache_delete_count (user_id : string) : M World unit :=
  modify (set_cache (λ c,
    {| c_event := c_event c; c_booking := c_booking c;
       c_count := delete user_id (c_count c) |})).

(** ** The tables and the queue *)

Definition set_tickets
    (f : gmap (string * string) Ticket -> gmap (string * string) Ticket)
    (w : World) : World :=
  {| events := events w; tickets := f (tickets w); bookings := bookings w;
     cache := cache w; queue := queue w; stdout := stdout w |}.

Definition set_bookings (f : gmap string Booking -> gmap string Booking)
    (w : World) : World :=
  {| events := events w; tickets := tickets w; bookings := f (bookings w);
     cache := cache w; queue := queue w; stdout := stdout w |}.

Definition faulty {A} (env : Env) (c : Call) (k : M World A) : M World A :=
  match fault env c with
  | Some code => raise (ClientError code)
  | None => k
  end.

Definition blank_ticket (event_id ticket_id : string) : Ticket :=
  mkTicket event_id ticket_id None None None None None None.

(** [table.update_item] on the tickets table: the update is applied to the
    stored item, or to a new item that holds only the key, when the
    condition holds of what is stored; otherwise the store answers
    [ConditionalCheckFailedException].  The key attributes are strings. *)
Definition tickets_update_item (env : Env) (site : AttrVal -> AttrVal -> Call)
    (event_id ticket_id : AttrVal)
    (condition : option Ticket -> bool) (update : Ticket -> Ticket) : M World unit :=
  faulty env (site event_id ticket_id)
    match event_id, ticket_id with
    | AStr e, AStr t =>
        stored ← gets (λ w, tickets w !! (e, t));
        if condition stored
        then modify (set_tickets
                       <[(e, t) := update (default (blank_ticket e t) stored)]>)
        else raise (ClientError "ConditionalCheckFailedException")
    | _, _ => raise (ClientError "ValidationException")
    end.

(** [SET #status = :reserved, reserved_by = :user_id, reserved_until = :until]. *)
Definition set_reserved (user_id : string) (until : Z) (t : Ticket) : Ticket :=
  {| tk_event_id := tk_event_id t; tk_ticket_id := tk_ticket_id t;
     tk_tier := tk_tier t; tk_price := tk_price t;
     tk_seat_number := tk_seat_number t;
     tk_status := Some "reserved"; tk_reserved_by := Some user_id;
     tk_reserved_until := Some until |}.

(** [SET #status = :available REMOVE reserved_by, reserved_until]. *)
Definition set_available (t : Ticket) : Ticket :=
  {| tk_event_id := tk_event_id t; tk_ticket_id := tk_ticket_id t;
     tk_tier := tk_tier t; tk_price := tk_price t;
     tk_seat_number := tk_seat_number t;
     tk_status := Some "available"; tk_reserved_by := None;
     tk_reserved_until := None |}.

(** [#status = :available]; an item that is absent has no status. *)
Definition status_is_available (stored : option Ticket) : bool :=
  bool_decide (stored ≫= tk_status = Some "available").

(** [reserved_by = :user_id]. *)
Definition reserved_by_is (user_id : string) (stored : option Ticket) : bool :=
  bool_decide (stored ≫= tk_reserved_by = Some user_id).

Definition unconditional (stored : option Ticket) : bool := true.

(** botocore checks the parameters of a call before it sends it: the
    least [Limit] of a query is 1.  What it raises,
    [ParamValidationError], is not a [ClientError]. *)
Definition validate_limit {A} (limit : Z) (k : M World A) : M World A :=
  if bool_decide (limit < 1)
  then raise (ParamValidationError
                ("Invalid value for parameter Limit, value: " +:+ pretty limit
                 +:+ ", valid min value: 1"))
  else k.

(** [get_available_tickets]: the query on [TicketStatusIndex].  Of the items
    of the event whose status is [available], in the order of the table,
    the store reads at most [Limit = quantity * 2] and then keeps those of
    the tier: DynamoDB applies [Limit] to the items it reads and
    [FilterExpression] to what it has read. *)
Definition get_available_tickets (env : Env) (event_id tier : string) (quantity : Z)
  : M World (list Ticket) :=
  validate_limit (quantity * 2)
    (faulty env (TicketsQuery event_id tier)
       (gets (λ w,
          filter (λ t, tk_tier t = Some tier)
            (take (Z.to_nat (quantity * 2))
               (filter (λ t, tk_event_id t = event_id
                             ∧ tk_status t = Some "available")
                  (snd <$> map_to_list (tickets w))))))).

Definition events_get_item (env : Env) (event_id : string) : M World (option Event) :=
  faulty env (EventsGetItem event_id) (gets (λ w, events w !! event_id)).

(** An item of the bookings table as boto3 returns it: its total amount
    is a [Decimal], whatever the number was when the item was written. *)
Definition as_read (b : Booking) : Booking :=
  {| bk_booking_id := bk_booking_id b; bk_user_id := bk_user_id b;
     bk_event_id := bk_event_id b; bk_tickets := bk_tickets b;
     bk_total_amount := PyDecimal ∘ value <$> bk_total_amount b;
     bk_status := bk_status b; bk_reserved_until := bk_reserved_until b;
     bk_created_at := bk_created_at b; bk_updated_at := bk_updated_at b;
     bk_ttl := bk_ttl b |}.

Definition bookings_get_item (env : Env) (booking_id : string)
  : M World (option Booking) :=
  faulty env (BookingsGetItem booking_id)
    (gets (λ w, as_read <$> bookings w !! booking_id)).

Definition bookings_put_item (env : Env) (b : Booking) : M World unit :=
  faulty env (BookingsPutItem (bk_booking_id b))
    (modify (set_bookings <[bk_booking_id b := b]>)).

Definition blank_booking (booking_id : string) : Booking :=
  mkBooking booking_id None None None None None None None None None.

(** [booking['status'] = status; booking['updated_at'] = updated_at]. *)
Definition set_status (status : string) (updated_at : Z) (b : Booking) : Booking :=
  {| bk_booking_id := bk_booking_id b; bk_user_id := bk_user_id b;
     bk_event_id := bk_event_id b; bk_tickets := bk_tickets b;
     bk_total_amount := bk_total_amount b; bk_status := Some status;
     bk_reserved_until := bk_reserved_until b; bk_created_at := bk_created_at b;
     bk_updated_at := Some updated_at; bk_ttl := bk_ttl b |}.

(** [table.update_item] on the bookings table with
    [SET #status = :status, updated_at = :updated_at] and no condition. *)
Definition bookings_update_item (env : Env) (booking_id status : string)
  : M World unit :=
  faulty env (BookingsUpdateItem booking_id)
    (modify (set_bookings (λ m,
       <[booking_id :=
           set_status status (now env)
             (default (blank_booking booking_id) (m !! booking_id))]> m))).

Definition is_active_status (status : option string) : bool :=
  bool_decide (status = Some "reserved" ∨ status = Some "processing"
               ∨ status = Some "confirmed").

(** The [Select='COUNT'] query on [UserBookingsIndex]. *)
Definition bookings_query_count (env : Env) (user_id : string) : M World Z :=
  faulty env (BookingsQuery user_id)
    (gets (λ w,
       Z.of_nat (length
         (filter
            (λ b, bk_user_id b = Some user_id ∧ is_active_status (bk_status b) = true)
            (snd <$> map_to_list (bookings w)))))).

Definition queue_name (url : QueueUrl) : string :=
  match url with
  | BOOKING_QUEUE_URL => "BOOKING_QUEUE_URL"
  | PAYMENT_QUEUE_URL => "PAYMENT_QUEUE_URL"
  | NOTIFICATION_QUEUE_URL => "NOTIFICATION_QUEUE_URL"
  end.

Definition sqs_send_message (env : Env) (url : QueueUrl) (m : Message) : M World unit :=
  faulty env (SqsSendMessage url)
    (modify (λ w,
       {| events := events w; tickets := tickets w; bookings := bookings w;
          cache := cache w; queue := queue w ++ [(url, m)]; stdout := stdout w |})).

Definition print (line : string) : M World unit :=
  modify (λ w,
    {| events := events w; tickets := tickets w; bookings := bookings w;
       cache := cache w; queue := queue w; stdout := stdout w ++ [line] |}).

(** ** Helper functions of the handler *)

(** [get_event]: cache first, then the events table; found events are
    cached for 300 seconds; a [ClientError] of the store reads as no event. *)
Definition get_event (env : Env) (event_id : string) : M World (option Event) :=
  cached_event ← cache_get_event env event_id;
  match cached_event with
  | Some e => mret (Some e)
  | None =>
      except_ClientError
        (event ← events_get_item env event_id;
         match event with
         | Some e => cache_set_event env event_id e 300
         | None => mret tt
         end;;
         mret event)
        (λ _, mret None)
  end.

(** [reserve_ticket_in_db]: the conditional write [available -> reserved]. *)
Definition reserve_ticket_in_db (env : Env) (event_id ticket_id user_id : string)
  : M World bool :=
  let reserved_until := now env + RESERVATION_TIMEOUT_MINUTES * 60 in
  except_ClientError
    (tickets_update_item env TicketsReserve (AStr event_id) (AStr ticket_id)
       status_is_available (set_reserved user_id reserved_until);;
     mret true)
    (λ code,
       if bool_decide (code = "ConditionalCheckFailedException")
       then mret false
       else raise (ClientError code)).

(** The body of the loop of [rollback_reservations]: the write
    [-> available] under the condition [reserved_by = :user_id].  Both key
    attributes are read from the dict, [ticket['event_id']] first; a
    [ClientError] of the write is passed over. *)
Definition rollback_ticket (env : Env) (user_id : string) (ticket : Dict)
  : M World unit :=
  except_ClientError
    (event_id ← getitem "event_id" (ticket !! "event_id");
     ticket_id ← getitem "ticket_id" (ticket !! "ticket_id");
     tickets_update_item env TicketsRollback event_id ticket_id
       (reserved_by_is user_id) set_available)
    (λ _, mret tt).

(** [rollback_reservations]. *)
Definition rollback_reservations (env : Env) (reserved_tickets : list Dict)
    (user_id : string) : M World unit :=
  for_in reserved_tickets (rollback_ticket env user_id).

(** [get_user_active_bookings_count]: the cached count when there is one,
    else the count of the user's bookings in status reserved, processing or
    confirmed, which is then cached for 60 seconds. *)
Definition get_user_active_bookings_count (env : Env) (user_id : string)
  : M World Z :=
  cached_count ← cache_get_count env user_id;
  match cached_count with
  | Some n => mret n
  | None =>
      count ← bookings_query_count env user_id;
      cache_set_count env user_id count 60;;
      mret count
  end.

(** [get_booking_by_id]: cache first, then the bookings table; a booking
    read from the table is cached for 300 seconds when its status is
    reserved or processing; a [ClientError] reads as no booking. *)
Definition get_booking_by_id (env : Env) (booking_id : string)
  : M World (option Booking) :=
  cached_booking ← cache_get_booking env booking_id;
  match cached_booking with
  | Some b => mret (Some b)
  | None =>
      except_ClientError
        (booking ← bookings_get_item env booking_id;
         match booking with
         | Some b =>
             status ← getitem "status" (bk_status b);
             if bool_decide (status = "reserved" ∨ status = "processing")
             then cache_set_booking env booking_id b 300
             else mret tt
         | None => mret tt
         end;;
         mret booking)
        (λ _, mret None)
  end.

(** [update_booking_status]: the unconditional write of the status, then
    the cache entry is rewritten from whatever [get_booking_by_id] returns. *)
Definition update_booking_status (env : Env) (booking_id status : string)
  : M World unit :=
  bookings_update_item env booking_id status;;
  booking ← get_booking_by_id env booking_id;
  match booking with
  | Some b => cache_set_booking env booking_id (set_status status (now env) b) 300
  | None => mret tt
  end.

(** [release_ticket]: the write [-> available] with no condition; a
    [ClientError] is passed over. *)
Definition release_ticket (env : Env) (event_id ticket_id : AttrVal) : M World unit :=
  except_ClientError
    (tickets_update_item env TicketsRelease event_id ticket_id
       unconditional set_available)
    (λ _, mret tt).

(** The body of the loop of [cancel_booking_internal]:
    [release_ticket(booking['event_id'], ticket['ticket_id'])]. *)
Definition release_booking_ticket (env : Env) (b : Booking) (ticket : Dict)
  : M World unit :=
  event_id ← getitem "event_id" (bk_event_id b);
  ticket_id ← getitem "ticket_id" (ticket !! "ticket_id");
  release_ticket env (AStr event_id) ticket_id.

(** [cancel_booking_internal]. *)
Definition cancel_booking_internal (env : Env) (booking_id : string) : M World unit :=
  booking ← get_booking_by_id env booking_id;
  match booking with
  | None => mret tt
  | Some b =>
      booking_tickets ← getitem "tickets" (bk_tickets b);
      for_in booking_tickets (release_booking_ticket env b);;
      update_booking_status env booking_id "cancelled";;
      cache_delete_booking booking_id;;
      user_id ← getitem "user_id" (bk_user_id b);
      cache_delete_count user_id
  end.

(** [json.dumps(message)], called without [default]: it raises [TypeError]
    on a [Decimal].  The amount is the one value of a message that can be
    one; the other values are strings and parsed JSON. *)
Definition json_dumps (message : Message) : M World unit :=
  match msg_amount message with
  | Some (PyDecimal _) =>
      raise (TypeError "Object of type Decimal is not JSON serializable")
  | _ => mret tt
  end.

(** [send_to_queue]: the message is serialised and sent inside the [try]
    block; a [ClientError] of the queue is printed, not raised, and the
    [TypeError] of [json.dumps] is not caught. *)
Definition send_to_queue (env : Env) (queue_url : QueueUrl) (message : Message)
  : M World unit :=
  except_ClientError
    (json_dumps message;;
     sqs_send_message env queue_url message)
    (λ code,
       print ("Failed to send message to queue " +:+ queue_name queue_url
              +:+ ": " +:+ code)).

(** ** The operations *)

(** The local variables of [reserve_tickets] that its [except] clause reads
    after the [try] block has raised, next to the world. *)
Record Frame := mkFrame {
  reserved_tickets : list Dict;
  total_amount : Number;
  world : World
}.

Definition lift {A} (c : M World A) : M Frame A :=
  λ fr, match c (world fr) with
        | (r, w) => (r, {| reserved_tickets := reserved_tickets fr;
                           total_amount := total_amount fr; world := w |})
        end.

(** [reserved_tickets = []; total_amount = 0] on entry; the world on exit. *)
Definition with_locals {A} (c : M Frame A) : M World A :=
  λ w, match c (mkFrame [] (PyInt 0) w) with
       | (r, fr) => (r, world fr)
       end.

(** [reserved_tickets.append(d)]. *)
Definition append_reserved (d : Dict) : M Frame unit :=
  modify (λ fr, {| reserved_tickets := reserved_tickets fr ++ [d];
                   total_amount := total_amount fr; world := world fr |}).

(** [total_amount += price]: the price is a [Decimal], and so is the sum. *)
Definition add_amount (price : Z) : M Frame unit :=
  modify (λ fr, {| reserved_tickets := reserved_tickets fr;
                   total_amount := PyDecimal (value (total_amount fr) + price);
                   world := world fr |}).

(** Modelled from the spec: [cache_utils.distributed_lock] is not part of
    the sources.  The lock is a blocking mutex with a timeout, and the
    request fails when it cannot be obtained;
    [with cache_utils.distributed_lock(lock_key, timeout=30): c] runs [c]
    when the lock is obtained. *)
Definition distributed_lock {A} (env : Env) (c : M World A) : M World A :=
  if lock_acquired env then c else raise LockTimeout.

(** The dict appended to [reserved_tickets], lines 145-150. *)
Definition snapshot (ticket_id tier : string) (price : Z) (seat_number : string)
  : Dict :=
  {[ "ticket_id" := AStr ticket_id; "tier" := AStr tier; "price" := ANum price;
     "seat_number" := AStr seat_number ]}.

(** The body of the inner loop, lines 136-155. *)
Definition reserve_candidate (env : Env) (event_id user_id tier : string)
    (available_tickets : list Ticket) (i : nat) : M Frame unit :=
  ticket ← getindex available_tickets i;
  let ticket_id := tk_ticket_id ticket in
  reservation_result ← lift (reserve_ticket_in_db env event_id ticket_id user_id);
  if (reservation_result : bool)
  then
    price ← getitem "price" (tk_price ticket);
    append_reserved
      (snapshot ticket_id tier price (default "" (tk_seat_number ticket)));;
    price' ← getitem "price" (tk_price ticket);
    add_amount price'
  else
    reserved ← gets reserved_tickets;
    lift (rollback_reservations env reserved user_id);;
    raise (TicketNotAvailableError ("Ticket " +:+ ticket_id +:+ " no longer available")).

(** The body of the outer loop, lines 125-155. *)
Definition reserve_tier (env : Env) (event_id user_id : string)
    (ticket_request : TicketRequest) : M Frame unit :=
  let tier := tier ticket_request in
  let quantity := quantity ticket_request in
  available_tickets ← lift (get_available_tickets env event_id tier quantity);
  if bool_decide (Z.of_nat (length available_tickets) < quantity)
  then raise (TicketNotAvailableError
                ("Only " +:+ pretty (length available_tickets) +:+ " " +:+ tier
                 +:+ " tickets available"))
  else
    for_in (seq 0 (Z.to_nat quantity))
      (reserve_candidate env event_id user_id tier available_tickets).

(** The [try] block, lines 124-195. *)
Definition reserve_tickets_try (env : Env) (event_id user_id : string)
    (ticket_requests : list TicketRequest) : M Frame Response :=
  for_in ticket_requests (reserve_tier env event_id user_id);;
  let booking_id := uuid4 env in
  let reserved_until := now env + RESERVATION_TIMEOUT_MINUTES * 60 in
  reserved ← gets reserved_tickets;
  total ← gets total_amount;
  let booking :=
    {| bk_booking_id := booking_id; bk_user_id := Some user_id;
       bk_event_id := Some event_id; bk_tickets := Some reserved;
       bk_total_amount := Some total; bk_status := Some "reserved";
       bk_reserved_until := Some reserved_until;
       bk_created_at := Some (now env); bk_updated_at := Some (now env);
       bk_ttl := Some (reserved_until + 3600) |} in
  lift (bookings_put_item env booking);;
  lift (cache_set_booking env booking_id booking (RESERVATION_TIMEOUT_MINUTES * 60));;
  lift (send_to_queue env BOOKING_QUEUE_URL
          {| msg_action := "process_reservation"; msg_booking_id := booking_id;
             msg_user_id := user_id; msg_amount := None;
             msg_payment_method := None |});;
  mret (create_response 201
          (ReservedBody booking_id "reserved" reserved_until reserved total
             RESERVATION_TIMEOUT_MINUTES)).

(** [sum(req['quantity'] for req in ticket_requests)]. *)
Definition total_quantity (ticket_requests : list TicketRequest) : Z :=
  foldr Z.add 0 (quantity <$> ticket_requests).

(** [reserve_tickets]. *)
Definition reserve_tickets (env : Env) (body : Body) (user_id : string)
  : M World Response :=
  match validate_booking_request env body with
  | Some msg => raise (ValidationError msg)
  | None => mret tt
  end;;
  event_id ← getitem "event_id" (b_event_id body);
  ticket_requests ← getitem "tickets" (b_tickets body);
  active_bookings ← get_user_active_bookings_count env user_id;
  let total_requested := total_quantity ticket_requests in
  if bool_decide (active_bookings + total_requested > MAX_TICKETS_PER_USER)
  then raise (BookingError
                ("Maximum " +:+ pretty MAX_TICKETS_PER_USER +:+ " tickets per user"))
  else
    event ← get_event env event_id;
    if bool_decide (event = None ∨ ev_status <$> event ≠ Some "active")
    then raise (BookingError "Event not available for booking")
    else
      distributed_lock env
        (with_locals
           (except_Exception
              (reserve_tickets_try env event_id user_id ticket_requests)
              (λ e,
                 reserved ← gets reserved_tickets;
                 lift (rollback_reservations env reserved user_id);;
                 raise e))).

(** [confirm_booking]. *)
Definition confirm_booking (env : Env) (body : Body) (user_id : string)
  : M World Response :=
  let payment_method := b_payment_method body in
  match b_booking_id body with
  | None | Some "" => raise (ValidationError "booking_id is required")
  | Some booking_id =>
      booking ← get_booking_by_id env booking_id;
      match booking with
      | None => raise (BookingError "Booking not found")
      | Some b =>
          owner ← getitem "user_id" (bk_user_id b);
          if bool_decide (owner ≠ user_id)
          then raise (BookingError "Unauthorized access to booking")
          else
            status ← getitem "status" (bk_status b);
            if bool_decide (status ≠ "reserved")
            then raise (BookingError ("Cannot confirm booking with status: " +:+ status))
            else
              reserved_until ← getitem "reserved_until" (bk_reserved_until b);
              if bool_decide (now env > reserved_until)
              then
                cancel_booking_internal env booking_id;;
                raise (BookingError "Reservation has expired")
              else
                update_booking_status env booking_id "processing";;
                amount ← getitem "total_amount" (bk_total_amount b);
                send_to_queue env PAYMENT_QUEUE_URL
                  {| msg_action := "process_payment"; msg_booking_id := booking_id;
                     msg_user_id := user_id; msg_amount := Some amount;
                     msg_payment_method := payment_method |};;
                mret (create_response 200
                        (ProcessingBody booking_id "processing"
                           "Payment processing initiated"))
      end
  end.

(** [get_booking]. *)
Definition get_booking (env : Env) (booking_id user_id : string) : M World Response :=
  booking ← get_booking_by_id env booking_id;
  match booking with
  | None => mret (create_response 404 (ErrorBody "Booking not found"))
  | Some b =>
      owner ← getitem "user_id" (bk_user_id b);
      if bool_decide (owner ≠ user_id)
      then mret (create_response 403 (ErrorBody "Unauthorized access"))
      else mret (create_response 200 (BookingBody b))
  end.

(** [cancel_booking]. *)
Definition cancel_booking (env : Env) (booking_id user_id : string)
  : M World Response :=
  booking ← get_booking_by_id env booking_id;
  match booking with
  | None => mret (create_response 404 (ErrorBody "Booking not found"))
  | Some b =>
      owner ← getitem "user_id" (bk_user_id b);
      if bool_decide (owner ≠ user_id)
      then mret (create_response 403 (ErrorBody "Unauthorized access"))
      else
        status ← getitem "status" (bk_status b);
        if bool_decide (status = "cancelled" ∨ status = "expired")
        then mret (create_response 409 (ErrorBody "Booking already cancelled"))
        else if bool_decide (status = "confirmed")
        then mret (create_response 409 (ErrorBody "Cannot cancel confirmed booking"))
        else
          cancel_booking_internal env booking_id;;
          mret (create_response 200 (MessageBody "Booking cancelled successfully"))
  end.

(** A query parameter is text.  [Refused e] is a text that the handler
    cannot read, [e] being what is raised when it tries: [int] raises
    [ValueError] on a [limit] that is no numeral, and [json.loads] raises
    [JSONDecodeError], a [ValueError], on a [last_key] that is no JSON;
    a JSON value that is not an object of the three key attributes of the
    index is refused by boto3 or by the store when the query is built.
    [Accepted a] is a text that reads as [a]. *)
Inductive Read (A : Type) :=
  | Refused (e : Exn)
  | Accepted (a : A).
Arguments Refused {A} e.
Arguments Accepted {A} a.

Definition read {A} (x : Read A) : M World A :=
  match x with
  | Refused e => raise e
  | Accepted a => mret a
  end.

(** The query parameters of the listing.  A parameter that is absent is
    [None]; so is a [last_key] that is the empty text, which
    [if last_key:] passes over. *)
Record QueryParams := mkQueryParams {
  qp_limit : option (Read Z);
  qp_last_key : option (Read StartKey);
  qp_status : option string
}.

(** [if status_filter:] on a text that may be absent: the empty text is
    passed over. *)
Definition truthy (s : option string) : option string :=
  match s with
  | Some "" => None
  | _ => s
  end.

(** [UserBookingsIndex] has the key [user_id], [created_at] and holds the
    table's key [booking_id] (its definition is in [seed_data.py]).  A
    query with [ScanIndexForward=False] returns the items of a user by
    [created_at], the latest first.  The store does not say how it orders
    items of the same [created_at]; they are taken by [booking_id]. *)
Definition index_key (b : Booking) : StartKey :=
  {| sk_user_id := default "" (bk_user_id b);
     sk_created_at := default 0 (bk_created_at b);
     sk_booking_id := bk_booking_id b |}.

Definition read_before (k k' : StartKey) : Prop :=
  sk_created_at k' < sk_created_at k
  ∨ (sk_created_at k' = sk_created_at k
     ∧ String.leb (sk_booking_id k') (sk_booking_id k) = true).

Global Instance read_before_dec : RelDecision read_before.
Proof. intros k k'. unfold read_before. apply _. Defined.

(** The item [b] is read after the place that the start key marks. *)
Definition follows (start : StartKey) (b : Booking) : Prop :=
  sk_created_at (index_key b) < sk_created_at start
  ∨ (sk_created_at (index_key b) = sk_created_at start
     ∧ String.ltb (sk_booking_id (index_key b)) (sk_booking_id start) = true).

(** The query of [get_user_bookings] on [UserBookingsIndex].  botocore
    refuses a [Limit] below 1; the store refuses a start key of another
    user.  Otherwise the store reads at most [Limit] items of the user
    after the start key, keeps those that pass the status filter, and when
    it has read [Limit] items it returns the key of the last one it read
    as [LastEvaluatedKey]. *)
Definition bookings_query_page (env : Env) (user_id : string) (limit : Z)
    (start : option StartKey) (status_filter : option string)
  : M World (list Booking * option StartKey) :=
  validate_limit limit
    (faulty env (BookingsQuery user_id)
       (if bool_decide (sk_user_id <$> start = Some user_id ∨ start = None)
        then
          gets (λ w,
            let index :=
              merge_sort (λ a b, read_before (index_key a) (index_key b))
                (filter (λ b, bk_user_id b = Some user_id)
                   (as_read ∘ snd <$> map_to_list (bookings w))) in
            let rest :=
              match start with
              | Some k => filter (follows k) index
              | None => index
              end in
            let page := take (Z.to_nat limit) rest in
            let items :=
              match status_filter with
              | Some s => filter (λ b, bk_status b = Some s) page
              | None => page
              end in
            let last_evaluated :=
              if bool_decide (length page = Z.to_nat limit)
              then index_key <$> last page else None in
            (items, last_evaluated))
        else raise (ClientError "ValidationException"))).

(** [get_user_bookings]: one page of the user's bookings, 20 items unless
    the request sets the limit.  [last_key] of the response is the key
    that [json.dumps] writes. *)
Definition get_user_bookings (env : Env) (user_id : string)
    (query_params : QueryParams) : M World Response :=
  limit ← match qp_limit query_params with
          | Some text => read text
          | None => mret 20
          end;
  let last_key := qp_last_key query_params in
  let status_filter := qp_status query_params in
  start ← match last_key with
          | Some text => k ← read text; mret (Some k)
          | None => mret None
          end;
  '(items, last_evaluated_key) ←
    bookings_query_page env user_id limit start (truthy status_filter);
  mret (create_response 200
          (BookingsBody items (Z.of_nat (length items)) last_evaluated_key)).

(** The request as [lambda_handler] reads it: method, path, the body once
    [json.loads] has parsed it, the [booking_id] path parameter, the query
    parameters and the user identifier the authorizer has set. *)
Record Request := mkRequest {
  httpMethod : string;
  path : string;
  request_body : Body;
  path_booking_id : string;
  queryStringParameters : QueryParams;
  authorizer_user_id : string
}.

(** [str(e)]. *)
Definition str (e : Exn) : string :=
  match e with
  | ValidationError msg => msg
  | BookingError msg => msg
  | TicketNotAvailableError msg => msg
  | ClientError code => "An error occurred (" +:+ code +:+ ")"
  | KeyError key => "'" +:+ key +:+ "'"
  | IndexError => "list index out of range"
  | TypeError msg => msg
  | ValueError msg => msg
  | ParamValidationError report =>
      "Parameter validation failed:" +:+ String (Ascii.ascii_of_nat 10) report
  | LockTimeout => "lock not acquired"
  end.

(** The routing of [lambda_handler], lines 67-80. *)
Definition route (env : Env) (event : Request) : M World Response :=
  let http_method := httpMethod event in
  let path := path event in
  let user_id := authorizer_user_id event in
  if bool_decide (http_method = "POST" ∧ path = "/booking/reserve")
  then reserve_tickets env (request_body event) user_id
  else if bool_decide (http_method = "POST" ∧ path = "/booking/confirm")
  then confirm_booking env (request_body event) user_id
  else if bool_decide (http_method = "GET") && String.prefix "/booking/" path
  then get_booking env (path_booking_id event) user_id
  else if bool_decide (http_method = "DELETE") && String.prefix "/booking/" path
  then cancel_booking env (path_booking_id event) user_id
  else if bool_decide (http_method = "GET" ∧ path = "/user/bookings")
  then get_user_bookings env user_id (queryStringParameters event)
  else mret (create_response 404 (ErrorBody "Endpoint not found")).

(** [lambda_handler]: the route under the four [except] clauses, lines
    82-90.  It never raises. *)
Definition lambda_handler (env : Env) (event : Request) : World -> Response * World :=
  λ w, match route env event w with
       | (Ok r, w') => (r, w')
       | (Raise (ValidationError msg), w') =>
           (create_response 400 (ErrorBody msg), w')
       | (Raise (BookingError msg), w') =>
           (create_response 409 (ErrorBody msg), w')
       | (Raise (TicketNotAvailableError msg), w') =>
           (create_response 409 (ErrorBody msg), w')
       | (Raise e, w') =>
           match print ("Unexpected error: " +:+ str e) w' with
           | (_, w'') => (create_response 500 (ErrorBody "Internal server error"), w'')
           end
       end.

(** ** Definitions used to state the properties *)

(** The three functions of the handler that write to the tickets table. *)
Inductive TicketWrite :=
  | WReserve (event_id ticket_id user_id : string)
  | WRollback (reserved_tickets : list Dict) (user_id : string)
  | WRelease (event_id ticket_id : AttrVal).

(** The world a write leaves. *)
Definition write_world (env : Env) (op : TicketWrite) (w : World) : World :=
  match op with
  | WReserve e t u => (reserve_ticket_in_db env e t u w).2
  | WRollback l u => (rollback_reservations env l u w).2
  | WRelease e t => (release_ticket env e t w).2
  end.

(** Reservation attempts on one ticket, each by its own request, in the
    order in which the store serves their conditional writes. *)
Fixpoint race (attempts : list (Env * string)) (event_id ticket_id : string)
    (w : World) : list (Result bool) * World :=
  match attempts with
  | [] => ([], w)
  | (env, user_id) :: rest =>
      match reserve_ticket_in_db env event_id ticket_id user_id w with
      | (r, w') =>
          match race rest event_id ticket_id w' with
          | (rs, w'') => (r :: rs, w'')
          end
      end
  end.

Definition succeeded (r : Result bool) : bool :=
  match r with
  | Ok true => true
  | _ => false
  end.

Ltac unfold_m :=
  unfold mbind, M_bind, mret, M_ret, raise, gets, modify, faulty,
    except_ClientError, getitem in *.

(** No ticket is in status [reserved] in [w'] unless the same item was
    already stored in [w]. *)
Definition no_new_reservation (w w' : World) : Prop :=
  ∀ k t', tickets w' !! k = Some t' → tk_status t' = Some "reserved" →
          tickets w !! k = Some t'.

(** ** A small venue, used for the concrete runs *)

(** No service faults, the lock is free, every body is valid. *)
Definition quiet (t : Z) : Env :=
  {| now := t; uuid4 := "b-1"; fault := λ _, None; lock_acquired := true;
     validate_booking_request := λ _, None |}.

Definition seat (ticket_id tier : string) (price : Z) : Ticket :=
  mkTicket "e1" ticket_id (Some tier) (Some price) (Some "A01-01")
    (Some "available") None None.

Definition empty_cache : Cache := mkCache ∅ ∅ ∅.

(** One active event with two vip and two standard tickets, all available. *)
Definition venue : World :=
  {| events := {[ "e1" := mkEvent "e1" "active" ]};
     tickets := {[ ("e1", "v1") := seat "v1" "vip" 200;
                   ("e1", "v2") := seat "v2" "vip" 200;
                   ("e1", "s1") := seat "s1" "standard" 50;
                   ("e1", "s2") := seat "s2" "standard" 50 ]};
     bookings := ∅; cache := empty_cache; queue := []; stdout := [] |}.

Definition reserve_request (user_id : string) (l : list TicketRequest) : Request :=
  {| httpMethod := "POST"; path := "/booking/reserve";
     request_body := mkBody (Some "e1") (Some l) None None;
     path_booking_id := "";
     queryStringParameters := mkQueryParams None None None;
     authorizer_user_id := user_id |}.

(** The store serves another request's write to ticket [v2] between the
    query and the write of this one: the conditional write fails. *)
Definition v2_lost (t : Z) : Env :=
  {| now := t; uuid4 := "b-1";
     fault := λ c, match c with
                   | TicketsReserve (AStr "e1") (AStr "v2") =>
                       Some "ConditionalCheckFailedException"
                   | _ => None
                   end;
     lock_acquired := true; validate_booking_request := λ _, None |}.

Definition held (booking_id user_id status : string) (l : list Dict) : Booking :=
  {| bk_booking_id := booking_id; bk_user_id := Some user_id;
     bk_event_id := Some "e1"; bk_tickets := Some l;
     bk_total_amount := Some (PyDecimal 200); bk_status := Some status;
     bk_reserved_until := Some 1300; bk_created_at := Some 1000;
     bk_updated_at := Some 1000; bk_ttl := Some 4900 |}.

(** The venue with five active bookings of user [u1]. *)
Definition five_held : World :=
  {| events := events venue; tickets := tickets venue;
     bookings := {[ "b1" := held "b1" "u1" "reserved" [];
                    "b2" := held "b2" "u1" "reserved" [];
                    "b3" := held "b3" "u1" "processing" [];
                    "b4" := held "b4" "u1" "confirmed" [];
                    "b5" := held "b5" "u1" "confirmed" [] ]};
     cache := empty_cache; queue := []; stdout := [] |}.

(** [w'] differs from [w] at most in the cached bookings. *)
Definition same_but_booking_cache (w w' : World) : Prop :=
  events w' = events w ∧ tickets w' = tickets w ∧ bookings w' = bookings w
  ∧ queue w' = queue w ∧ stdout w' = stdout w
  ∧ c_event (cache w') = c_event (cache w)
  ∧ c_count (cache w') = c_count (cache w).

(** [w'] differs from [w] at most in the tickets table. *)
Definition same_but_tickets (w w' : World) : Prop :=
  events w' = events w ∧ bookings w' = bookings w ∧ cache w' = cache w
  ∧ queue w' = queue w ∧ stdout w' = stdout w.

(** The tickets table after the release loop of [cancel_booking_internal]
    has run over [booking_tickets] with no fault of the store. *)
Fixpoint released (event_id : string) (booking_tickets : list Dict)
    (m : gmap (string * string) Ticket) : gmap (string * string) Ticket :=
  match booking_tickets with
  | [] => m
  | d :: l =>
      released event_id l
        match d !! "ticket_id" with
        | Some (AStr ticket_id) =>
            <[(event_id, ticket_id) :=
                set_available (default (blank_ticket event_id ticket_id)
                                 (m !! (event_id, ticket_id)))]> m
        | _ => m
        end
  end.

(** The venue after user [u1] has reserved one standard ticket at time
    1000: booking [b-1] of ticket [s1], held until 1300. *)
Definition booked : World :=
  (lambda_handler (quiet 1000)
     (reserve_request "u1" [mkTicketRequest "standard" 1]) venue).2.

Definition b_1 (status : string) (updated_at : Z) : Booking :=
  {| bk_booking_id := "b-1"; bk_user_id := Some "u1"; bk_event_id := Some "e1";
     bk_tickets := Some [snapshot "s1" "standard" 50 "A01-01"];
     bk_total_amount := Some (PyDecimal 50); bk_status := Some status;
     bk_reserved_until := Some 1300; bk_created_at := Some 1000;
     bk_updated_at := Some updated_at; bk_ttl := Some 4900 |}.

Definition confirm_body (booking_id : string) : Body :=
  mkBody None None (Some booking_id) (Some "card").

Definition booking_request (method booking_id user_id : string) : Request :=
  {| httpMethod := method; path := "/booking/" +:+ booking_id;
     request_body := mkBody None None None None;
     path_booking_id := booking_id;
     queryStringParameters := mkQueryParams None None None;
     authorizer_user_id := user_id |}.

Definition confirm_request (booking_id user_id : string) : Request :=
  {| httpMethod := "POST"; path := "/booking/confirm";
     request_body := confirm_body booking_id;
     path_booking_id := "";
     queryStringParameters := mkQueryParams None None None;
     authorizer_user_id := user_id |}.

(** [booked] after the booking has been cancelled at time 1100. *)
Definition cancelled : World :=
  (lambda_handler (quiet 1100) (booking_request "DELETE" "b-1" "u1") booked).2.

(** The surroundings [env] with the queue answering every [send_message]
    by [outcome]: [None] when the message is taken, [Some code] when the
    call raises [ClientError]. *)
Definition with_queue (outcome : option string) (env : Env) : Env :=
  {| now := now env; uuid4 := uuid4 env;
     fault := λ c, match c with
                   | SqsSendMessage _ => outcome
                   | _ => fault env c
                   end;
     lock_acquired := lock_acquired env;
     validate_booking_request := validate_booking_request env |}.

(** Booking [b-1] has been paid for: the table holds it as [confirmed] and
    its ticket as [sold], while the cache still holds the copy written at
    the reservation, in status [reserved]. *)
Definition stale : World :=
  {| events := events booked;
     tickets := <[("e1", "s1") :=
                    mkTicket "e1" "s1" (Some "standard") (Some 50) (Some "A01-01")
                      (Some "sold") None None]> (tickets booked);
     bookings := <[ "b-1" := b_1 "confirmed" 1050 ]> (bookings booked);
     cache := cache booked; queue := queue booked; stdout := stdout booked |}.

(** A write to the tickets table is conditional on [guard] when it leaves
    the table as it is whenever [guard] fails of the item stored under
    [key]. *)
Definition ticket_write_conditional (guard : option Ticket → bool)
    (key : string * string) (write : M World unit) : Prop :=
  ∀ w, guard (tickets w !! key) = false → tickets (write w).2 = tickets w.

(** The same for a write to the bookings table. *)
Definition booking_write_conditional (guard : option Booking → bool)
    (key : string) (write : M World unit) : Prop :=
  ∀ w, guard (bookings w !! key) = false → bookings (write w).2 = bookings w.

Definition ticket_is_reserved (stored : option Ticket) : bool :=
  bool_decide (stored ≫= tk_status = Some "reserved").

Definition booking_is_reserved (stored : option Booking) : bool :=
  bool_decide (stored ≫= bk_status = Some "reserved").

Definition reserved_response : Response :=
  create_response 201
    (ReservedBody "b-1" "reserved" 1300 [snapshot "s1" "standard" 50 "A01-01"]
       (PyDecimal 50) 5).

(** [json.dumps] takes the message: its amount is no [Decimal]. *)
Definition serialisable (m : Message) : Prop :=
  ∀ n, msg_amount m ≠ Some (PyDecimal n).

(** [booked] with nothing cached, as after an eviction: booking [b-1] is
    read from the table. *)
Definition uncached : World := set_cache (λ _, empty_cache) booked.

(** The dicts of [reserved_tickets] never have an [event_id]: the loops of
    [reserve_tickets] only append snapshots. *)
Definition no_event_id (fr : Frame) : Prop :=
  Forall (λ d : Dict, d !! "event_id" = None) (reserved_tickets fr).

(** ** Definitions used to state further properties *)

(** The dict [d] names the ticket [ticket_id]. *)
Definition names (d : Dict) (ticket_id : string) : Prop :=
  d !! "ticket_id" = Some (AStr ticket_id).

(** The price a snapshot dict carries, 0 when it carries none. *)
Definition price_of (d : Dict) : Z :=
  match d !! "price" with
  | Some (ANum p) => p
  | _ => 0
  end.

Definition sum_prices (l : list Dict) : Z := foldr Z.add 0 (price_of <$> l).

(** [total_amount] once the dicts of [l] have been collected: the [int] 0
    it starts from, or the [Decimal] sum of their prices. *)
Definition amount_of (l : list Dict) : Number :=
  match l with
  | [] => PyInt 0
  | _ => PyDecimal (sum_prices l)
  end.

(** What holds of the frame of [reserve_tickets] while its loops run
    without raising, for the world [w0] in which the [try] block started:
    nothing but the tickets table has changed; every dict collected so far
    names a ticket that was available in [w0] and is now stored as reserved
    by the user until [until]; every other ticket is as it was; and
    [total_amount] is the sum of the prices collected. *)
Definition reserving (user_id event_id : string) (until : Z) (w0 : World)
    (fr : Frame) : Prop :=
  same_but_tickets w0 (world fr)
  ∧ Forall (λ d, ∃ tid, names d tid) (reserved_tickets fr)
  ∧ (∀ d tid, d ∈ reserved_tickets fr → names d tid →
       ∃ t0, tickets w0 !! (event_id, tid) = Some t0
             ∧ tk_status t0 = Some "available"
             ∧ tickets (world fr) !! (event_id, tid)
               = Some (set_reserved user_id until t0))
  ∧ (∀ k, (∀ d tid, d ∈ reserved_tickets fr → names d tid → k ≠ (event_id, tid)) →
          tickets (world fr) !! k = tickets w0 !! k)
  ∧ total_amount fr = amount_of (reserved_tickets fr).

(** The booking [reserve_tickets] stores, lines 161-172. *)
Definition new_booking (env : Env) (user_id event_id : string)
    (reserved : list Dict) (total : Number) : Booking :=
  {| bk_booking_id := uuid4 env; bk_user_id := Some user_id;
     bk_event_id := Some event_id; bk_tickets := Some reserved;
     bk_total_amount := Some total; bk_status := Some "reserved";
     bk_reserved_until := Some (now env + 5 * 60);
     bk_created_at := Some (now env); bk_updated_at := Some (now env);
     bk_ttl := Some (now env + 5 * 60 + 3600) |}.

(** The message [reserve_tickets] sends, lines 182-186. *)
Definition reservation_message (env : Env) (user_id : string) : Message :=
  {| msg_action := "process_reservation"; msg_booking_id := uuid4 env;
     msg_user_id := user_id; msg_amount := None; msg_payment_method := None |}.

(** What the [try] block of [reserve_tickets] has done when it returns the
    response [r] in the world [w1], having started in [w]. *)
Definition reservation_made (env : Env) (user_id event_id : string)
    (requests : list TicketRequest) (w : World) (r : Response) (w1 : World)
    (reserved : list Dict) : Prop :=
  r = create_response 201
        (ReservedBody (uuid4 env) "reserved" (now env + 5 * 60) reserved
           (amount_of reserved) 5)
  ∧ Forall (λ q, 1 ≤ quantity q) requests
  ∧ Z.of_nat (length reserved) = total_quantity requests
  ∧ Forall (λ d, ∃ tid, names d tid) reserved
  ∧ (∀ d tid, d ∈ reserved → names d tid →
       ∃ t0, tickets w !! (event_id, tid) = Some t0
             ∧ tk_status t0 = Some "available"
             ∧ tickets w1 !! (event_id, tid)
               = Some (set_reserved user_id (now env + 5 * 60) t0))
  ∧ (∀ k, (∀ d tid, d ∈ reserved → names d tid → k ≠ (event_id, tid)) →
          tickets w1 !! k = tickets w !! k)
  ∧ bookings w1
    = <[uuid4 env := new_booking env user_id event_id reserved (amount_of reserved)]>
        (bookings w)
  ∧ c_booking (cache w1)
    = <[uuid4 env := (new_booking env user_id event_id reserved (amount_of reserved),
                      now env + 5 * 60)]> (c_booking (cache w))
  ∧ events w1 = events w
  ∧ match fault env (SqsSendMessage BOOKING_QUEUE_URL) with
    | None =>
        queue w1 = queue w ++ [(BOOKING_QUEUE_URL, reservation_message env user_id)]
        ∧ stdout w1 = stdout w
    | Some code => queue w1 = queue w ∧ length (stdout w1) = S (length (stdout w))
    end.

(** The body of the reservation request of the concrete runs. *)
Definition one_standard : Body :=
  mkBody (Some "e1") (Some [mkTicketRequest "standard" 1]) None None.

(** The number of bookings of the user in the table whose status is
    reserved, processing or confirmed: what the [COUNT] query of
    [get_user_active_bookings_count] returns. *)
Definition active_count (user_id : string) (m : gmap string Booking) : Z :=
  Z.of_nat (length
    (filter
       (λ b, bk_user_id b = Some user_id ∧ is_active_status (bk_status b) = true)
       (snd <$> map_to_list m))).

(** The bookings table cannot be read. *)
Definition bookings_unreadable (t : Z) : Env :=
  {| now := t; uuid4 := "b-2";
     fault := λ c, match c with
                   | BookingsGetItem _ => Some "ProvisionedThroughputExceededException"
                   | _ => None
                   end;
     lock_acquired := true; validate_booking_request := λ _, None |}.

(** [w'] has the tables and the queue of [w]; the cache and the printed
    lines may differ. *)
Definition tables_kept (w w' : World) : Prop :=
  events w' = events w ∧ tickets w' = tickets w ∧ bookings w' = bookings w
  ∧ queue w' = queue w.

(** The candidates that the query of [get_available_tickets] selects from
    the tickets table [m]. *)
Definition candidates (event_id tier : string) (quantity : Z)
    (m : gmap (string * string) Ticket) : list Ticket :=
  filter (λ t, tk_tier t = Some tier)
    (take (Z.to_nat (quantity * 2))
       (filter (λ t, tk_event_id t = event_id ∧ tk_status t = Some "available")
          (snd <$> map_to_list m))).

(** A dict of [reserved_tickets] with the [event_id] that
    [rollback_reservations] reads. *)
Definition keyed (event_id : string) (d : Dict) : Dict :=
  <["event_id" := AStr event_id]> d.

(** The venue with its event closed. *)
Definition closed_venue : World :=
  {| events := {[ "e1" := mkEvent "e1" "cancelled" ]};
     tickets := tickets venue; bookings := ∅; cache := empty_cache;
     queue := []; stdout := [] |}.

(** ** What the store keeps from one state to a later one *)

(** The attributes of a ticket that no update of the handler sets. *)
Definition ticket_kept (t t' : Ticket) : Prop :=
  tk_event_id t' = tk_event_id t ∧ tk_ticket_id t' = tk_ticket_id t
  ∧ tk_tier t' = tk_tier t ∧ tk_price t' = tk_price t
  ∧ tk_seat_number t' = tk_seat_number t.

(** The attributes of a booking that no update of the handler sets. *)
Definition booking_kept (b b' : Booking) : Prop :=
  bk_booking_id b' = bk_booking_id b ∧ bk_user_id b' = bk_user_id b
  ∧ bk_event_id b' = bk_event_id b ∧ bk_tickets b' = bk_tickets b
  ∧ bk_total_amount b' = bk_total_amount b
  ∧ bk_reserved_until b' = bk_reserved_until b
  ∧ bk_created_at b' = bk_created_at b ∧ bk_ttl b' = bk_ttl b.

(** [w'] is a later state of [w]: the events are the same, every ticket is
    still stored with the attributes it was created with, and so is every
    booking but the one named [fresh], which [put_item] may replace; the
    queue and the printed lines have only grown. *)
Definition grows (fresh : string) (w w' : World) : Prop :=
  events w' = events w
  ∧ (∀ k t, tickets w !! k = Some t →
            ∃ t', tickets w' !! k = Some t' ∧ ticket_kept t t')
  ∧ (∀ id b, id ≠ fresh → bookings w !! id = Some b →
             ∃ b', bookings w' !! id = Some b' ∧ booking_kept b b')
  ∧ queue w `prefix_of` queue w'
  ∧ stdout w `prefix_of` stdout w'.

(** The computation [c] takes every state, seen through [proj], to a later
    state, whether it returns or raises. *)
Definition keeps {S A} (fresh : string) (proj : S → World) (c : M S A) : Prop :=
  ∀ s, grows fresh (proj s) (proj (c s).2).

(** The surroundings of a request that draws the identifier [b-2]. *)
Definition second (t : Z) : Env :=
  {| now := t; uuid4 := "b-2"; fault := λ _, None; lock_acquired := true;
     validate_booking_request := λ _, None |}.

(** The computation [c] raises no exception but those of [P]. *)
Definition raises {S A} (P : Exn → Prop) (c : M S A) : Prop :=
  ∀ s e s', c s = (Raise e, s') → P e.


(** ** Reservation of one ticket *)

Section ReserveTicket.
Context (env : Env) (event_id ticket_id user_id : string) (w : World).

Local Abbreviation key := (event_id, ticket_id).
Local Abbreviation until := (now env + RESERVATION_TIMEOUT_MINUTES * 60).

(** Either the stored ticket is available and the call writes the
    reservation and returns [True], or it leaves the world as it is and
    does not return [True]. *)
Lemma reserve_ticket_in_db_cases :
  (∃ t, tickets w !! key = Some t ∧ tk_status t = Some "available"
        ∧ reserve_ticket_in_db env event_id ticket_id user_id w
          = (Ok true, set_tickets <[key := set_reserved user_id until t]> w))
  ∨ (succeeded (reserve_ticket_in_db env event_id ticket_id user_id w).1 = false
     ∧ (reserve_ticket_in_db env event_id ticket_id user_id w).2 = w).
Proof.
  unfold reserve_ticket_in_db, tickets_update_item. unfold_m.
  destruct (fault env _) as [code|] eqn:Hf.
  - right. simpl. case_bool_decide; done.
  - unfold status_is_available.
    destruct (tickets w !! (event_id, ticket_id)) as [t|] eqn:Ht; simpl.
    + case_bool_decide as Hs; simpl.
      * left. exists t. done.
      * right. done.
    + right. done.
Qed.

Lemma reserve_ticket_in_db_unavailable :
  tickets w !! key ≫= tk_status ≠ Some "available" →
  succeeded (reserve_ticket_in_db env event_id ticket_id user_id w).1 = false
  ∧ (reserve_ticket_in_db env event_id ticket_id user_id w).2 = w.
Proof.
  intros Hs. destruct reserve_ticket_in_db_cases as [(t & Ht & Ha & _)|H]; [|done].
  rewrite Ht in Hs. done.
Qed.
End ReserveTicket.

Lemma race_unavailable attempts event_id ticket_id w :
  tickets w !! (event_id, ticket_id) ≫= tk_status ≠ Some "available" →
  (race attempts event_id ticket_id w).2 = w
  ∧ filter (λ r, succeeded r = true) (race attempts event_id ticket_id w).1 = [].
Proof.
  revert w. induction attempts as [|[env u] rest IH]; intros w Hs; [done|].
  simpl.
  destruct (reserve_ticket_in_db_unavailable env event_id ticket_id u w Hs) as [Hr Hw].
  destruct (reserve_ticket_in_db env event_id ticket_id u w) as [r w'].
  simpl in Hr, Hw. subst w'.
  destruct (IH w Hs) as [IHw IHr].
  destruct (race rest event_id ticket_id w) as [rs w'']. simpl in *.
  split; [done|]. rewrite filter_cons_False; [done|]. by rewrite Hr.
Qed.

Lemma race_at_most_one attempts event_id ticket_id w :
  (length (filter (λ r, succeeded r = true)
             (race attempts event_id ticket_id w).1) ≤ 1)%nat.
Proof.
  revert w. induction attempts as [|[env u] rest IH]; intros w; [simpl; lia|].
  simpl.
  destruct (reserve_ticket_in_db_cases env event_id ticket_id u w)
    as [(t & Ht & Ha & Hrun)|[Hr Hw]].
  - rewrite Hrun.
    destruct (race_unavailable rest event_id ticket_id
                (set_tickets <[(event_id, ticket_id) :=
                   set_reserved u (now env + RESERVATION_TIMEOUT_MINUTES * 60) t]> w))
      as [_ Hnone].
    { simpl. rewrite lookup_insert_eq. done. }
    destruct (race rest event_id ticket_id _) as [rs w'']. simpl in *.
    rewrite Hnone. simpl. lia.
  - destruct (reserve_ticket_in_db env event_id ticket_id u w) as [r w'].
    simpl in Hr, Hw. subst w'. specialize (IH w).
    destruct (race rest event_id ticket_id w) as [rs w'']. simpl in *.
    rewrite filter_cons_False; [done|]. by rewrite Hr.
Qed.

(** ** The writes that make a ticket available *)

Lemma no_new_reservation_refl w : no_new_reservation w w.
Proof. by intros k t' H _. Qed.

Lemma no_new_reservation_trans w1 w2 w3 :
  no_new_reservation w1 w2 → no_new_reservation w2 w3 → no_new_reservation w1 w3.
Proof. intros H12 H23 k t' H3 Hs. apply H12; [|done]. by apply H23. Qed.

(** A write of [set_available] touches one key at most and leaves it
    available; the rest of the world is kept. *)
Lemma tickets_update_item_available env site e t cond w :
  (tickets_update_item env site e t cond set_available w).2 = w
  ∨ ∃ ev tid, e = AStr ev ∧ t = AStr tid ∧ cond (tickets w !! (ev, tid)) = true
      ∧ fault env (site e t) = None
      ∧ tickets_update_item env site e t cond set_available w
        = (Ok tt, set_tickets
                    <[(ev, tid) := set_available
                        (default (blank_ticket ev tid) (tickets w !! (ev, tid)))]> w).
Proof.
  unfold tickets_update_item. unfold_m.
  destruct (fault env _); [by left|].
  destruct e as [ev|]; [|by left]. destruct t as [tid|]; [|by left].
  simpl. destruct (cond _) eqn:Hc; [|by left].
  right. by exists ev, tid.
Qed.

Lemma set_available_no_new_reservation w k t :
  no_new_reservation w (set_tickets <[k := set_available t]> w).
Proof.
  intros k' t' Hk Hs. simpl in Hk.
  destruct (decide (k = k')) as [->|Hne].
  - rewrite lookup_insert_eq in Hk. by simplify_eq.
  - by rewrite lookup_insert_ne in Hk.
Qed.

Lemma release_ticket_no_new_reservation env e t w :
  no_new_reservation w (release_ticket env e t w).2.
Proof.
  unfold release_ticket, except_ClientError.
  destruct (tickets_update_item_available env TicketsRelease e t unconditional w)
    as [Hw|(ev & tid & _ & _ & _ & _ & Hrun)].
  - destruct (tickets_update_item _ _ _ _ _ _ _) as [[|[]] w']; simpl in *; subst;
      apply no_new_reservation_refl.
  - rewrite Hrun. apply set_available_no_new_reservation.
Qed.

Lemma for_in_preserves {S A} (R : S → S → Prop) (l : list A)
    (body : A → M S unit) :
  (∀ w, R w w) → (∀ w1 w2 w3, R w1 w2 → R w2 w3 → R w1 w3) →
  (∀ x w, R w (body x w).2) → ∀ w, R w (for_in l body w).2.
Proof.
  intros Hrefl Htrans Hbody. induction l as [|x l IH]; intros w; [apply Hrefl|].
  simpl. unfold mbind, M_bind. specialize (Hbody x w).
  destruct (body x w) as [[[]|e] w1]; simpl in *; [|done].
  eapply Htrans; [exact Hbody|apply IH].
Qed.

Lemma rollback_ticket_no_new_reservation env u d w :
  no_new_reservation w (rollback_ticket env u d w).2.
Proof.
  unfold rollback_ticket, except_ClientError, getitem, mbind, M_bind.
  destruct (d !! "event_id") as [e|]; [|apply no_new_reservation_refl].
  destruct (d !! "ticket_id") as [t|]; [|apply no_new_reservation_refl].
  simpl.
  destruct (tickets_update_item_available env TicketsRollback e t (reserved_by_is u) w)
    as [Hw|(ev & tid & _ & _ & _ & _ & Hrun)].
  - destruct (tickets_update_item _ _ _ _ _ _ _) as [[|[]] w']; simpl in *; subst;
      apply no_new_reservation_refl.
  - rewrite Hrun. apply set_available_no_new_reservation.
Qed.

Lemma rollback_reservations_no_new_reservation env l u w :
  no_new_reservation w (rollback_reservations env l u w).2.
Proof.
  unfold rollback_reservations.
  apply (for_in_preserves no_new_reservation);
    [apply no_new_reservation_refl|apply no_new_reservation_trans|].
  intros. apply rollback_ticket_no_new_reservation.
Qed.

(** Among the writes of the handler to the tickets table, only a
    successful [reserve_ticket_in_db] takes a ticket from [available] to
    [reserved]. *)
Lemma available_to_reserved_only_by_reserve env op w k t t' :
  tickets w !! k = Some t → tk_status t = Some "available" →
  tickets (write_world env op w) !! k = Some t' → tk_status t' = Some "reserved" →
  ∃ user_id,
    op = WReserve k.1 k.2 user_id
    ∧ reserve_ticket_in_db env k.1 k.2 user_id w = (Ok true, write_world env op w)
    ∧ t' = set_reserved user_id (now env + 5 * 60) t.
Proof.
  intros Ht Ha Ht' Hr.
  assert (no_new_reservation w (write_world env op w) → False) as Hno.
  { intros Hno. specialize (Hno k t' Ht' Hr). congruence. }
  destruct op as [e tid u|l u|e tid]; simpl in *.
  - destruct (reserve_ticket_in_db_cases env e tid u w)
      as [(t0 & Ht0 & Ha0 & Hrun)|[_ Hw]].
    + rewrite Hrun in Ht'. simpl in Ht'.
      destruct (decide ((e, tid) = k)) as [<-|Hne].
      * rewrite lookup_insert_eq in Ht'. exists u. simpl.
        rewrite Hrun. simpl. split; [done|]. split; [done|].
        unfold RESERVATION_TIMEOUT_MINUTES in Ht'. congruence.
      * rewrite lookup_insert_ne in Ht' by done. congruence.
    + rewrite Hw in Ht'. congruence.
  - destruct Hno. apply rollback_reservations_no_new_reservation.
  - destruct Hno. apply release_ticket_no_new_reservation.
Qed.

Lemma race_winner attempts event_id ticket_id w i env u :
  attempts !! i = Some (env, u) →
  (race attempts event_id ticket_id w).1 !! i = Some (Ok true) →
  tickets (race attempts event_id ticket_id w).2 !! (event_id, ticket_id)
    ≫= tk_reserved_by = Some u.
Proof.
  revert w i. induction attempts as [|[env0 u0] rest IH]; intros w i Hi Hr; [done|].
  simpl in *.
  destruct (reserve_ticket_in_db_cases env0 event_id ticket_id u0 w)
    as [(t & Ht & Ha & Hrun)|[Hfail Hw]].
  - rewrite Hrun in *.
    destruct (race_unavailable rest event_id ticket_id
                (set_tickets <[(event_id, ticket_id) :=
                   set_reserved u0 (now env0 + RESERVATION_TIMEOUT_MINUTES * 60) t]> w))
      as [Hsame Hnone].
    { simpl. rewrite lookup_insert_eq. done. }
    destruct (race rest event_id ticket_id _) as [rs w'']. simpl in *. subst w''.
    destruct i as [|i]; simpl in *.
    + simplify_eq. rewrite lookup_insert_eq. done.
    + exfalso. apply list_elem_of_lookup_2 in Hr.
      assert (Ok true ∈ filter (λ r, succeeded r = true) rs) as Hin
        by (apply list_elem_of_filter; done).
      rewrite Hnone in Hin. by apply elem_of_nil in Hin.
  - destruct (reserve_ticket_in_db env0 event_id ticket_id u0 w) as [r w'].
    simpl in Hfail, Hw. subst w'. specialize (IH w).
    destruct (race rest event_id ticket_id w) as [rs w'']. simpl in *.
    destruct i as [|i]; simpl in *.
    + by simplify_eq.
    + by apply (IH i).
Qed.

(** C1.  A ticket leaves [available] for [reserved] only through the
    conditional write of [reserve_ticket_in_db], which then records the
    user and the deadline five minutes ahead; the write does nothing unless
    the stored status is [available]; and of the reservation attempts that
    race on one ticket, in whatever order the store serves them, at most
    one succeeds, and the ticket ends up held by the user who made it. *)
Theorem no_double_reservation :
  (∀ env op w k t t',
     tickets w !! k = Some t → tk_status t = Some "available" →
     tickets (write_world env op w) !! k = Some t' →
     tk_status t' = Some "reserved" →
     ∃ user_id,
       op = WReserve k.1 k.2 user_id
       ∧ reserve_ticket_in_db env k.1 k.2 user_id w = (Ok true, write_world env op w)
       ∧ tk_reserved_by t' = Some user_id
       ∧ tk_reserved_until t' = Some (now env + 5 * 60))
  ∧ (∀ env event_id ticket_id user_id w,
       tickets w !! (event_id, ticket_id) ≫= tk_status ≠ Some "available" →
       succeeded (reserve_ticket_in_db env event_id ticket_id user_id w).1 = false
       ∧ (reserve_ticket_in_db env event_id ticket_id user_id w).2 = w)
  ∧ (∀ attempts event_id ticket_id w,
       (length (filter (λ r, succeeded r = true)
                  (race attempts event_id ticket_id w).1) ≤ 1)%nat
       ∧ ∀ i env user_id,
           attempts !! i = Some (env, user_id) →
           (race attempts event_id ticket_id w).1 !! i = Some (Ok true) →
           tickets (race attempts event_id ticket_id w).2 !! (event_id, ticket_id)
             ≫= tk_reserved_by = Some user_id).
Proof.
  split; [|split].
  - intros env op w k t t' Ht Ha Ht' Hr.
    destruct (available_to_reserved_only_by_reserve env op w k t t' Ht Ha Ht' Hr)
      as (u & Hop & Hrun & ->).
    exists u. done.
  - intros. by apply reserve_ticket_in_db_unavailable.
  - intros. split; [apply race_at_most_one|]. intros. by eapply race_winner.
Qed.

(** Two users race on ticket [v1] of the venue: the first is served and
    holds the ticket, the second fails. *)
Lemma no_double_reservation_witness :
  (∃ user_id,
     WReserve "e1" "v1" "u1" = WReserve "e1" "v1" user_id
     ∧ reserve_ticket_in_db (quiet 1000) "e1" "v1" user_id venue
       = (Ok true, write_world (quiet 1000) (WReserve "e1" "v1" "u1") venue)
     ∧ tk_reserved_by (set_reserved "u1" 1300 (seat "v1" "vip" 200)) = Some user_id
     ∧ tk_reserved_until (set_reserved "u1" 1300 (seat "v1" "vip" 200))
       = Some (1000 + 5 * 60))
  ∧ (race [(quiet 1000, "u1"); (quiet 1001, "u2")] "e1" "v1" venue).1
    = [Ok true; Ok false]
  ∧ tickets (race [(quiet 1000, "u1"); (quiet 1001, "u2")] "e1" "v1" venue).2
      !! ("e1", "v1") ≫= tk_reserved_by = Some "u1".
Proof.
  split; [|split].
  - apply (proj1 no_double_reservation (quiet 1000) (WReserve "e1" "v1" "u1") venue
             ("e1", "v1") (seat "v1" "vip" 200)
             (set_reserved "u1" 1300 (seat "v1" "vip" 200)));
      vm_compute; reflexivity.
  - vm_compute. reflexivity.
  - apply (proj2 (proj2 (proj2 no_double_reservation)
                    [(quiet 1000, "u1"); (quiet 1001, "u2")] "e1" "v1" venue)
             0%nat (quiet 1000) "u1"); vm_compute; reflexivity.
Defined.

(** ** Rollback of a failed reservation *)


(** The dicts that [reserve_tickets] collects have no [event_id]. *)
Lemma snapshot_event_id ticket_id tier price seat_number :
  snapshot ticket_id tier price seat_number !! "event_id" = None.
Proof. unfold snapshot. by simplify_map_eq. Qed.

Lemma rollback_ticket_snapshot env u ticket_id tier price seat_number w :
  rollback_ticket env u (snapshot ticket_id tier price seat_number) w
  = (Raise (KeyError "event_id"), w).
Proof.
  unfold rollback_ticket, except_ClientError. unfold_m.
  by rewrite snapshot_event_id.
Qed.

(** So a rollback of a list that is not empty and holds such dicts only
    raises at the first one and writes nothing. *)
Lemma rollback_reservations_no_event_id env l u w :
  l ≠ [] → Forall (λ d : Dict, d !! "event_id" = None) l →
  rollback_reservations env l u w = (Raise (KeyError "event_id"), w).
Proof.
  intros Hne Hall. destruct Hall as [|d l Hd _]; [done|].
  unfold rollback_reservations. simpl. unfold mbind, M_bind.
  unfold rollback_ticket, except_ClientError. unfold_m. by rewrite Hd.
Qed.

Lemma lift_reserved_tickets {A} (c : M World A) fr :
  reserved_tickets (lift c fr).2 = reserved_tickets fr.
Proof. unfold lift. by destruct (c (world fr)). Qed.

Lemma reserve_candidate_no_event_id env event_id user_id tier available i fr :
  no_event_id fr →
  no_event_id (reserve_candidate env event_id user_id tier available i fr).2.
Proof.
  intros Hfr. unfold reserve_candidate, getindex, mbind, M_bind.
  destruct (available !! i) as [ticket|]; [simpl|done].
  pose proof (lift_reserved_tickets
                (reserve_ticket_in_db env event_id (tk_ticket_id ticket) user_id) fr)
    as Hlift.
  destruct (lift _ fr) as [[[|]|e] fr1]; simpl in Hlift.
  - unfold getitem. destruct (tk_price ticket) as [price|]; simpl.
    + unfold no_event_id in *. simpl. rewrite Hlift.
      apply Forall_app. split; [done|].
      constructor; [apply snapshot_event_id|constructor].
    + unfold no_event_id in *. by rewrite Hlift.
  - unfold gets. simpl.
    pose proof (lift_reserved_tickets
                  (rollback_reservations env (reserved_tickets fr1) user_id) fr1)
      as Hlift2.
    destruct (lift _ fr1) as [[[]|e] fr2]; simpl in *;
      unfold no_event_id in *; by rewrite Hlift2, Hlift.
  - simpl. unfold no_event_id in *. by rewrite Hlift.
Qed.

Lemma reserve_tier_no_event_id env event_id user_id request fr :
  no_event_id fr → no_event_id (reserve_tier env event_id user_id request fr).2.
Proof.
  intros Hfr. unfold reserve_tier, mbind, M_bind.
  pose proof (lift_reserved_tickets
                (get_available_tickets env event_id (tier request) (quantity request))
                fr) as Hlift.
  destruct (lift _ fr) as [[available|e] fr1]; simpl in Hlift;
    [|simpl; unfold no_event_id in *; by rewrite Hlift].
  assert (no_event_id fr1) as Hfr1 by (unfold no_event_id in *; by rewrite Hlift).
  case_bool_decide; [done|].
  apply (for_in_preserves (λ fr fr', no_event_id fr → no_event_id fr')); try done.
  - auto.
  - intros. by apply reserve_candidate_no_event_id.
Qed.

(** Once the [try] block has raised with a ticket in [reserved_tickets],
    the [except] clause raises [KeyError] in its turn: no ticket is rolled
    back, and the error that leaves [reserve_tickets] is not the one that
    was raised. *)
Lemma except_clause_raises_KeyError env event_id user_id requests w e fr :
  reserve_tickets_try env event_id user_id requests (mkFrame [] (PyInt 0) w) = (Raise e, fr) →
  reserved_tickets fr ≠ [] →
  with_locals
    (except_Exception
       (reserve_tickets_try env event_id user_id requests)
       (λ e, reserved ← gets reserved_tickets;
             lift (rollback_reservations env reserved user_id);;
             raise e)) w
  = (Raise (KeyError "event_id"), world fr).
Proof.
  intros Hrun Hne.
  assert (no_event_id fr) as Hfr.
  { revert Hrun. unfold reserve_tickets_try, mbind, M_bind.
    pose proof (for_in_preserves (λ fr fr', no_event_id fr → no_event_id fr')
                  requests (reserve_tier env event_id user_id)) as Hloop.
    specialize (Hloop (λ _ H, H) (λ _ _ _ H1 H2 H, H2 (H1 H))
                  (λ x fr0, reserve_tier_no_event_id env event_id user_id x fr0)
                  (mkFrame [] (PyInt 0) w) (Forall_nil_2 _)).
    destruct (for_in requests _ _) as [[[]|e0] fr1]; simpl in Hloop.
    - unfold gets. simpl.
      pose proof (lift_reserved_tickets
                    (bookings_put_item env
                       {| bk_booking_id := uuid4 env; bk_user_id := Some user_id;
                          bk_event_id := Some event_id;
                          bk_tickets := Some (reserved_tickets fr1);
                          bk_total_amount := Some (total_amount fr1);
                          bk_status := Some "reserved";
                          bk_reserved_until :=
                            Some (now env + RESERVATION_TIMEOUT_MINUTES * 60);
                          bk_created_at := Some (now env);
                          bk_updated_at := Some (now env);
                          bk_ttl :=
                            Some (now env + RESERVATION_TIMEOUT_MINUTES * 60 + 3600) |})
                    fr1) as Hput.
      destruct (lift _ fr1) as [[[]|e1] fr2]; simpl in Hput.
      + match goal with
        | |- context [lift ?c ?f] =>
            pose proof (lift_reserved_tickets c f) as Hsend;
            destruct (lift c f) as [[[]|e2] fr3]
        end; [done|].
        intros [= <- <-]. simpl in Hsend. unfold no_event_id in *.
        by rewrite Hsend, Hput.
      + intros [= <- <-]. unfold no_event_id in *. by rewrite Hput.
    - by intros [= <- <-]. }
  unfold with_locals, except_Exception. rewrite Hrun.
  unfold mbind, M_bind, gets, lift. simpl.
  rewrite rollback_reservations_no_event_id by done. done.
Qed.

(** C2.  The request [{vip: 2, standard: 3}] on the venue, where only two
    standard tickets exist: the two vip tickets are reserved, the standard
    tier fails its availability check, the rollback raises [KeyError] on the
    first snapshot, the handler answers 500, and both vip tickets are left
    reserved by the user with no booking that owns them. *)
Theorem failed_tier_leaves_earlier_tiers_reserved :
  let '(response, w') :=
    lambda_handler (quiet 1000)
      (reserve_request "u1" [mkTicketRequest "vip" 2; mkTicketRequest "standard" 3])
      venue in
  response = create_response 500 (ErrorBody "Internal server error")
  ∧ stdout w' = ["Unexpected error: 'event_id'"]
  ∧ tickets w' !! ("e1", "v1") = Some (set_reserved "u1" 1300 (seat "v1" "vip" 200))
  ∧ tickets w' !! ("e1", "v2") = Some (set_reserved "u1" 1300 (seat "v2" "vip" 200))
  ∧ bookings w' = ∅.
Proof. vm_compute. done. Qed.

(** C3.  Whenever [reserved_tickets] holds a ticket reserved in this
    attempt, [rollback_reservations] raises [KeyError] at its first dict and
    writes nothing.  So the request for two vip tickets that loses ticket
    [v2] to another request keeps [v1] reserved and answers 500. *)
Theorem rollback_reservations_writes_nothing :
  (∀ env user_id ticket_id tier price seat_number rest w,
     rollback_reservations env
       (snapshot ticket_id tier price seat_number :: rest) user_id w
     = (Raise (KeyError "event_id"), w))
  ∧ let '(response, w') :=
      lambda_handler (v2_lost 1000)
        (reserve_request "u1" [mkTicketRequest "vip" 2]) venue in
    response = create_response 500 (ErrorBody "Internal server error")
    ∧ tickets w' !! ("e1", "v1") = Some (set_reserved "u1" 1300 (seat "v1" "vip" 200))
    ∧ tickets w' !! ("e1", "v2") = Some (seat "v2" "vip" 200).
Proof.
  split.
  - intros. unfold rollback_reservations. simpl. unfold mbind, M_bind.
    by rewrite rollback_ticket_snapshot.
  - vm_compute. done.
Qed.

(** ** The quota *)

(** The quota enforcer writes to the cache only. *)
Lemma get_user_active_bookings_count_frame env user_id w :
  let w' := (get_user_active_bookings_count env user_id w).2 in
  events w' = events w ∧ tickets w' = tickets w ∧ bookings w' = bookings w
  ∧ queue w' = queue w ∧ stdout w' = stdout w.
Proof.
  unfold get_user_active_bookings_count, cache_get_count, bookings_query_count,
    cache_set_count. unfold_m.
  destruct (live env _); [done|].
  by destruct (fault env _).
Qed.

(** C4.  When the count of the quota enforcer plus the total requested
    quantity exceeds 6, a valid reservation request raises the
    quota-exceeded [BookingError], which the handler answers with 409, and
    the tickets table, the bookings table and the queue are as before. *)
Theorem quota_exceeded_reserves_nothing env body user_id w event_id requests count w1 :
  validate_booking_request env body = None →
  b_event_id body = Some event_id →
  b_tickets body = Some requests →
  get_user_active_bookings_count env user_id w = (Ok count, w1) →
  count + total_quantity requests > 6 →
  reserve_tickets env body user_id w
    = (Raise (BookingError "Maximum 6 tickets per user"), w1)
  ∧ lambda_handler env
      {| httpMethod := "POST"; path := "/booking/reserve"; request_body := body;
         path_booking_id := ""; queryStringParameters := mkQueryParams None None None;
         authorizer_user_id := user_id |} w
    = (create_response 409 (ErrorBody "Maximum 6 tickets per user"), w1)
  ∧ tickets w1 = tickets w ∧ bookings w1 = bookings w ∧ queue w1 = queue w.
Proof.
  intros Hvalid Hev Hreq Hcount Hover.
  assert (reserve_tickets env body user_id w
          = (Raise (BookingError "Maximum 6 tickets per user"), w1)) as Hrun.
  { unfold reserve_tickets. rewrite Hvalid, Hev, Hreq. unfold_m. simpl.
    rewrite Hcount. rewrite bool_decide_eq_true_2 by done. done. }
  split; [done|]. split.
  - unfold lambda_handler, route. simpl. by rewrite Hrun.
  - pose proof (get_user_active_bookings_count_frame env user_id w) as Hframe.
    rewrite Hcount in Hframe. simpl in Hframe.
    by destruct Hframe as (_ & ? & ? & ? & _).
Qed.

(** A user with five active bookings who asks for two more tickets. *)
Lemma quota_exceeded_reserves_nothing_witness :
  lambda_handler (quiet 1000)
    (reserve_request "u1" [mkTicketRequest "vip" 2]) five_held
  = (create_response 409 (ErrorBody "Maximum 6 tickets per user"),
     set_cache (λ c, mkCache ∅ ∅ {[ "u1" := (5, 1060) ]}) five_held)
  ∧ tickets (set_cache (λ c, mkCache ∅ ∅ {[ "u1" := (5, 1060) ]}) five_held)
    = tickets five_held.
Proof.
  pose proof (quota_exceeded_reserves_nothing (quiet 1000)
                (mkBody (Some "e1") (Some [mkTicketRequest "vip" 2]) None None)
                "u1" five_held "e1" [mkTicketRequest "vip" 2] 5
                (set_cache (λ c, mkCache ∅ ∅ {[ "u1" := (5, 1060) ]}) five_held)
                eq_refl eq_refl eq_refl) as H.
  destruct H as (_ & Hhandler & Htickets & _).
  - vm_compute. reflexivity.
  - vm_compute. reflexivity.
  - split; [exact Hhandler|exact Htickets].
Defined.

(** ** Reading a booking *)

Lemma same_but_booking_cache_refl w : same_but_booking_cache w w.
Proof. by repeat split. Qed.

Lemma same_but_booking_cache_trans w1 w2 w3 :
  same_but_booking_cache w1 w2 → same_but_booking_cache w2 w3 →
  same_but_booking_cache w1 w3.
Proof.
  unfold same_but_booking_cache. intros ? ?. destruct_and!.
  repeat split; congruence.
Qed.

(** [get_booking_by_id] writes to the cached bookings only. *)
Lemma get_booking_by_id_frame env booking_id w :
  same_but_booking_cache w (get_booking_by_id env booking_id w).2.
Proof.
  unfold get_booking_by_id, cache_get_booking, bookings_get_item, cache_set_booking.
  unfold_m. destruct (live env _); [apply same_but_booking_cache_refl|].
  destruct (fault env _); [apply same_but_booking_cache_refl|].
  destruct (bookings w !! booking_id) as [b|]; [simpl|apply same_but_booking_cache_refl].
  destruct (bk_status b) as [s|]; [|apply same_but_booking_cache_refl].
  simpl. case_bool_decide; simpl; by repeat split.
Qed.

(** A booking that was just read is read again, the same, with no further
    change: either the cache held it, or it is now cached, or its status
    keeps it out of the cache and the table still holds it. *)
Lemma get_booking_by_id_again env booking_id w b w1 :
  get_booking_by_id env booking_id w = (Ok (Some b), w1) →
  get_booking_by_id env booking_id w1 = (Ok (Some b), w1).
Proof.
  unfold get_booking_by_id, cache_get_booking, bookings_get_item, cache_set_booking.
  unfold_m.
  destruct (live env (c_booking (cache w) !! booking_id)) as [c|] eqn:Hlive.
  { intros [= -> <-]. by rewrite Hlive. }
  destruct (fault env (BookingsGetItem booking_id)) eqn:Hfault; [done|].
  destruct (bookings w !! booking_id) as [b0|] eqn:Hb; [simpl|done].
  destruct (bk_status b0) as [s|] eqn:Hs; [|done].
  simpl. case_bool_decide as Hactive; simpl.
  - intros [= <- <-]. simpl. rewrite lookup_insert_eq. simpl.
    rewrite bool_decide_eq_true_2 by lia. done.
  - intros [= <- <-]. rewrite Hlive. simpl. rewrite Hb. simpl. rewrite Hs. simpl.
    by rewrite bool_decide_eq_false_2.
Qed.

Lemma get_booking_by_id_returns env booking_id w :
  (∀ b, bookings w !! booking_id = Some b → is_Some (bk_status b)) →
  ∃ o, (get_booking_by_id env booking_id w).1 = Ok o.
Proof.
  intros Hstatus.
  unfold get_booking_by_id, cache_get_booking, bookings_get_item, cache_set_booking.
  unfold_m. destruct (live env _); [by eexists|].
  destruct (fault env _); [by eexists|].
  destruct (bookings w !! booking_id) as [b|] eqn:Hb; [simpl|by eexists].
  destruct (Hstatus b eq_refl) as [s ->]. simpl.
  case_bool_decide; by eexists.
Qed.

(** ** Writing the status of a booking *)

(** [update_booking_status] fails only when the store refuses the write;
    otherwise the stored status is overwritten, whatever it was, and
    nothing else changes but the cached bookings. *)
Lemma update_booking_status_cases env booking_id status w :
  match fault env (BookingsUpdateItem booking_id) with
  | Some code =>
      update_booking_status env booking_id status w = (Raise (ClientError code), w)
  | None =>
      ∃ w', update_booking_status env booking_id status w = (Ok tt, w')
            ∧ same_but_booking_cache
                (set_bookings
                   <[booking_id := set_status status (now env)
                       (default (blank_booking booking_id) (bookings w !! booking_id))]>
                   w) w'
  end.
Proof.
  unfold update_booking_status, bookings_update_item, faulty.
  destruct (fault env _); [done|].
  unfold mbind, M_bind, modify.
  set (w2 := set_bookings _ w).
  pose proof (get_booking_by_id_frame env booking_id w2) as Hframe.
  destruct (get_booking_by_id_returns env booking_id w2) as [o Ho].
  { subst w2. simpl. rewrite lookup_insert_eq. intros b [= <-]. by eexists. }
  destruct (get_booking_by_id env booking_id w2) as [r w3]. simpl in Ho, Hframe.
  subst r. destruct o as [b|].
  - eexists. split; [reflexivity|].
    eapply same_but_booking_cache_trans; [exact Hframe|]. by repeat split.
  - eexists. split; [reflexivity|]. exact Hframe.
Qed.

(** ** Releasing the tickets of a booking *)

Lemma same_but_tickets_refl w : same_but_tickets w w.
Proof. by repeat split. Qed.

Lemma same_but_tickets_trans w1 w2 w3 :
  same_but_tickets w1 w2 → same_but_tickets w2 w3 → same_but_tickets w1 w3.
Proof. unfold same_but_tickets. intros ? ?. destruct_and!. repeat split; congruence. Qed.

(** [release_ticket] never raises; without a fault of the store it writes
    the ticket as available over whatever is stored under the key. *)
Lemma release_ticket_cases env e t w :
  release_ticket env e t w = (Ok tt, w)
  ∨ ∃ ev tid, e = AStr ev ∧ t = AStr tid
      ∧ fault env (TicketsRelease e t) = None
      ∧ release_ticket env e t w
        = (Ok tt, set_tickets
                    <[(ev, tid) := set_available
                        (default (blank_ticket ev tid) (tickets w !! (ev, tid)))]> w).
Proof.
  unfold release_ticket, except_ClientError, tickets_update_item, unconditional.
  unfold_m. destruct (fault env _); [by left|].
  destruct e as [ev|]; [|by left]. destruct t as [tid|]; [|by left].
  right. by exists ev, tid.
Qed.

Lemma release_ticket_run env ev tid w :
  fault env (TicketsRelease (AStr ev) (AStr tid)) = None →
  release_ticket env (AStr ev) (AStr tid) w
  = (Ok tt, set_tickets
              <[(ev, tid) := set_available
                  (default (blank_ticket ev tid) (tickets w !! (ev, tid)))]> w).
Proof.
  intros Hf.
  unfold release_ticket, except_ClientError, tickets_update_item, unconditional.
  unfold_m. by rewrite Hf.
Qed.

(** A key attribute that is not a string is refused by the store, and the
    refusal is passed over. *)
Lemma release_ticket_number env e n w :
  release_ticket env e (ANum n) w = (Ok tt, w).
Proof.
  unfold release_ticket, except_ClientError, tickets_update_item, unconditional.
  unfold_m. destruct (fault env _); [done|]. by destruct e.
Qed.

Lemma release_booking_ticket_step env b ev d t w :
  bk_event_id b = Some ev → d !! "ticket_id" = Some t →
  release_booking_ticket env b d w = release_ticket env (AStr ev) t w.
Proof.
  intros Hev Ht. unfold release_booking_ticket, getitem, mbind, M_bind.
  by rewrite Hev, Ht.
Qed.

Lemma release_booking_ticket_frame env b d w :
  same_but_tickets w (release_booking_ticket env b d w).2.
Proof.
  unfold release_booking_ticket, getitem, mbind, M_bind.
  destruct (bk_event_id b) as [ev|]; [|apply same_but_tickets_refl].
  destruct (d !! "ticket_id") as [t|]; [|apply same_but_tickets_refl]. simpl.
  destruct (release_ticket_cases env (AStr ev) t w)
    as [->|(ev' & tid & _ & _ & _ & ->)]; by repeat split.
Qed.

Lemma release_loop_frame env b l w :
  same_but_tickets w (for_in l (release_booking_ticket env b) w).2.
Proof.
  apply (for_in_preserves same_but_tickets);
    [apply same_but_tickets_refl|apply same_but_tickets_trans|].
  intros. apply release_booking_ticket_frame.
Qed.

(** The release loop with a store that takes the writes: every dict that
    names its ticket has it written as available. *)
Lemma release_loop_run env b ev l w :
  bk_event_id b = Some ev →
  Forall (λ d : Dict, is_Some (d !! "ticket_id")) l →
  (∀ e t, fault env (TicketsRelease e t) = None) →
  for_in l (release_booking_ticket env b) w
  = (Ok tt, set_tickets (released ev l) w).
Proof.
  intros Hev Hall Hfault. revert w.
  induction Hall as [|d l [t Ht] _ IH]; intros w; [by destruct w|].
  simpl. unfold mbind at 1, M_bind at 1.
  rewrite (release_booking_ticket_step env b ev d t) by done.
  destruct t as [tid|n].
  - rewrite release_ticket_run by done. rewrite IH.
    unfold set_tickets. simpl. by rewrite Ht.
  - rewrite release_ticket_number. rewrite IH.
    unfold set_tickets. simpl. by rewrite Ht.
Qed.

Lemma set_available_idemp t : set_available (set_available t) = set_available t.
Proof. done. Qed.

Lemma released_lookup_cases ev l m k :
  released ev l m !! k = m !! k
  ∨ released ev l m !! k
    = Some (set_available (default (blank_ticket k.1 k.2) (m !! k))).
Proof.
  revert m. induction l as [|d l IH]; intros m; [by left|].
  simpl. destruct (d !! "ticket_id") as [[tid|n]|]; [|apply IH|apply IH].
  destruct (decide ((ev, tid) = k)) as [<-|Hne].
  - right. destruct (IH (<[(ev, tid) := set_available
                            (default (blank_ticket ev tid) (m !! (ev, tid)))]> m))
      as [-> | ->]; rewrite lookup_insert_eq; done.
  - destruct (IH (<[(ev, tid) := set_available
                      (default (blank_ticket ev tid) (m !! (ev, tid)))]> m))
      as [-> | ->]; rewrite lookup_insert_ne by done; [by left|by right].
Qed.

(** After the release loop a ticket that some dict of the booking names is
    stored as available, with no holder and no deadline, whatever was
    stored before. *)
Lemma released_lookup_named ev l m d tid :
  d ∈ l → d !! "ticket_id" = Some (AStr tid) →
  released ev l m !! (ev, tid)
  = Some (set_available (default (blank_ticket ev tid) (m !! (ev, tid)))).
Proof.
  intros Hin Hd. revert m.
  induction l as [|d' l IH]; intros m; [by apply elem_of_nil in Hin|].
  apply elem_of_cons in Hin as [<-|Hin].
  - simpl. rewrite Hd.
    destruct (released_lookup_cases ev l
                (<[(ev, tid) := set_available
                     (default (blank_ticket ev tid) (m !! (ev, tid)))]> m) (ev, tid))
      as [-> | ->]; rewrite lookup_insert_eq; done.
  - simpl. rewrite (IH Hin).
    destruct (d' !! "ticket_id") as [[tid'|n]|]; [|done|done].
    destruct (decide ((ev, tid') = (ev, tid))) as [[= ->]|Hne].
    + rewrite lookup_insert_eq. done.
    + by rewrite lookup_insert_ne.
Qed.

(** A ticket that no dict of the booking names is left as it was. *)
Lemma released_lookup_other ev l m k :
  (∀ d tid, d ∈ l → d !! "ticket_id" = Some (AStr tid) → k ≠ (ev, tid)) →
  released ev l m !! k = m !! k.
Proof.
  revert m. induction l as [|d l IH]; intros m Hother; [done|].
  simpl. rewrite IH by (intros; eapply Hother; [by right|done]).
  destruct (d !! "ticket_id") as [[tid|n]|] eqn:Hd; [|done|done].
  apply lookup_insert_ne. intros <-. apply (Hother d tid); [by left|done|done].
Qed.

(** ** Cancelling a booking *)

(** [cancel_booking_internal] on a booking that [get_booking_by_id]
    returns, with a store that takes the writes: every ticket the booking
    names is released, the stored status becomes [cancelled], and neither
    the booking nor the owner's count is cached afterwards. *)
Lemma cancel_booking_internal_run env booking_id w b w1 ev tks u :
  get_booking_by_id env booking_id w = (Ok (Some b), w1) →
  bk_event_id b = Some ev → bk_tickets b = Some tks → bk_user_id b = Some u →
  Forall (λ d : Dict, is_Some (d !! "ticket_id")) tks →
  (∀ e t, fault env (TicketsRelease e t) = None) →
  fault env (BookingsUpdateItem booking_id) = None →
  ∃ w', cancel_booking_internal env booking_id w = (Ok tt, w')
        ∧ tickets w' = released ev tks (tickets w)
        ∧ bookings w'
          = <[booking_id := set_status "cancelled" (now env)
                (default (blank_booking booking_id) (bookings w !! booking_id))]>
              (bookings w)
        ∧ c_booking (cache w') !! booking_id = None
        ∧ c_count (cache w') !! u = None
        ∧ events w' = events w ∧ queue w' = queue w ∧ stdout w' = stdout w.
Proof.
  intros Hget Hev Htks Hu Hall Hrel Hupd.
  pose proof (get_booking_by_id_frame env booking_id w) as Hframe.
  rewrite Hget in Hframe. simpl in Hframe.
  destruct Hframe as (He1 & Ht1 & Hb1 & Hq1 & Hs1 & _).
  pose proof (update_booking_status_cases env booking_id "cancelled"
                (set_tickets (released ev tks) w1)) as Hstatus.
  rewrite Hupd in Hstatus.
  destruct Hstatus as (w3 & Hrun & He3 & Ht3 & Hb3 & Hq3 & Hs3 & _).
  simpl in He3, Ht3, Hb3, Hq3, Hs3.
  unfold cancel_booking_internal, mbind, M_bind. rewrite Hget, Htks. simpl.
  rewrite (release_loop_run env b ev tks w1) by done.
  unfold mbind, M_bind in Hrun. rewrite Hrun, Hu. simpl.
  eexists. split; [reflexivity|]. simpl.
  rewrite !lookup_delete_eq. rewrite Ht3, Hb3, He3, Hq3, Hs3.
  rewrite Ht1, Hb1, He1, Hq1, Hs1. done.
Qed.

(** Whenever [cancel_booking_internal] returns on a booking that
    [get_booking_by_id] returns, the stored status is [cancelled] and the
    booking is no longer cached. *)
Lemma cancel_booking_internal_ok env booking_id w b w1 w' :
  get_booking_by_id env booking_id w = (Ok (Some b), w1) →
  cancel_booking_internal env booking_id w = (Ok tt, w') →
  bookings w'
  = <[booking_id := set_status "cancelled" (now env)
        (default (blank_booking booking_id) (bookings w !! booking_id))]> (bookings w)
  ∧ c_booking (cache w') !! booking_id = None.
Proof.
  intros Hget.
  pose proof (get_booking_by_id_frame env booking_id w) as Hframe.
  rewrite Hget in Hframe. simpl in Hframe.
  destruct Hframe as (_ & _ & Hb1 & _).
  unfold cancel_booking_internal, mbind, M_bind. rewrite Hget.
  destruct (bk_tickets b) as [tks|]; [simpl|done].
  pose proof (release_loop_frame env b tks w1) as Hloop.
  destruct (for_in tks (release_booking_ticket env b) w1) as [[[]|e] w2]; [|done].
  simpl in Hloop. destruct Hloop as (_ & Hb2 & _).
  pose proof (update_booking_status_cases env booking_id "cancelled" w2) as Hstatus.
  destruct (fault env (BookingsUpdateItem booking_id)).
  { unfold mbind, M_bind in Hstatus. by rewrite Hstatus. }
  destruct Hstatus as (w3 & Hrun & _ & _ & Hb3 & _).
  unfold mbind, M_bind in Hrun. rewrite Hrun. simpl in Hb3 |- *.
  destruct (bk_user_id b); [simpl|done].
  intros [= <-]. simpl. rewrite lookup_delete_eq, Hb3, Hb2, Hb1. done.
Qed.

(** C5.  Confirming a reserved booking whose deadline has passed cancels
    it: every ticket the booking names is stored as available with no
    holder, the stored status is [cancelled], nothing is enqueued, and the
    call raises the expired-reservation [BookingError]. *)
Theorem confirm_expired_cancels env body booking_id user_id w b w1 ev tks until :
  b_booking_id body = Some booking_id → booking_id ≠ "" →
  get_booking_by_id env booking_id w = (Ok (Some b), w1) →
  bk_user_id b = Some user_id → bk_status b = Some "reserved" →
  bk_reserved_until b = Some until → now env > until →
  bk_event_id b = Some ev → bk_tickets b = Some tks →
  Forall (λ d : Dict, is_Some (d !! "ticket_id")) tks →
  (∀ e t, fault env (TicketsRelease e t) = None) →
  fault env (BookingsUpdateItem booking_id) = None →
  ∃ w', confirm_booking env body user_id w
        = (Raise (BookingError "Reservation has expired"), w')
        ∧ (∀ d tid, d ∈ tks → d !! "ticket_id" = Some (AStr tid) →
             ∃ t, tickets w' !! (ev, tid) = Some t
                  ∧ tk_status t = Some "available"
                  ∧ tk_reserved_by t = None ∧ tk_reserved_until t = None)
        ∧ bookings w' !! booking_id ≫= bk_status = Some "cancelled"
        ∧ queue w' = queue w.
Proof.
  intros Hid Hne Hget Hu Hs Hr Hlate Hev Htks Hall Hrel Hupd.
  pose proof (get_booking_by_id_frame env booking_id w) as Hframe.
  rewrite Hget in Hframe. simpl in Hframe.
  destruct Hframe as (_ & Ht1 & Hb1 & Hq1 & _).
  destruct (cancel_booking_internal_run env booking_id w1 b w1 ev tks user_id)
    as (w' & Hrun & Ht & Hb & _ & _ & _ & Hq & _); try done.
  { by apply get_booking_by_id_again in Hget. }
  exists w'. split; [|split; [|split]].
  - unfold confirm_booking. rewrite Hid.
    destruct booking_id as [|c s]; [done|].
    unfold mbind, M_bind. rewrite Hget, Hu. simpl.
    rewrite bool_decide_eq_false_2 by (intros H; by apply H).
    rewrite Hs. simpl. rewrite Hr. simpl.
    rewrite bool_decide_eq_true_2 by done.
    unfold mbind, M_bind in Hrun. by rewrite Hrun.
  - intros d tid Hin Hd. rewrite Ht, (released_lookup_named ev tks _ d tid) by done.
    by eexists.
  - rewrite Hb, lookup_insert_eq. done.
  - congruence.
Qed.

(** Booking [b-1], made at time 1000 with a deadline at 1300, is confirmed
    at time 1400. *)
Lemma confirm_expired_cancels_witness :
  ∃ w', confirm_booking (quiet 1400) (confirm_body "b-1") "u1" booked
        = (Raise (BookingError "Reservation has expired"), w')
        ∧ (∀ d tid, d ∈ [snapshot "s1" "standard" 50 "A01-01"] →
             d !! "ticket_id" = Some (AStr tid) →
             ∃ t, tickets w' !! ("e1", tid) = Some t
                  ∧ tk_status t = Some "available"
                  ∧ tk_reserved_by t = None ∧ tk_reserved_until t = None)
        ∧ bookings w' !! "b-1" ≫= bk_status = Some "cancelled"
        ∧ queue w' = queue booked.
Proof.
  apply (confirm_expired_cancels (quiet 1400) (confirm_body "b-1") "b-1" "u1" booked
           (b_1 "reserved" 1000) (get_booking_by_id (quiet 1400) "b-1" booked).2
           "e1" [snapshot "s1" "standard" 50 "A01-01"] 1300).
  - reflexivity.
  - discriminate.
  - vm_compute. reflexivity.
  - reflexivity.
  - reflexivity.
  - reflexivity.
  - reflexivity.
  - reflexivity.
  - reflexivity.
  - repeat constructor. vm_compute. eexists. reflexivity.
  - reflexivity.
  - reflexivity.
Defined.

(** C6 does not hold as stated.  The status that [cancel_booking] checks
    is that of the copy [get_booking_by_id] returns, which is the cached
    one while the cache holds one.  Booking [b-1] is stored as [confirmed]
    and cached as [reserved]: its cancellation is answered with 200, its
    ticket, stored as [sold], is written as available, and the stored
    status becomes [cancelled]. *)
Lemma cancel_checks_the_cached_status :
  bookings stale !! "b-1" ≫= bk_status = Some "confirmed"
  ∧ live (quiet 1100) (c_booking (cache stale) !! "b-1") ≫= bk_status
    = Some "reserved"
  ∧ (lambda_handler (quiet 1100) (booking_request "DELETE" "b-1" "u1") stale).1
    = create_response 200 (MessageBody "Booking cancelled successfully")
  ∧ tickets stale !! ("e1", "s1") ≫= tk_status = Some "sold"
  ∧ tickets (lambda_handler (quiet 1100) (booking_request "DELETE" "b-1" "u1") stale).2
      !! ("e1", "s1") ≫= tk_status = Some "available"
  ∧ bookings (lambda_handler (quiet 1100) (booking_request "DELETE" "b-1" "u1") stale).2
      !! "b-1" ≫= bk_status = Some "cancelled".
Proof.
  repeat split; vm_compute; reflexivity.
Qed.

(** C6, amended.  [cancel_booking] by the owner, on the booking as
    [get_booking_by_id] returns it.  When its status is [cancelled],
    [expired] or [confirmed] the answer is 409 and neither table is
    written.  Otherwise the booking is cancelled: every ticket it names is
    stored with status [available] and without holder and deadline,
    whatever was stored for it and whoever held it, its other attributes
    being kept; every other ticket is stored as before; the stored status
    of the booking is [cancelled]; and neither the booking nor the owner's
    count is cached afterwards. *)
Theorem cancel_booking_guarded env booking_id user_id w b w1 status :
  get_booking_by_id env booking_id w = (Ok (Some b), w1) →
  bk_user_id b = Some user_id → bk_status b = Some status →
  (status ∈ ["cancelled"; "expired"; "confirmed"] →
   ∃ msg, cancel_booking env booking_id user_id w
          = (Ok (create_response 409 (ErrorBody msg)), w1)
          ∧ tickets w1 = tickets w ∧ bookings w1 = bookings w)
  ∧ (status ∉ ["cancelled"; "expired"; "confirmed"] →
     ∀ ev tks,
       bk_event_id b = Some ev → bk_tickets b = Some tks →
       Forall (λ d : Dict, is_Some (d !! "ticket_id")) tks →
       (∀ e t, fault env (TicketsRelease e t) = None) →
       fault env (BookingsUpdateItem booking_id) = None →
       ∃ w', cancel_booking env booking_id user_id w
             = (Ok (create_response 200 (MessageBody "Booking cancelled successfully")),
                w')
             ∧ (∀ d tid, d ∈ tks → d !! "ticket_id" = Some (AStr tid) →
                  ∃ t, tickets w' !! (ev, tid) = Some t
                       ∧ tk_status t = Some "available"
                       ∧ tk_reserved_by t = None ∧ tk_reserved_until t = None
                       ∧ ∀ t0, tickets w !! (ev, tid) = Some t0 →
                               tk_event_id t = tk_event_id t0
                               ∧ tk_ticket_id t = tk_ticket_id t0
                               ∧ tk_tier t = tk_tier t0 ∧ tk_price t = tk_price t0
                               ∧ tk_seat_number t = tk_seat_number t0)
             ∧ (∀ k, (∀ d tid, d ∈ tks → d !! "ticket_id" = Some (AStr tid) →
                              k ≠ (ev, tid)) →
                     tickets w' !! k = tickets w !! k)
             ∧ bookings w' !! booking_id ≫= bk_status = Some "cancelled"
             ∧ c_booking (cache w') !! booking_id = None
             ∧ c_count (cache w') !! user_id = None).
Proof.
  intros Hget Hu Hs.
  pose proof (get_booking_by_id_frame env booking_id w) as Hframe.
  rewrite Hget in Hframe. simpl in Hframe.
  destruct Hframe as (_ & Ht1 & Hb1 & _).
  assert (cancel_booking env booking_id user_id w
          = (if bool_decide (status = "cancelled" ∨ status = "expired")
             then mret (create_response 409 (ErrorBody "Booking already cancelled"))
             else if bool_decide (status = "confirmed")
             then mret (create_response 409
                          (ErrorBody "Cannot cancel confirmed booking"))
             else cancel_booking_internal env booking_id;;
                  mret (create_response 200
                          (MessageBody "Booking cancelled successfully"))) w1)
    as Hstep.
  { unfold cancel_booking, mbind, M_bind.
    rewrite Hget, Hu. simpl.
    rewrite (bool_decide_eq_false_2 (user_id ≠ user_id)) by (intros H; by apply H).
    by rewrite Hs. }
  split.
  - intros Hin. rewrite Hstep.
    case_bool_decide as H1; [by eexists|].
    case_bool_decide as H2; [by eexists|].
    exfalso. rewrite !elem_of_cons, elem_of_nil in Hin. tauto.
  - intros Hout ev tks Hev Htks Hall Hrel Hupd. rewrite Hstep.
    rewrite bool_decide_eq_false_2
      by (intros [->| ->]; apply Hout; repeat constructor).
    rewrite bool_decide_eq_false_2 by (intros ->; apply Hout; repeat constructor).
    destruct (cancel_booking_internal_run env booking_id w1 b w1 ev tks user_id)
      as (w' & Hrun & Ht & Hb & Hcb & Hcc & _); try done.
    { by apply get_booking_by_id_again in Hget. }
    exists w'. unfold mbind, M_bind in Hrun |- *. rewrite Hrun.
    split; [done|]. split; [|split; [|split; [|done]]].
    + intros d tid Hin Hd.
      rewrite Ht, (released_lookup_named ev tks _ d tid) by done. rewrite Ht1.
      eexists. split; [done|]. simpl. repeat (split; [done|]).
      by intros t0 ->.
    + intros k Hk. rewrite Ht, released_lookup_other by done. by rewrite Ht1.
    + rewrite Hb, lookup_insert_eq. done.
Qed.

(** Booking [b-1] is cancelled by its owner while it is held, and cancelled
    once more afterwards. *)
Lemma cancel_booking_guarded_witness :
  (∃ msg, cancel_booking (quiet 1200) "b-1" "u1" cancelled
          = (Ok (create_response 409 (ErrorBody msg)), cancelled)
          ∧ tickets cancelled = tickets cancelled
          ∧ bookings cancelled = bookings cancelled)
  ∧ ∃ w', cancel_booking (quiet 1100) "b-1" "u1" booked
          = (Ok (create_response 200 (MessageBody "Booking cancelled successfully")),
             w')
          ∧ (∀ d tid, d ∈ [snapshot "s1" "standard" 50 "A01-01"] →
               d !! "ticket_id" = Some (AStr tid) →
               ∃ t, tickets w' !! ("e1", tid) = Some t
                    ∧ tk_status t = Some "available"
                    ∧ tk_reserved_by t = None ∧ tk_reserved_until t = None
                    ∧ ∀ t0, tickets booked !! ("e1", tid) = Some t0 →
                            tk_event_id t = tk_event_id t0
                            ∧ tk_ticket_id t = tk_ticket_id t0
                            ∧ tk_tier t = tk_tier t0 ∧ tk_price t = tk_price t0
                            ∧ tk_seat_number t = tk_seat_number t0)
          ∧ (∀ k, (∀ d tid, d ∈ [snapshot "s1" "standard" 50 "A01-01"] →
                           d !! "ticket_id" = Some (AStr tid) → k ≠ ("e1", tid)) →
                  tickets w' !! k = tickets booked !! k)
          ∧ bookings w' !! "b-1" ≫= bk_status = Some "cancelled"
          ∧ c_booking (cache w') !! "b-1" = None
          ∧ c_count (cache w') !! "u1" = None.
Proof.
  split.
  - apply (proj1 (cancel_booking_guarded (quiet 1200) "b-1" "u1" cancelled
                    (b_1 "cancelled" 1100) cancelled "cancelled"
                    ltac:(vm_compute; reflexivity) eq_refl eq_refl)).
    repeat constructor.
  - apply (proj2 (cancel_booking_guarded (quiet 1100) "b-1" "u1" booked
                    (b_1 "reserved" 1000) booked "reserved"
                    ltac:(vm_compute; reflexivity) eq_refl eq_refl)).
    + intros Hin.
      repeat (apply elem_of_cons in Hin as [Hin|Hin]; [discriminate|]).
      by apply elem_of_nil in Hin.
    + reflexivity.
    + reflexivity.
    + repeat constructor. vm_compute. eexists. reflexivity.
    + reflexivity.
    + reflexivity.
Defined.

(** ** Reading a booking after its cancellation *)

(** What a cancellation that answers 200 has done. *)
Lemma cancel_booking_200 env booking_id user_id w r w' :
  cancel_booking env booking_id user_id w = (Ok r, w') → statusCode r = 200 →
  bookings w'
  = <[booking_id := set_status "cancelled" (now env)
        (default (blank_booking booking_id) (bookings w !! booking_id))]> (bookings w)
  ∧ c_booking (cache w') !! booking_id = None.
Proof.
  unfold cancel_booking, mbind, M_bind.
  destruct (get_booking_by_id env booking_id w) as [[[b|]|e] w1] eqn:Hget;
    [|by intros [= <- <-]|done].
  pose proof (get_booking_by_id_frame env booking_id w) as Hframe.
  rewrite Hget in Hframe. simpl in Hframe. destruct Hframe as (_ & _ & Hb1 & _).
  apply get_booking_by_id_again in Hget.
  destruct (bk_user_id b) as [owner|]; [simpl|done].
  case_bool_decide; [by intros [= <- <-]|].
  destruct (bk_status b) as [status|]; [simpl|done].
  case_bool_decide; [by intros [= <- <-]|].
  case_bool_decide; [by intros [= <- <-]|].
  destruct (cancel_booking_internal env booking_id w1) as [[[]|e] w2] eqn:Hrun; [|done].
  intros [= <- <-] _.
  destruct (cancel_booking_internal_ok env booking_id w1 b w1 w2 Hget Hrun) as [Hb Hc].
  by rewrite Hb, Hb1.
Qed.

(** A booking that the table holds with status [cancelled] and the cache
    does not hold is read from the table, and the read leaves the world as
    it is. *)
Lemma get_booking_by_id_cancelled env booking_id w b :
  c_booking (cache w) !! booking_id = None →
  bookings w !! booking_id = Some b → bk_status b = Some "cancelled" →
  fault env (BookingsGetItem booking_id) = None →
  get_booking_by_id env booking_id w = (Ok (Some (as_read b)), w).
Proof.
  intros Hc Hb Hs Hf.
  unfold get_booking_by_id, cache_get_booking, bookings_get_item. unfold_m.
  rewrite Hc, Hf. simpl. rewrite Hb. simpl. rewrite Hs. simpl. done.
Qed.

(** C9.  Take two worlds whose bookings tables agree and whose caches may
    differ, so that one cancellation finds the booking in the cache and the
    other reads it from the table.  After either cancellation has answered
    200, the booking is not cached, and reading it, at any later time,
    returns from the table the same booking in both worlds, with status
    [cancelled]. *)
Theorem read_after_cancel env env' booking_id user_id hit miss r1 r2 hit' miss' :
  bookings hit = bookings miss →
  cancel_booking env booking_id user_id hit = (Ok r1, hit') → statusCode r1 = 200 →
  cancel_booking env booking_id user_id miss = (Ok r2, miss') → statusCode r2 = 200 →
  fault env' (BookingsGetItem booking_id) = None →
  ∃ b, bk_status b = Some "cancelled"
       ∧ c_booking (cache hit') !! booking_id = None
       ∧ c_booking (cache miss') !! booking_id = None
       ∧ get_booking_by_id env' booking_id hit' = (Ok (Some b), hit')
       ∧ get_booking_by_id env' booking_id miss' = (Ok (Some b), miss').
Proof.
  intros Hsame Hrun1 H1 Hrun2 H2 Hf.
  destruct (cancel_booking_200 _ _ _ _ _ _ Hrun1 H1) as [Hb1 Hc1].
  destruct (cancel_booking_200 _ _ _ _ _ _ Hrun2 H2) as [Hb2 Hc2].
  exists (as_read
            (set_status "cancelled" (now env)
               (default (blank_booking booking_id) (bookings miss !! booking_id)))).
  split; [done|]. split; [done|]. split; [done|]. split.
  - apply get_booking_by_id_cancelled; try done.
    by rewrite Hb1, Hsame, lookup_insert_eq.
  - apply get_booking_by_id_cancelled; try done.
    by rewrite Hb2, lookup_insert_eq.
Qed.

(** Booking [b-1] is cancelled at time 1100 once with the cache entry that
    the reservation wrote and once with an empty cache, and read at 1101. *)
Lemma read_after_cancel_witness :
  ∃ b, bk_status b = Some "cancelled"
       ∧ c_booking (cache cancelled) !! "b-1" = None
       ∧ c_booking
           (cache (cancel_booking (quiet 1100) "b-1" "u1"
                     (set_cache (λ _, empty_cache) booked)).2) !! "b-1" = None
       ∧ get_booking_by_id (quiet 1101) "b-1" cancelled = (Ok (Some b), cancelled)
       ∧ get_booking_by_id (quiet 1101) "b-1"
           (cancel_booking (quiet 1100) "b-1" "u1"
              (set_cache (λ _, empty_cache) booked)).2
         = (Ok (Some b),
            (cancel_booking (quiet 1100) "b-1" "u1"
               (set_cache (λ _, empty_cache) booked)).2).
Proof.
  apply (read_after_cancel (quiet 1100) (quiet 1101) "b-1" "u1"
           booked (set_cache (λ _, empty_cache) booked)
           (create_response 200 (MessageBody "Booking cancelled successfully"))
           (create_response 200 (MessageBody "Booking cancelled successfully"))).
  - reflexivity.
  - vm_compute. reflexivity.
  - reflexivity.
  - vm_compute. reflexivity.
  - reflexivity.
  - reflexivity.
Defined.

(** ** The queue *)

(** Nothing but [send_to_queue] looks at the outcome of the queue. *)
Lemma get_user_active_bookings_count_with_queue q env :
  get_user_active_bookings_count (with_queue q env) = get_user_active_bookings_count env.
Proof. reflexivity. Qed.

Lemma get_event_with_queue q env : get_event (with_queue q env) = get_event env.
Proof. reflexivity. Qed.

Lemma reserve_tier_with_queue q env : reserve_tier (with_queue q env) = reserve_tier env.
Proof. reflexivity. Qed.

Lemma rollback_reservations_with_queue q env :
  rollback_reservations (with_queue q env) = rollback_reservations env.
Proof. reflexivity. Qed.

Lemma bookings_put_item_with_queue q env :
  bookings_put_item (with_queue q env) = bookings_put_item env.
Proof. reflexivity. Qed.

Lemma get_booking_by_id_with_queue q env :
  get_booking_by_id (with_queue q env) = get_booking_by_id env.
Proof. reflexivity. Qed.

Lemma update_booking_status_with_queue q env :
  update_booking_status (with_queue q env) = update_booking_status env.
Proof. reflexivity. Qed.

Lemma cancel_booking_internal_with_queue q env :
  cancel_booking_internal (with_queue q env) = cancel_booking_internal env.
Proof. reflexivity. Qed.

Lemma json_dumps_ok m w : serialisable m → json_dumps m w = (Ok tt, w).
Proof.
  intros Hm. unfold json_dumps. destruct (msg_amount m) as [[n|n]|] eqn:Ha; try done.
  by destruct (Hm n).
Qed.

Lemma json_dumps_decimal m n w :
  msg_amount m = Some (PyDecimal n) →
  json_dumps m w
  = (Raise (TypeError "Object of type Decimal is not JSON serializable"), w).
Proof. intros Ha. unfold json_dumps. by rewrite Ha. Qed.

(** [send_to_queue] of a message that [json.dumps] takes never raises: the
    message is enqueued, or the failure of the queue is printed. *)
Lemma send_to_queue_up env url m w :
  serialisable m →
  send_to_queue (with_queue None env) url m w
  = (Ok tt, {| events := events w; tickets := tickets w; bookings := bookings w;
               cache := cache w; queue := queue w ++ [(url, m)];
               stdout := stdout w |}).
Proof.
  intros Hm. unfold send_to_queue, except_ClientError, mbind, M_bind.
  by rewrite json_dumps_ok.
Qed.

Lemma send_to_queue_down code env url m w :
  serialisable m →
  send_to_queue (with_queue (Some code) env) url m w
  = (Ok tt, {| events := events w; tickets := tickets w; bookings := bookings w;
               cache := cache w; queue := queue w;
               stdout := stdout w ++ ["Failed to send message to queue "
                                      +:+ queue_name url +:+ ": " +:+ code] |}).
Proof.
  intros Hm. unfold send_to_queue, except_ClientError, mbind, M_bind.
  by rewrite json_dumps_ok.
Qed.

(** [send_to_queue] of a message whose amount is a [Decimal] raises the
    [TypeError] of [json.dumps], whatever the queue would have answered:
    nothing is sent and nothing is printed. *)
Lemma send_to_queue_decimal env url m n w :
  msg_amount m = Some (PyDecimal n) →
  send_to_queue env url m w
  = (Raise (TypeError "Object of type Decimal is not JSON serializable"), w).
Proof.
  intros Ha. unfold send_to_queue, except_ClientError, mbind, M_bind.
  by rewrite (json_dumps_decimal m n).
Qed.

Lemma reserve_tickets_queue_down env code body user_id w r w1 :
  reserve_tickets (with_queue None env) body user_id w = (Ok r, w1) →
  ∃ w2 m, reserve_tickets (with_queue (Some code) env) body user_id w = (Ok r, w2)
          ∧ tickets w2 = tickets w1 ∧ bookings w2 = bookings w1
          ∧ cache w2 = cache w1 ∧ queue w1 = queue w2 ++ [m]
          ∧ ∃ line, stdout w2 = stdout w1 ++ [line].
Proof.
  unfold reserve_tickets.
  rewrite !get_user_active_bookings_count_with_queue, !get_event_with_queue.
  cbn [validate_booking_request with_queue].
  unfold mbind, M_bind.
  destruct (validate_booking_request env body); [done|]. cbn [mret M_ret].
  destruct (getitem "event_id" (b_event_id body) w) as [[event_id|e] wa]; [|done].
  destruct (getitem "tickets" (b_tickets body) wa) as [[requests|e] wb]; [|done].
  destruct (get_user_active_bookings_count env user_id wb) as [[n|e] wc]; [|done].
  case_bool_decide; [done|].
  destruct (get_event env event_id wc) as [[event|e] wd]; [|done].
  case_bool_decide; [done|].
  unfold distributed_lock. cbn [with_queue lock_acquired].
  destruct (lock_acquired env); [|done].
  unfold with_locals, except_Exception, reserve_tickets_try.
  rewrite !reserve_tier_with_queue, !rollback_reservations_with_queue,
    !bookings_put_item_with_queue.
  cbn [now uuid4 with_queue].
  unfold mbind, M_bind.
  destruct (for_in requests (reserve_tier env event_id user_id) _) as [[[]|e] fr1].
  2:{ unfold gets. simpl.
      by destruct (lift (rollback_reservations env (reserved_tickets fr1) user_id) fr1)
        as [[[]|e'] fr2]. }
  unfold gets. simpl.
  destruct (lift (bookings_put_item env _) fr1) as [[[]|e] fr2].
  - intros [= <- <-]. eexists _, _. split; [reflexivity|]. simpl.
    repeat (split; [done|]). by eexists.
  - by destruct (lift (rollback_reservations env (reserved_tickets fr2) user_id) fr2)
      as [[[]|e'] fr3].
Qed.

(** C10 does not hold for a confirmation.  [send_to_queue] serialises
    the message inside its [try] block with [json.dumps], and the amount of
    the payment message is the booking's total, a [Decimal] as boto3 reads
    it: [json.dumps] raises [TypeError], which [except ClientError] does
    not catch.  Confirming booking [b-1], read from the table, writes the
    status [processing], enqueues nothing, and is answered with 500 and a
    printed line; the queue itself was never asked. *)
Theorem payment_message_failure_is_raised :
  (get_booking_by_id (quiet 1100) "b-1" uncached).1
  = Ok (Some (b_1 "reserved" 1000))
  ∧ (lambda_handler (quiet 1100) (confirm_request "b-1" "u1") uncached).1
    = create_response 500 (ErrorBody "Internal server error")
  ∧ bookings (lambda_handler (quiet 1100) (confirm_request "b-1" "u1") uncached).2
      !! "b-1" ≫= bk_status = Some "processing"
  ∧ queue (lambda_handler (quiet 1100) (confirm_request "b-1" "u1") uncached).2
    = queue uncached
  ∧ stdout (lambda_handler (quiet 1100) (confirm_request "b-1" "u1") uncached).2
    = stdout uncached
      ++ ["Unexpected error: Object of type Decimal is not JSON serializable"].
Proof.
  repeat split; vm_compute; reflexivity.
Qed.

(** ** The writes of confirmation and cancellation *)

(** C7 does not hold as stated.  [release_ticket] is not conditional
    on the ticket being reserved, and [update_booking_status] is not
    conditional on the booking being reserved: cancelling booking [b-1]
    through its stale cache entry overwrites a ticket stored as [sold] and
    a booking stored as [confirmed]. *)
Lemma cancel_overwrites_sold_and_confirmed :
  ¬ ticket_write_conditional ticket_is_reserved ("e1", "s1")
      (release_ticket (quiet 1100) (AStr "e1") (AStr "s1"))
  ∧ ¬ booking_write_conditional booking_is_reserved "b-1"
        (update_booking_status (quiet 1100) "b-1" "cancelled")
  ∧ tickets stale !! ("e1", "s1") ≫= tk_status = Some "sold"
  ∧ bookings stale !! "b-1" ≫= bk_status = Some "confirmed"
  ∧ (cancel_booking (quiet 1100) "b-1" "u1" stale).1
    = Ok (create_response 200 (MessageBody "Booking cancelled successfully"))
  ∧ tickets (cancel_booking (quiet 1100) "b-1" "u1" stale).2 !! ("e1", "s1")
      ≫= tk_status = Some "available"
  ∧ bookings (cancel_booking (quiet 1100) "b-1" "u1" stale).2 !! "b-1"
      ≫= bk_status = Some "cancelled".
Proof.
  split; [|split].
  - intros H. specialize (H stale eq_refl).
    apply (f_equal (λ m, m !! ("e1", "s1") ≫= tk_status)) in H.
    vm_compute in H. discriminate.
  - intros H. specialize (H stale eq_refl).
    apply (f_equal (λ m, m !! "b-1" ≫= bk_status)) in H.
    vm_compute in H. discriminate.
  - vm_compute. done.
Qed.

(** C7, amended.  The writes of confirmation and cancellation are not
    conditional.  When the store takes the write, [release_ticket] stores
    the ticket as available, without holder and deadline, over whatever is
    stored under the key, and [update_booking_status] stores the new status
    over whatever is stored under the booking identifier. *)
Theorem release_and_status_writes_unconditional env w :
  (∀ event_id ticket_id,
     fault env (TicketsRelease (AStr event_id) (AStr ticket_id)) = None →
     tickets (release_ticket env (AStr event_id) (AStr ticket_id) w).2
       !! (event_id, ticket_id)
     = Some (set_available
               (default (blank_ticket event_id ticket_id)
                  (tickets w !! (event_id, ticket_id)))))
  ∧ (∀ booking_id status,
       fault env (BookingsUpdateItem booking_id) = None →
       bookings (update_booking_status env booking_id status w).2 !! booking_id
       = Some (set_status status (now env)
                 (default (blank_booking booking_id) (bookings w !! booking_id)))).
Proof.
  split.
  - intros ev tid Hf. rewrite release_ticket_run by done. simpl.
    by rewrite lookup_insert_eq.
  - intros booking_id status Hf.
    pose proof (update_booking_status_cases env booking_id status w) as H.
    rewrite Hf in H. destruct H as (w' & Hrun & _ & _ & Hb & _).
    rewrite Hrun. simpl. rewrite Hb. simpl. by rewrite lookup_insert_eq.
Qed.

(** The sold ticket and the confirmed booking of [stale]. *)
Lemma release_and_status_writes_unconditional_witness :
  tickets (release_ticket (quiet 1100) (AStr "e1") (AStr "s1") stale).2 !! ("e1", "s1")
  = Some (set_available
            (default (blank_ticket "e1" "s1") (tickets stale !! ("e1", "s1"))))
  ∧ bookings (update_booking_status (quiet 1100) "b-1" "processing" stale).2 !! "b-1"
    = Some (set_status "processing" 1100
              (default (blank_booking "b-1") (bookings stale !! "b-1"))).
Proof.
  split.
  - apply (proj1 (release_and_status_writes_unconditional (quiet 1100) stale)).
    reflexivity.
  - apply (proj2 (release_and_status_writes_unconditional (quiet 1100) stale)
             "b-1" "processing").
    reflexivity.
Defined.

(** ** The classification of errors *)

(** C8.  In [confirm_booking] a booking that does not exist and a booking
    of another user both raise [BookingError], which [lambda_handler]
    answers with 409, where [get_booking] and [cancel_booking] answer 404
    and 403; the quota error of [reserve_tickets] is a 409 as well. *)
Theorem confirm_answers_409_for_missing_and_foreign :
  (lambda_handler (quiet 1100) (confirm_request "b-0" "u1") booked).1
  = create_response 409 (ErrorBody "Booking not found")
  ∧ (lambda_handler (quiet 1100) (confirm_request "b-1" "u2") booked).1
    = create_response 409 (ErrorBody "Unauthorized access to booking")
  ∧ (lambda_handler (quiet 1100) (booking_request "GET" "b-0" "u1") booked).1
    = create_response 404 (ErrorBody "Booking not found")
  ∧ (lambda_handler (quiet 1100) (booking_request "GET" "b-1" "u2") booked).1
    = create_response 403 (ErrorBody "Unauthorized access")
  ∧ (lambda_handler (quiet 1100) (booking_request "DELETE" "b-0" "u1") booked).1
    = create_response 404 (ErrorBody "Booking not found")
  ∧ (lambda_handler (quiet 1100) (booking_request "DELETE" "b-1" "u2") booked).1
    = create_response 403 (ErrorBody "Unauthorized access")
  ∧ (lambda_handler (quiet 1000)
       (reserve_request "u1" [mkTicketRequest "vip" 2]) five_held).1
    = create_response 409 (ErrorBody "Maximum 6 tickets per user").
Proof. vm_compute. done. Qed.

(** ** The loops of a reservation that succeeds *)

Lemma for_in_ok {S A} (I : S → Prop) (l : list A) (body : A → M S unit) :
  (∀ x s s', I s → body x s = (Ok tt, s') → I s') →
  ∀ s s', I s → for_in l body s = (Ok tt, s') → I s'.
Proof.
  intros Hbody. induction l as [|x l IH]; intros s s' Hs; simpl.
  - by intros [= <-].
  - unfold mbind, M_bind.
    destruct (body x s) as [[[]|e] s1] eqn:Hx; [|done].
    intros Hrest. eapply IH; [|exact Hrest]. by eapply Hbody.
Qed.

Lemma for_in_count {S A} (f : S → nat) (g : A → nat) (l : list A)
    (body : A → M S unit) :
  (∀ x s s', body x s = (Ok tt, s') → f s' = (g x + f s)%nat) →
  ∀ s s', for_in l body s = (Ok tt, s') →
          f s' = (foldr Nat.add 0%nat (g <$> l) + f s)%nat.
Proof.
  intros Hbody. induction l as [|x l IH]; intros s s'; simpl.
  - by intros [= <-].
  - unfold mbind, M_bind.
    destruct (body x s) as [[[]|e] s1] eqn:Hx; [|done].
    intros Hrest. rewrite (IH _ _ Hrest), (Hbody _ _ _ Hx). unfold fmap. lia.
Qed.

Lemma snapshot_names ticket_id tier price seat_number :
  names (snapshot ticket_id tier price seat_number) ticket_id.
Proof. unfold names, snapshot. by simplify_map_eq. Qed.

Lemma snapshot_price ticket_id tier price seat_number :
  price_of (snapshot ticket_id tier price seat_number) = price.
Proof. unfold price_of, snapshot. by simplify_map_eq. Qed.

Lemma sum_prices_app l d : sum_prices (l ++ [d]) = sum_prices l + price_of d.
Proof.
  unfold sum_prices. rewrite fmap_app, foldr_app. simpl.
  generalize (price_of d). induction (price_of <$> l) as [|x l' IH]; intros p; simpl;
    [lia|]. rewrite IH. lia.
Qed.

Lemma amount_of_app l d :
  amount_of (l ++ [d]) = PyDecimal (value (amount_of l) + price_of d).
Proof.
  destruct l as [|x l].
  - simpl. unfold sum_prices. simpl. f_equal. lia.
  - change ((x :: l) ++ [d]) with (x :: (l ++ [d])). unfold amount_of at 1.
    change (x :: (l ++ [d])) with ((x :: l) ++ [d]). by rewrite sum_prices_app.
Qed.

(** One pass of the inner loop that does not raise has reserved the
    candidate, which was available, and collected its snapshot. *)
Lemma reserve_candidate_ok env event_id user_id tier available i fr fr' :
  reserve_candidate env event_id user_id tier available i fr = (Ok tt, fr') →
  ∃ ticket t price,
    available !! i = Some ticket ∧ tk_price ticket = Some price
    ∧ tickets (world fr) !! (event_id, tk_ticket_id ticket) = Some t
    ∧ tk_status t = Some "available"
    ∧ fr' = {| reserved_tickets :=
                 reserved_tickets fr
                 ++ [snapshot (tk_ticket_id ticket) tier price
                       (default "" (tk_seat_number ticket))];
               total_amount := PyDecimal (value (total_amount fr) + price);
               world := set_tickets
                          <[(event_id, tk_ticket_id ticket) :=
                              set_reserved user_id (now env + 5 * 60) t]>
                          (world fr) |}.
Proof.
  unfold reserve_candidate, getindex, mbind, M_bind.
  destruct (available !! i) as [ticket|] eqn:Hi; [simpl|done].
  unfold lift.
  destruct (reserve_ticket_in_db_cases env event_id (tk_ticket_id ticket) user_id
              (world fr)) as [(t & Ht & Ha & Hrun)|[Hfail _]].
  - rewrite Hrun. unfold getitem.
    destruct (tk_price ticket) as [price|] eqn:Hp; [simpl|done].
    intros [= <-]. exists ticket, t, price. by repeat (split; [done|]).
  - destruct (reserve_ticket_in_db _ _ _ _ _) as [[[|]|e] w']; [done| |done].
    unfold gets. simpl.
    by destruct (rollback_reservations env (reserved_tickets fr) user_id w')
      as [[[]|e] w''].
Qed.

Lemma reserve_candidate_reserving env event_id user_id tier available i w0 fr fr' :
  reserving user_id event_id (now env + 5 * 60) w0 fr →
  reserve_candidate env event_id user_id tier available i fr = (Ok tt, fr') →
  reserving user_id event_id (now env + 5 * 60) w0 fr'.
Proof.
  intros (Hframe & Hnamed & Hheld & Hother & Htotal) Hrun.
  apply reserve_candidate_ok in Hrun
    as (ticket & t & price & _ & _ & Ht & Ha & ->).
  set (tid := tk_ticket_id ticket) in *.
  assert (∀ d tid', d ∈ reserved_tickets fr → names d tid' → tid' ≠ tid) as Hfresh.
  { intros d tid' Hd Hn ->. destruct (Hheld d tid Hd Hn) as (t0 & _ & _ & Ht0).
    rewrite Ht in Ht0. injection Ht0 as ->. done. }
  split; [|split; [|split; [|split]]]; simpl.
  - destruct Hframe as (? & ? & ? & ? & ?). by repeat split.
  - apply Forall_app. split; [done|].
    constructor; [|constructor]. eexists. apply snapshot_names.
  - intros d tid' Hd Hn. apply elem_of_app in Hd as [Hd|Hd].
    + destruct (Hheld d tid' Hd Hn) as (t0 & H0 & Ha0 & Hnow).
      exists t0. split; [done|]. split; [done|].
      rewrite lookup_insert_ne; [done|]. intros [= <-]. by eapply Hfresh.
    + apply list_elem_of_singleton in Hd as ->.
      pose proof (snapshot_names tid tier price (default "" (tk_seat_number ticket)))
        as Hn'.
      unfold names in Hn, Hn'. rewrite Hn in Hn'. injection Hn' as ->.
      exists t. rewrite lookup_insert_eq. split; [|done].
      rewrite <- Hother; [done|]. intros d' tid' Hd' Hn' [= <-]. by eapply Hfresh.
  - intros k Hk. rewrite lookup_insert_ne.
    + apply Hother. intros d tid' Hd Hn. apply (Hk d tid'); [|done].
      apply elem_of_app. by left.
    + intros <-.
      apply (Hk (snapshot tid tier price (default "" (tk_seat_number ticket))) tid);
        [|apply snapshot_names|done].
      apply elem_of_app. right. by apply list_elem_of_singleton.
  - rewrite amount_of_app, snapshot_price. by rewrite Htotal.
Qed.

Lemma get_available_tickets_world env event_id tier quantity w :
  (get_available_tickets env event_id tier quantity w).2 = w.
Proof.
  unfold get_available_tickets, validate_limit, faulty, raise, gets.
  case_bool_decide; [done|]. by destruct (fault env _).
Qed.

(** The query returns only for a quantity of at least 1: botocore refuses
    the [Limit] of any other. *)
Lemma get_available_tickets_quantity env event_id tier quantity w l w' :
  get_available_tickets env event_id tier quantity w = (Ok l, w') → 1 ≤ quantity.
Proof.
  unfold get_available_tickets, validate_limit. case_bool_decide; [done|]. lia.
Qed.

Lemma sum_ones {A} (l : list A) :
  foldr Nat.add 0%nat ((λ _, 1%nat) <$> l) = length l.
Proof. induction l as [|x l IH]; simpl; [done|]. f_equal. exact IH. Qed.

Lemma reserve_candidate_length env event_id user_id tier available i fr fr' :
  reserve_candidate env event_id user_id tier available i fr = (Ok tt, fr') →
  length (reserved_tickets fr') = (1 + length (reserved_tickets fr))%nat.
Proof.
  intros Hi. apply reserve_candidate_ok in Hi as (? & ? & ? & _ & _ & _ & _ & ->).
  simpl. rewrite length_app. simpl. lia.
Qed.

(** One pass of the outer loop that does not raise has collected as many
    tickets as the request asks for. *)
Lemma reserve_tier_ok env event_id user_id request w0 fr fr' :
  reserving user_id event_id (now env + 5 * 60) w0 fr →
  reserve_tier env event_id user_id request fr = (Ok tt, fr') →
  reserving user_id event_id (now env + 5 * 60) w0 fr'
  ∧ 1 ≤ quantity request
  ∧ Z.of_nat (length (reserved_tickets fr'))
    = quantity request + Z.of_nat (length (reserved_tickets fr)).
Proof.
  intros Hinv. unfold reserve_tier, mbind, M_bind, lift.
  pose proof (get_available_tickets_world env event_id (tier request)
                (quantity request) (world fr)) as Hw.
  destruct (get_available_tickets _ _ _ _ _) as [[available|e] w'] eqn:Hquery; [|done].
  apply get_available_tickets_quantity in Hquery.
  simpl in Hw. subst w'.
  assert ({| reserved_tickets := reserved_tickets fr;
             total_amount := total_amount fr; world := world fr |} = fr) as ->
    by (by destruct fr).
  case_bool_decide; [done|].
  intros Hrun. split; [|split; [done|]].
  - eapply (for_in_ok (reserving user_id event_id (now env + 5 * 60) w0));
      [|exact Hinv|exact Hrun].
    intros i s s' Hs Hi. by eapply reserve_candidate_reserving.
  - rewrite (for_in_count (λ fr, length (reserved_tickets fr)) (λ _, 1%nat) _ _
               (reserve_candidate_length env event_id user_id (tier request) available)
               _ _ Hrun).
    rewrite sum_ones, length_seq. lia.
Qed.

(** The loops of a reservation that do not raise keep [reserving] and
    collect as many tickets as the requests ask for. *)
Lemma reserve_loops_ok env event_id user_id requests w0 fr fr' :
  reserving user_id event_id (now env + 5 * 60) w0 fr →
  for_in requests (reserve_tier env event_id user_id) fr = (Ok tt, fr') →
  reserving user_id event_id (now env + 5 * 60) w0 fr'
  ∧ Forall (λ q, 1 ≤ quantity q) requests
  ∧ Z.of_nat (length (reserved_tickets fr'))
    = total_quantity requests + Z.of_nat (length (reserved_tickets fr)).
Proof.
  intros Hinv Hrun. split.
  - eapply (for_in_ok (reserving user_id event_id (now env + 5 * 60) w0));
      [|exact Hinv|exact Hrun].
    intros x s s' Hs Hx. by eapply reserve_tier_ok.
  - revert fr Hinv Hrun. induction requests as [|x l IH]; intros fr Hinv; simpl.
    + intros [= <-]. split; [constructor|]. unfold total_quantity. simpl. lia.
    + unfold mbind, M_bind.
      destruct (reserve_tier env event_id user_id x fr) as [[[]|e] fr1] eqn:Hx;
        [|done].
      intros Hrest.
      destruct (reserve_tier_ok _ _ _ _ _ _ _ Hinv Hx) as (Hinv1 & Hq & Hlen).
      destruct (IH _ Hinv1 Hrest) as [Hall Htotal].
      split; [by constructor|].
      rewrite Htotal, Hlen. unfold total_quantity. simpl. unfold fmap. lia.
Qed.

Lemma reserving_start user_id event_id until w :
  reserving user_id event_id until w (mkFrame [] (PyInt 0) w).
Proof.
  split; [by repeat split|]. split; [constructor|]. split; [|done].
  intros d tid Hd. by apply elem_of_nil in Hd.
Qed.

(** [get_event] writes to the cached events only. *)
Lemma get_event_frame env event_id w :
  let w' := (get_event env event_id w).2 in
  events w' = events w ∧ tickets w' = tickets w ∧ bookings w' = bookings w
  ∧ queue w' = queue w ∧ stdout w' = stdout w
  ∧ c_booking (cache w') = c_booking (cache w)
  ∧ c_count (cache w') = c_count (cache w).
Proof.
  unfold get_event, cache_get_event, events_get_item, cache_set_event. unfold_m.
  destruct (live env _); [done|]. destruct (fault env _); [done|].
  by destruct (events w !! event_id).
Qed.

Lemma get_user_active_bookings_count_cache env user_id w :
  let w' := (get_user_active_bookings_count env user_id w).2 in
  c_booking (cache w') = c_booking (cache w)
  ∧ c_event (cache w') = c_event (cache w).
Proof.
  unfold get_user_active_bookings_count, cache_get_count, bookings_query_count,
    cache_set_count. unfold_m.
  destruct (live env _); [done|]. by destruct (fault env _).
Qed.

(** The [try] block of a reservation, when it returns. *)
Lemma reserve_tickets_try_ok env event_id user_id requests w r fr :
  reserve_tickets_try env event_id user_id requests (mkFrame [] (PyInt 0) w) = (Ok r, fr) →
  reservation_made env user_id event_id requests w r (world fr) (reserved_tickets fr).
Proof.
  unfold reserve_tickets_try, mbind, M_bind.
  pose proof (reserve_loops_ok env event_id user_id requests w (mkFrame [] (PyInt 0) w))
    as Hloops.
  destruct (for_in requests (reserve_tier env event_id user_id) _) as [[[]|e] fr1];
    [|done].
  destruct (Hloops fr1 (reserving_start _ _ _ _) eq_refl)
    as ((Hframe & Hnamed & Hheld & Hother & Htotal) & Hall & Hlen).
  destruct Hframe as (Hfe & Hfb & Hfc & Hfq & Hfs).
  simpl in Hlen. rewrite Z.add_0_r in Hlen.
  unfold gets. simpl. unfold lift, bookings_put_item, faulty, raise, modify. simpl.
  destruct (fault env (BookingsPutItem (uuid4 env))); [done|]. simpl.
  unfold send_to_queue, except_ClientError, json_dumps, sqs_send_message, faulty,
    raise, modify, print, mbind, M_bind.
  unfold reservation_made.
  destruct (fault env (SqsSendMessage BOOKING_QUEUE_URL)); simpl;
    intros [= <- <-]; simpl; rewrite Htotal, Hfb, Hfc, Hfe, Hfq, Hfs;
    repeat (split; [done|]).
  - rewrite length_app. simpl. lia.
  - done.
Qed.

(** What a reservation that returns has done. *)
Lemma reserve_tickets_ok env body user_id w r w1 :
  reserve_tickets env body user_id w = (Ok r, w1) →
  ∃ event_id requests reserved,
    b_event_id body = Some event_id ∧ b_tickets body = Some requests
    ∧ reservation_made env user_id event_id requests w r w1 reserved.
Proof.
  unfold reserve_tickets, mbind, M_bind.
  destruct (validate_booking_request env body); [done|]. cbn [mret M_ret].
  unfold getitem.
  destruct (b_event_id body) as [event_id|]; [simpl|done].
  destruct (b_tickets body) as [requests|]; [simpl|done].
  pose proof (get_user_active_bookings_count_frame env user_id w) as Hc.
  pose proof (get_user_active_bookings_count_cache env user_id w) as Hc'.
  destruct (get_user_active_bookings_count env user_id w) as [[n|e] wc]; [|done].
  simpl in Hc, Hc'. destruct Hc as (Hce & Hct & Hcb & Hcq & Hcs).
  destruct Hc' as (Hccb & _).
  case_bool_decide; [done|].
  pose proof (get_event_frame env event_id wc) as He.
  destruct (get_event env event_id wc) as [[event|e] wd]; [|done].
  simpl in He. destruct He as (Hee & Het & Heb & Heq & Hes & Hecb & _).
  case_bool_decide; [done|].
  unfold distributed_lock. destruct (lock_acquired env); [|done].
  unfold with_locals, except_Exception.
  pose proof (reserve_tickets_try_ok env event_id user_id requests wd) as Htry.
  destruct (reserve_tickets_try env event_id user_id requests _) as [[r0|e] fr].
  2:{ unfold mbind, M_bind, gets. simpl.
      by destruct (lift (rollback_reservations env (reserved_tickets fr) user_id) fr)
        as [[[]|e'] fr2]. }
  intros [= <- <-]. exists event_id, requests, (reserved_tickets fr).
  split; [done|]. split; [done|].
  destruct (Htry r0 fr eq_refl)
    as (Hr & Hall & Hlen & Hnamed & Hheld & Hother & Hb & Hcb' & Hev & Hq).
  unfold reservation_made. repeat (split; [done|]).
  split.
  { intros d tid Hd Hn. destruct (Hheld d tid Hd Hn) as (t0 & Ht0 & Ha0 & Hnow).
    exists t0. by rewrite <- Hct, <- Het. }
  split.
  { intros k Hk. rewrite (Hother k Hk). congruence. }
  split; [congruence|]. split; [congruence|]. split; [congruence|].
  destruct (fault env (SqsSendMessage BOOKING_QUEUE_URL));
    destruct Hq as [-> ->]; split; congruence.
Qed.

(** ** A reservation that succeeds *)



Lemma total_quantity_positive l :
  Forall (λ q, 1 ≤ quantity q) l → 0 ≤ total_quantity l.
Proof.
  induction 1 as [|q l Hq _ IH]; [done|].
  change (total_quantity (q :: l)) with (quantity q + total_quantity l). lia.
Qed.

Lemma value_amount_of l : value (amount_of l) = sum_prices l.
Proof. by destruct l. Qed.

(** X2.  When [reserve_tickets] returns, every request asked for at least
    one ticket, the response lists as many tickets as the requests ask for
    in total, and its total amount is the sum of the prices of the tickets
    listed: a [Decimal], or the [int] 0 when there was no request. *)
Theorem reservation_counts_and_total env body user_id w r w1 :
  reserve_tickets env body user_id w = (Ok r, w1) →
  ∃ requests reserved total,
    b_tickets body = Some requests
    ∧ r = create_response 201
            (ReservedBody (uuid4 env) "reserved" (now env + 5 * 60) reserved total 5)
    ∧ Forall (λ q, 1 ≤ quantity q) requests
    ∧ Z.of_nat (length reserved) = total_quantity requests
    ∧ value total = sum_prices reserved
    ∧ (requests = [] → total = PyInt 0)
    ∧ (requests ≠ [] → total = PyDecimal (sum_prices reserved)).
Proof.
  intros Hrun. apply reserve_tickets_ok in Hrun
    as (event_id & requests & reserved & _ & Hreq & Hr & Hall & Hlen & _).
  exists requests, reserved, (amount_of reserved).
  repeat (split; [done|]). split; [apply value_amount_of|]. split.
  - intros ->. destruct reserved; [done|]. by unfold total_quantity in Hlen.
  - intros Hne. destruct reserved as [|d l]; [exfalso|done].
    destruct Hall as [|q l' Hq Hl']; [done|].
    pose proof (total_quantity_positive l' Hl') as Hrest.
    change (total_quantity (q :: l')) with (quantity q + total_quantity l') in Hlen.
    simpl in Hlen. lia.
Qed.

Lemma reservation_counts_and_total_witness :
  ∃ requests reserved total,
    b_tickets one_standard = Some requests
    ∧ reserved_response
      = create_response 201
          (ReservedBody (uuid4 (quiet 1000)) "reserved" (now (quiet 1000) + 5 * 60)
             reserved total 5)
    ∧ Forall (λ q, 1 ≤ quantity q) requests
    ∧ Z.of_nat (length reserved) = total_quantity requests
    ∧ value total = sum_prices reserved
    ∧ (requests = [] → total = PyInt 0)
    ∧ (requests ≠ [] → total = PyDecimal (sum_prices reserved)).
Proof.
  apply (reservation_counts_and_total (quiet 1000) one_standard "u1" venue
           reserved_response booked).
  vm_compute. reflexivity.
Defined.

(** X3.  When [reserve_tickets] returns, the bookings table holds under the
    new identifier a booking of the user in status [reserved], with the
    tickets, total and deadline of the response and a [ttl] one hour after
    the deadline, and no other booking has changed; the cache holds the
    same booking until the deadline; and when the queue takes the message,
    exactly the [process_reservation] message has been added to it. *)
Theorem reservation_is_stored env body user_id w r w1 :
  reserve_tickets env body user_id w = (Ok r, w1) →
  ∃ event_id reserved total,
    b_event_id body = Some event_id
    ∧ r = create_response 201
            (ReservedBody (uuid4 env) "reserved" (now env + 5 * 60) reserved total 5)
    ∧ bookings w1
      = <[uuid4 env :=
            {| bk_booking_id := uuid4 env; bk_user_id := Some user_id;
               bk_event_id := Some event_id; bk_tickets := Some reserved;
               bk_total_amount := Some total; bk_status := Some "reserved";
               bk_reserved_until := Some (now env + 5 * 60);
               bk_created_at := Some (now env); bk_updated_at := Some (now env);
               bk_ttl := Some (now env + 5 * 60 + 3600) |}]> (bookings w)
    ∧ c_booking (cache w1) !! uuid4 env
      = (λ b, (b, now env + 5 * 60)) <$> bookings w1 !! uuid4 env
    ∧ (fault env (SqsSendMessage BOOKING_QUEUE_URL) = None →
       queue w1
       = queue w ++ [(BOOKING_QUEUE_URL,
                      {| msg_action := "process_reservation";
                         msg_booking_id := uuid4 env; msg_user_id := user_id;
                         msg_amount := None; msg_payment_method := None |})]).
Proof.
  intros Hrun. apply reserve_tickets_ok in Hrun
    as (event_id & requests & reserved & Hev & _ & Hr & _ & _ & _ & _ & _ & Hb & Hc & _
        & Hq).
  exists event_id, reserved, (amount_of reserved).
  split; [done|]. split; [done|]. split; [done|]. split.
  - rewrite Hb, Hc, !lookup_insert_eq. done.
  - intros Hf. rewrite Hf in Hq. by destruct Hq.
Qed.

Lemma reservation_is_stored_witness :
  ∃ event_id reserved total,
    b_event_id one_standard = Some event_id
    ∧ reserved_response
      = create_response 201
          (ReservedBody (uuid4 (quiet 1000)) "reserved" (now (quiet 1000) + 5 * 60)
             reserved total 5)
    ∧ bookings booked
      = <[uuid4 (quiet 1000) :=
            {| bk_booking_id := uuid4 (quiet 1000); bk_user_id := Some "u1";
               bk_event_id := Some event_id; bk_tickets := Some reserved;
               bk_total_amount := Some total; bk_status := Some "reserved";
               bk_reserved_until := Some (now (quiet 1000) + 5 * 60);
               bk_created_at := Some (now (quiet 1000));
               bk_updated_at := Some (now (quiet 1000));
               bk_ttl := Some (now (quiet 1000) + 5 * 60 + 3600) |}]> (bookings venue)
    ∧ c_booking (cache booked) !! uuid4 (quiet 1000)
      = (λ b, (b, now (quiet 1000) + 5 * 60)) <$> bookings booked !! uuid4 (quiet 1000)
    ∧ (fault (quiet 1000) (SqsSendMessage BOOKING_QUEUE_URL) = None →
       queue booked
       = queue venue ++ [(BOOKING_QUEUE_URL,
                          {| msg_action := "process_reservation";
                             msg_booking_id := uuid4 (quiet 1000);
                             msg_user_id := "u1";
                             msg_amount := None; msg_payment_method := None |})]).
Proof.
  apply (reservation_is_stored (quiet 1000) one_standard "u1" venue
           reserved_response booked).
  vm_compute. reflexivity.
Defined.

(** X4.  For five minutes after [reserve_tickets] has returned, the new
    booking is read from the cache: its owner gets it back as it is stored,
    with 200, any other user gets 403, and the read changes nothing, even
    while the bookings table cannot be read. *)
Theorem reserve_then_get env env' body user_id other w r w1 :
  reserve_tickets env body user_id w = (Ok r, w1) →
  now env' < now env + 5 * 60 → other ≠ user_id →
  ∃ b, bookings w1 !! uuid4 env = Some b
       ∧ get_booking env' (uuid4 env) user_id w1
         = (Ok (create_response 200 (BookingBody b)), w1)
       ∧ get_booking env' (uuid4 env) other w1
         = (Ok (create_response 403 (ErrorBody "Unauthorized access")), w1).
Proof.
  intros Hrun Hlive Hother. apply reserve_tickets_ok in Hrun
    as (event_id & requests & reserved & _ & _ & _ & _ & _ & _ & _ & _ & Hb & Hc & _).
  exists (new_booking env user_id event_id reserved (amount_of reserved)).
  split; [by rewrite Hb, lookup_insert_eq|].
  assert (get_booking_by_id env' (uuid4 env) w1
          = (Ok (Some (new_booking env user_id event_id reserved (amount_of reserved))),
             w1)) as Hget.
  { unfold get_booking_by_id, cache_get_booking, mbind, M_bind, gets.
    rewrite Hc, lookup_insert_eq. simpl. by rewrite bool_decide_eq_true_2. }
  unfold get_booking, mbind, M_bind. rewrite Hget. simpl. split.
  - by rewrite bool_decide_eq_false_2 by (intros H; by apply H).
  - by rewrite bool_decide_eq_true_2 by (intros ->; by apply Hother).
Qed.

Lemma reserve_then_get_witness :
  ∃ b, bookings booked !! uuid4 (quiet 1000) = Some b
       ∧ get_booking (quiet 1299) (uuid4 (quiet 1000)) "u1" booked
         = (Ok (create_response 200 (BookingBody b)), booked)
       ∧ get_booking (quiet 1299) (uuid4 (quiet 1000)) "u2" booked
         = (Ok (create_response 403 (ErrorBody "Unauthorized access")), booked).
Proof.
  apply (reserve_then_get (quiet 1000) (quiet 1299) one_standard "u1" "u2" venue
           reserved_response booked).
  - vm_compute. reflexivity.
  - reflexivity.
  - discriminate.
Defined.

(** ** Cancelling after reserving *)

(** [cancel_booking] by the owner of a booking that may be cancelled, with
    a store that takes the writes. *)
Lemma cancel_booking_runs env booking_id user_id w b w1 status ev tks :
  get_booking_by_id env booking_id w = (Ok (Some b), w1) →
  bk_user_id b = Some user_id → bk_status b = Some status →
  status ∉ ["cancelled"; "expired"; "confirmed"] →
  bk_event_id b = Some ev → bk_tickets b = Some tks →
  Forall (λ d : Dict, is_Some (d !! "ticket_id")) tks →
  (∀ e t, fault env (TicketsRelease e t) = None) →
  fault env (BookingsUpdateItem booking_id) = None →
  ∃ w', cancel_booking env booking_id user_id w
        = (Ok (create_response 200 (MessageBody "Booking cancelled successfully")), w')
        ∧ tickets w' = released ev tks (tickets w)
        ∧ bookings w'
          = <[booking_id := set_status "cancelled" (now env)
                (default (blank_booking booking_id) (bookings w !! booking_id))]>
              (bookings w)
        ∧ c_booking (cache w') !! booking_id = None
        ∧ c_count (cache w') !! user_id = None
        ∧ events w' = events w ∧ queue w' = queue w ∧ stdout w' = stdout w.
Proof.
  intros Hget Hu Hs Hout Hev Htks Hall Hrel Hupd.
  pose proof (get_booking_by_id_frame env booking_id w) as Hframe.
  rewrite Hget in Hframe. simpl in Hframe.
  destruct Hframe as (He1 & Ht1 & Hb1 & Hq1 & Hs1 & _).
  destruct (cancel_booking_internal_run env booking_id w1 b w1 ev tks user_id)
    as (w' & Hrun & Ht & Hb & Hcb & Hcc & He & Hq & Hst); try done.
  { by apply get_booking_by_id_again in Hget. }
  exists w'. split.
  - unfold cancel_booking, mbind, M_bind. rewrite Hget, Hu. simpl.
    rewrite (bool_decide_eq_false_2 (user_id ≠ user_id)) by (intros H; by apply H).
    rewrite Hs. simpl.
    rewrite bool_decide_eq_false_2
      by (intros [->| ->]; apply Hout; repeat constructor).
    rewrite bool_decide_eq_false_2 by (intros ->; apply Hout; repeat constructor).
    unfold mbind, M_bind in Hrun. by rewrite Hrun.
  - rewrite Ht, Hb, He, Hq, Hst, Ht1, Hb1, He1, Hq1, Hs1. done.
Qed.

(** X5.  A reservation followed, within its five minutes, by its owner's
    cancellation leaves the tickets table exactly as it was before the
    reservation, provided the available tickets carried no holder and no
    deadline and the store takes the writes; the booking stays in the
    table, in status [cancelled]. *)
Theorem reserve_then_cancel_restores_tickets env env' body user_id w r w1 :
  reserve_tickets env body user_id w = (Ok r, w1) →
  (∀ k t, tickets w !! k = Some t → tk_status t = Some "available" →
          tk_reserved_by t = None ∧ tk_reserved_until t = None) →
  now env' < now env + 5 * 60 →
  (∀ e t, fault env' (TicketsRelease e t) = None) →
  fault env' (BookingsUpdateItem (uuid4 env)) = None →
  ∃ w2, cancel_booking env' (uuid4 env) user_id w1
        = (Ok (create_response 200 (MessageBody "Booking cancelled successfully")), w2)
        ∧ tickets w2 = tickets w
        ∧ bookings w2 !! uuid4 env ≫= bk_status = Some "cancelled".
Proof.
  intros Hrun Hwf Hlive Hrel Hupd. apply reserve_tickets_ok in Hrun
    as (event_id & requests & reserved & _ & _ & _ & _ & _ & Hnamed & Hheld & Hother
        & Hb & Hc & _).
  set (b := new_booking env user_id event_id reserved (amount_of reserved)) in *.
  assert (get_booking_by_id env' (uuid4 env) w1 = (Ok (Some b), w1)) as Hget.
  { unfold get_booking_by_id, cache_get_booking, mbind, M_bind, gets.
    rewrite Hc, lookup_insert_eq. simpl. by rewrite bool_decide_eq_true_2. }
  destruct (cancel_booking_runs env' (uuid4 env) user_id w1 b w1 "reserved"
              event_id reserved Hget eq_refl eq_refl)
    as (w2 & Hcancel & Ht2 & Hb2 & _); try done.
  { intros Hin. repeat (apply elem_of_cons in Hin as [Hin|Hin]; [discriminate|]).
    by apply elem_of_nil in Hin. }
  { eapply Forall_impl; [exact Hnamed|]. intros d [tid Hd]. by eexists. }
  exists w2. split; [done|]. split; [|by rewrite Hb2, lookup_insert_eq].
  rewrite Ht2. apply map_eq. intros k.
  destruct (decide (Exists (λ d : Dict, d !! "ticket_id" = Some (AStr k.2)
                                        ∧ k.1 = event_id) reserved))
    as [Hex|Hno].
  - apply Exists_exists in Hex as (d & Hd & Hn & Hk).
    destruct k as [e tid]. simpl in *. subst e.
    rewrite (released_lookup_named event_id reserved _ d tid Hd Hn).
    destruct (Hheld d tid Hd Hn) as (t0 & Ht0 & Ha0 & Hnow).
    rewrite Hnow, Ht0. simpl. destruct (Hwf _ _ Ht0 Ha0) as [Hby Hun].
    destruct t0. simpl in *. by subst.
  - rewrite released_lookup_other; [apply Hother|].
    all: intros d tid Hd Hn ->; apply Hno, Exists_exists; by exists d.
Qed.

Lemma venue_available_unheld k t :
  tickets venue !! k = Some t → tk_status t = Some "available" →
  tk_reserved_by t = None ∧ tk_reserved_until t = None.
Proof.
  intros Hk _. revert k t Hk.
  apply (bool_decide_unpack
           (map_Forall (λ _ t, tk_reserved_by t = None ∧ tk_reserved_until t = None)
              (tickets venue))).
  vm_compute. exact I.
Qed.

Lemma reserve_then_cancel_restores_tickets_witness :
  ∃ w2, cancel_booking (quiet 1100) (uuid4 (quiet 1000)) "u1" booked
        = (Ok (create_response 200 (MessageBody "Booking cancelled successfully")), w2)
        ∧ tickets w2 = tickets venue
        ∧ bookings w2 !! uuid4 (quiet 1000) ≫= bk_status = Some "cancelled".
Proof.
  apply (reserve_then_cancel_restores_tickets (quiet 1000) (quiet 1100) one_standard
           "u1" venue reserved_response booked).
  - vm_compute. reflexivity.
  - apply venue_available_unheld.
  - reflexivity.
  - reflexivity.
  - reflexivity.
Defined.

(** ** Confirming a booking *)

(** A booking just read in status [reserved] or [processing] is in the
    cache. *)
Lemma get_booking_by_id_live env booking_id w b w1 status :
  get_booking_by_id env booking_id w = (Ok (Some b), w1) →
  bk_status b = Some status → status = "reserved" ∨ status = "processing" →
  live env (c_booking (cache w1) !! booking_id) = Some b.
Proof.
  unfold get_booking_by_id, cache_get_booking, bookings_get_item, cache_set_booking.
  unfold_m.
  destruct (live env (c_booking (cache w) !! booking_id)) as [c|] eqn:Hlive.
  { by intros [= -> <-]. }
  destruct (fault env (BookingsGetItem booking_id)); [done|].
  destruct (bookings w !! booking_id) as [b0|]; [simpl|done].
  destruct (bk_status b0) as [s|] eqn:Hs; [|done]. simpl.
  case_bool_decide as Hactive; simpl; intros [= <- <-] Hs' Hst.
  - simpl. rewrite lookup_insert_eq. simpl. by rewrite bool_decide_eq_true_2 by lia.
  - simpl in Hs'. rewrite Hs in Hs'. by injection Hs' as ->.
Qed.

(** A booking that is read from the table has a [Decimal] total. *)
Lemma get_booking_by_id_decimal env booking_id w b w1 amount :
  live env (c_booking (cache w) !! booking_id) = None →
  get_booking_by_id env booking_id w = (Ok (Some b), w1) →
  bk_total_amount b = Some amount → amount = PyDecimal (value amount).
Proof.
  intros Hmiss.
  unfold get_booking_by_id, cache_get_booking, bookings_get_item, cache_set_booking.
  unfold_m. rewrite Hmiss.
  destruct (fault env (BookingsGetItem booking_id)); [done|].
  destruct (bookings w !! booking_id) as [b0|]; [simpl|done].
  destruct (bk_status b0) as [s|]; [|done]. simpl.
  case_bool_decide; simpl; intros [= <- <-]; simpl;
    destruct (bk_total_amount b0); simpl; by intros [= <-].
Qed.

(** With the booking in the cache, [update_booking_status] writes the new
    status to the table and rewrites the cached copy. *)
Lemma update_booking_status_cached env booking_id status w b :
  live env (c_booking (cache w) !! booking_id) = Some b →
  fault env (BookingsUpdateItem booking_id) = None →
  update_booking_status env booking_id status w
  = (Ok tt,
     set_cache
       (λ c, {| c_event := c_event c;
                c_booking := <[booking_id := (set_status status (now env) b,
                                              now env + 300)]> (c_booking c);
                c_count := c_count c |})
       (set_bookings
          <[booking_id := set_status status (now env)
              (default (blank_booking booking_id) (bookings w !! booking_id))]> w)).
Proof.
  intros Hlive Hf.
  unfold update_booking_status, bookings_update_item, get_booking_by_id,
    cache_get_booking, cache_set_booking.
  unfold_m. rewrite Hf. simpl. by rewrite Hlive.
Qed.

(** [send_to_queue] of a message that [json.dumps] takes returns whatever
    the queue does, and touches nothing but the queue or the output. *)
Lemma send_to_queue_cases env url m w :
  serialisable m →
  ∃ w', send_to_queue env url m w = (Ok tt, w')
        ∧ events w' = events w ∧ tickets w' = tickets w ∧ bookings w' = bookings w
        ∧ cache w' = cache w
        ∧ match fault env (SqsSendMessage url) with
          | None => queue w' = queue w ++ [(url, m)] ∧ stdout w' = stdout w
          | Some code => queue w' = queue w
          end.
Proof.
  intros Hm. unfold send_to_queue, except_ClientError, mbind, M_bind.
  rewrite json_dumps_ok by done.
  unfold sqs_send_message, faulty, raise, modify, print.
  destruct (fault env (SqsSendMessage url)); by eexists.
Qed.

(** [confirm_booking] by the owner of a reserved booking, before its
    deadline, with a table that takes the write: the status is written and
    cached, and the outcome is that of [send_to_queue]. *)
Lemma confirm_booking_steps env body booking_id user_id w b w1 until amount :
  b_booking_id body = Some booking_id → booking_id ≠ "" →
  get_booking_by_id env booking_id w = (Ok (Some b), w1) →
  bk_user_id b = Some user_id → bk_status b = Some "reserved" →
  bk_reserved_until b = Some until → now env ≤ until →
  bk_total_amount b = Some amount →
  fault env (BookingsUpdateItem booking_id) = None →
  confirm_booking env body user_id w
  = (send_to_queue env PAYMENT_QUEUE_URL
       {| msg_action := "process_payment"; msg_booking_id := booking_id;
          msg_user_id := user_id; msg_amount := Some amount;
          msg_payment_method := b_payment_method body |};;
     mret (create_response 200
             (ProcessingBody booking_id "processing"
                "Payment processing initiated")))
      (set_cache
         (λ c, {| c_event := c_event c;
                  c_booking := <[booking_id := (set_status "processing" (now env) b,
                                                now env + 300)]> (c_booking c);
                  c_count := c_count c |})
         (set_bookings
            <[booking_id := set_status "processing" (now env)
                (default (blank_booking booking_id) (bookings w1 !! booking_id))]>
            w1)).
Proof.
  intros Hid Hne Hget Hu Hs Hr Hearly Hamount Hupd.
  pose proof (get_booking_by_id_live env booking_id w b w1 "reserved" Hget Hs
                (or_introl eq_refl)) as Hlive.
  pose proof (update_booking_status_cached env booking_id "processing" w1 b Hlive Hupd)
    as Hstatus.
  unfold confirm_booking. rewrite Hid.
  destruct booking_id as [|c s]; [done|].
  unfold mbind, M_bind. rewrite Hget, Hu. simpl.
  rewrite bool_decide_eq_false_2 by (intros H; by apply H).
  rewrite Hs. simpl. rewrite Hr. simpl.
  rewrite bool_decide_eq_false_2 by lia.
  unfold mbind, M_bind in Hstatus. rewrite Hstatus, Hamount. done.
Qed.

(** X6.  Confirming, by its owner and before its deadline, a booking read
    in status [reserved] whose total is a [Decimal] does not hand the
    booking off.  The status [processing] is written to the table and to
    the cache; then [json.dumps] refuses the payment message and the
    [TypeError] leaves [send_to_queue] and [confirm_booking]: no message
    is enqueued, whatever the queue would have answered, and
    [lambda_handler] answers 500.  A booking that is read from the table
    always has such a total. *)
Theorem confirm_fails_on_a_decimal_total env body booking_id user_id w b w1 until n :
  b_booking_id body = Some booking_id → booking_id ≠ "" →
  get_booking_by_id env booking_id w = (Ok (Some b), w1) →
  bk_user_id b = Some user_id → bk_status b = Some "reserved" →
  bk_reserved_until b = Some until → now env ≤ until →
  bk_total_amount b = Some (PyDecimal n) →
  fault env (BookingsUpdateItem booking_id) = None →
  ∃ w', confirm_booking env body user_id w
        = (Raise (TypeError "Object of type Decimal is not JSON serializable"), w')
        ∧ tickets w' = tickets w
        ∧ bookings w' !! booking_id ≫= bk_status = Some "processing"
        ∧ c_booking (cache w') !! booking_id
          = Some (set_status "processing" (now env) b, now env + 300)
        ∧ queue w' = queue w ∧ stdout w' = stdout w
        ∧ ∀ event, httpMethod event = "POST" → path event = "/booking/confirm" →
                   request_body event = body → authorizer_user_id event = user_id →
                   (lambda_handler env event w).1
                   = create_response 500 (ErrorBody "Internal server error").
Proof.
  intros Hid Hne Hget Hu Hs Hr Hearly Hamount Hupd.
  pose proof (get_booking_by_id_frame env booking_id w) as Hframe.
  rewrite Hget in Hframe. simpl in Hframe.
  destruct Hframe as (_ & Ht1 & Hb1 & Hq1 & Hs1 & _).
  pose proof (confirm_booking_steps env body booking_id user_id w b w1 until
                (PyDecimal n) Hid Hne Hget Hu Hs Hr Hearly Hamount Hupd) as Hrun.
  unfold mbind, M_bind in Hrun.
  rewrite (send_to_queue_decimal _ _ _ n) in Hrun by done.
  eexists. split; [exact Hrun|]. simpl. rewrite !lookup_insert_eq.
  repeat (split; [done|]).
  intros event Hmethod Hpath Hbody Huser.
  unfold lambda_handler, route. rewrite Hmethod, Hpath, Hbody, Huser. simpl.
  by rewrite Hrun.
Qed.

(** Booking [b-1] is confirmed 100 seconds after it was made, the cache
    holding nothing. *)
Lemma confirm_fails_on_a_decimal_total_witness :
  ∃ w', confirm_booking (quiet 1100) (confirm_body "b-1") "u1" uncached
        = (Raise (TypeError "Object of type Decimal is not JSON serializable"), w')
        ∧ tickets w' = tickets uncached
        ∧ bookings w' !! "b-1" ≫= bk_status = Some "processing"
        ∧ c_booking (cache w') !! "b-1"
          = Some (set_status "processing" (now (quiet 1100)) (b_1 "reserved" 1000),
                  now (quiet 1100) + 300)
        ∧ queue w' = queue uncached ∧ stdout w' = stdout uncached
        ∧ ∀ event, httpMethod event = "POST" → path event = "/booking/confirm" →
                   request_body event = confirm_body "b-1" →
                   authorizer_user_id event = "u1" →
                   (lambda_handler (quiet 1100) event uncached).1
                   = create_response 500 (ErrorBody "Internal server error").
Proof.
  apply (confirm_fails_on_a_decimal_total (quiet 1100) (confirm_body "b-1") "b-1" "u1"
           uncached (b_1 "reserved" 1000)
           (get_booking_by_id (quiet 1100) "b-1" uncached).2 1300 50).
  - reflexivity.
  - discriminate.
  - vm_compute. reflexivity.
  - reflexivity.
  - reflexivity.
  - reflexivity.
  - vm_compute. discriminate.
  - reflexivity.
  - reflexivity.
Defined.

(** Which exceptions a computation can raise. *)
Lemma raises_bind {S A B} (P : Exn → Prop) (c : M S A) (k : A → M S B) :
  raises P c → (∀ a, raises P (k a)) → raises P (c ≫= k).
Proof.
  intros Hc Hk s e s'. unfold mbind, M_bind.
  destruct (c s) as [[a|e0] s1] eqn:Hcs.
  - apply Hk.
  - intros [= <- <-]. by eapply Hc.
Qed.

Lemma raises_for_in {S A} (P : Exn → Prop) (l : list A) (body : A → M S unit) :
  (∀ x, raises P (body x)) → raises P (for_in l body).
Proof.
  intros Hbody. induction l as [|x l IH]; simpl; [done|].
  apply raises_bind; [apply Hbody|]. intros _. exact IH.
Qed.

Lemma raises_except_ClientError {S A} (P : Exn → Prop) (c : M S A) h :
  raises (λ e, P e ∨ ∃ code, e = ClientError code) c →
  (∀ code, raises P (h code)) → raises P (except_ClientError c h).
Proof.
  intros Hc Hh s e s'. unfold except_ClientError.
  destruct (c s) as [[a|e0] s1] eqn:Hcs; [done|].
  destruct (Hc _ _ _ Hcs) as [HP|[code ->]].
  - destruct e0; try (by intros [= <- <-]).
    apply Hh.
  - apply Hh.
Qed.

Lemma raises_getitem {S A} (P : Exn → Prop) key (o : option A) :
  P (KeyError key) → raises P (@getitem S A key o).
Proof. intros HP s e s'. destruct o; [done|]. by intros [= <- <-]. Qed.

Lemma raises_faulty {A} (P : Exn → Prop) env call (k : M World A) :
  (∀ code, P (ClientError code)) → raises P k → raises P (faulty env call k).
Proof.
  intros HP Hk. unfold faulty. destruct (fault env call); [|done].
  intros ? ? ? [= <- <-]. apply HP.
Qed.

Lemma raises_weaken {S A} (P Q : Exn → Prop) (c : M S A) :
  (∀ e, P e → Q e) → raises P c → raises Q c.
Proof. intros HPQ Hc s e s' Hrun. apply HPQ. by eapply Hc. Qed.

(** [get_booking_by_id] raises nothing but the [KeyError] of a booking
    without status. *)
Lemma get_booking_by_id_raises env booking_id :
  raises (λ e, ∃ key, e = KeyError key) (get_booking_by_id env booking_id).
Proof.
  unfold get_booking_by_id, cache_get_booking, bookings_get_item, cache_set_booking.
  apply raises_bind; [done|]. intros [b|]; [done|].
  apply raises_except_ClientError; [|done].
  apply raises_bind.
  { apply raises_faulty; [|done]. intros code. right. by exists code. }
  intros booking. apply raises_bind; [|done].
  destruct booking as [b|]; [|done].
  apply raises_bind; [apply raises_getitem; left; by eexists|].
  intros status. by case_bool_decide.
Qed.

(** [cancel_booking_internal] raises nothing but [KeyError] and
    [ClientError]. *)
Lemma cancel_booking_internal_raises env booking_id :
  raises (λ e, (∃ key, e = KeyError key) ∨ ∃ code, e = ClientError code)
    (cancel_booking_internal env booking_id).
Proof.
  unfold cancel_booking_internal.
  apply raises_bind.
  { eapply raises_weaken; [|apply get_booking_by_id_raises]. by left. }
  intros [b|]; [|done].
  apply raises_bind; [apply raises_getitem; left; by eexists|]. intros tks.
  apply raises_bind.
  { apply raises_for_in. intros d. unfold release_booking_ticket.
    apply raises_bind; [apply raises_getitem; left; by eexists|]. intros ev.
    apply raises_bind; [apply raises_getitem; left; by eexists|]. intros tid.
    unfold release_ticket. apply raises_except_ClientError; [|done].
    unfold tickets_update_item. apply raises_faulty.
    { intros code. right. by exists code. }
    destruct tid as [t|]; [|intros ? ? ? [= <- <-]; right; by eexists].
    apply raises_bind; [done|]. intros stored.
    destruct (unconditional stored); [done|].
    intros ? ? ? [= <- <-]. right. by eexists. }
  intros _. apply raises_bind.
  { unfold update_booking_status. apply raises_bind.
    { unfold bookings_update_item. apply raises_faulty; [|done].
      intros code. right. by exists code. }
    intros _. apply raises_bind.
    { eapply raises_weaken; [|apply get_booking_by_id_raises]. by left. }
    by intros [b'|]. }
  intros _. apply raises_bind; [done|]. intros _.
  apply raises_bind; [apply raises_getitem; left; by eexists|]. done.
Qed.

(** What a confirmation has found when it returns, or when it raises the
    [TypeError] of [json.dumps]: it has got as far as [send_to_queue]. *)
Lemma confirm_booking_sent env body user_id w res w' :
  confirm_booking env body user_id w = (res, w') →
  (∃ r, res = Ok r) ∨ (∃ msg, res = Raise (TypeError msg)) →
  ∃ booking_id b w1 until amount,
    b_booking_id body = Some booking_id ∧ booking_id ≠ ""
    ∧ get_booking_by_id env booking_id w = (Ok (Some b), w1)
    ∧ bk_user_id b = Some user_id ∧ bk_status b = Some "reserved"
    ∧ bk_reserved_until b = Some until ∧ now env ≤ until
    ∧ bk_total_amount b = Some amount
    ∧ fault env (BookingsUpdateItem booking_id) = None.
Proof.
  intros Hrun Hres.
  assert (∀ e, res = Raise e → ∃ msg, e = TypeError msg) as Hexn.
  { intros e ->. destruct Hres as [[r [=]]|[msg [= ->]]]. by exists msg. }
  clear Hres. revert Hrun. unfold confirm_booking.
  destruct (b_booking_id body) as [[|c s]|] eqn:Hid;
    [intros [= <- <-]; by destruct (Hexn _ eq_refl)|
    |intros [= <- <-]; by destruct (Hexn _ eq_refl)].
  unfold mbind, M_bind.
  destruct (get_booking_by_id env (String c s) w) as [[[b|]|e] w1] eqn:Hget.
  2:{ intros [= <- <-]. by destruct (Hexn _ eq_refl). }
  2:{ intros [= <- <-]. destruct (Hexn _ eq_refl) as [msg ->].
      by destruct (get_booking_by_id_raises _ _ _ _ _ Hget). }
  unfold getitem.
  destruct (bk_user_id b) as [owner|] eqn:Hu; [simpl|];
    [|intros [= <- <-]; by destruct (Hexn _ eq_refl)].
  case_bool_decide as Howner; [intros [= <- <-]; by destruct (Hexn _ eq_refl)|].
  destruct (bk_status b) as [status|] eqn:Hs; [simpl|];
    [|intros [= <- <-]; by destruct (Hexn _ eq_refl)].
  case_bool_decide as Hstatus; [intros [= <- <-]; by destruct (Hexn _ eq_refl)|].
  destruct (bk_reserved_until b) as [until|] eqn:Hr; [simpl|];
    [|intros [= <- <-]; by destruct (Hexn _ eq_refl)].
  case_bool_decide as Hlate.
  { destruct (cancel_booking_internal env (String c s) w1) as [[[]|e] w2] eqn:Hcancel;
      intros [= <- <-]; destruct (Hexn _ eq_refl) as [msg Hmsg]; [done|].
    subst e.
    by destruct (cancel_booking_internal_raises _ _ _ _ _ Hcancel) as [[]|[]]. }
  pose proof (update_booking_status_cases env (String c s) "processing" w1) as Hupd.
  destruct (fault env (BookingsUpdateItem (String c s))) eqn:Hf.
  { unfold mbind, M_bind in Hupd. rewrite Hupd.
    intros [= <- <-]. by destruct (Hexn _ eq_refl). }
  destruct Hupd as (w2 & Hupd & _). unfold mbind, M_bind in Hupd. rewrite Hupd.
  destruct (bk_total_amount b) as [amount|] eqn:Ha; [simpl|];
    [|intros [= <- <-]; by destruct (Hexn _ eq_refl)].
  intros _. exists (String c s), b, w1, until, amount. subst owner status.
  split; [done|]. split; [done|]. split; [done|]. split; [done|]. split; [done|].
  split; [done|]. split; [lia|]. by split.
Qed.

(** X7.  A booking that has been confirmed cannot be confirmed again, and
    neither can one whose confirmation failed on the payment message: for
    five minutes the second request finds the cached copy in status
    [processing] and raises the invalid-status [BookingError], whatever the
    table holds, and changes nothing. *)
Theorem confirm_twice_is_refused env env' body user_id w res w1 :
  confirm_booking env body user_id w = (res, w1) →
  (∃ r, res = Ok r) ∨ (∃ msg, res = Raise (TypeError msg)) →
  now env' < now env + 300 →
  confirm_booking env' body user_id w1
  = (Raise (BookingError "Cannot confirm booking with status: processing"), w1).
Proof.
  intros Hrun Hres Hlive.
  destruct (confirm_booking_sent _ _ _ _ _ _ Hrun Hres)
    as (booking_id & b & w0 & until & amount & Hid & Hne & Hget & Hu & Hs & Hr
        & Hearly & Ha & Hupd).
  pose proof (confirm_booking_steps env body booking_id user_id w b w0 until amount
                Hid Hne Hget Hu Hs Hr Hearly Ha Hupd) as Hsteps.
  rewrite Hrun in Hsteps. unfold mbind, M_bind in Hsteps.
  assert (c_booking (cache w1) !! booking_id
          = Some (set_status "processing" (now env) b, now env + 300)) as Hc.
  { destruct amount as [n|n].
    - destruct (send_to_queue_cases env PAYMENT_QUEUE_URL
                  {| msg_action := "process_payment"; msg_booking_id := booking_id;
                     msg_user_id := user_id; msg_amount := Some (PyInt n);
                     msg_payment_method := b_payment_method body |}
                  (set_cache
                     (λ c, {| c_event := c_event c;
                              c_booking :=
                                <[booking_id := (set_status "processing" (now env) b,
                                                 now env + 300)]> (c_booking c);
                              c_count := c_count c |})
                     (set_bookings
                        <[booking_id := set_status "processing" (now env)
                            (default (blank_booking booking_id)
                               (bookings w0 !! booking_id))]> w0)))
        as (w2 & Hsend & _ & _ & _ & Hcache & _); [by intros n'|].
      rewrite Hsend in Hsteps. injection Hsteps as _ ->.
      rewrite Hcache. simpl. by rewrite lookup_insert_eq.
    - rewrite (send_to_queue_decimal _ _ _ n) in Hsteps by done.
      injection Hsteps as _ ->. simpl. by rewrite lookup_insert_eq. }
  unfold confirm_booking. rewrite Hid. destruct booking_id as [|c s]; [done|].
  unfold mbind, M_bind, get_booking_by_id, cache_get_booking, gets, mbind, M_bind.
  rewrite Hc. simpl. rewrite bool_decide_eq_true_2 by done. simpl.
  rewrite Hu. simpl. by rewrite bool_decide_eq_false_2 by (intros H; by apply H).
Qed.

(** Booking [b-1] is confirmed at 1100, which fails on the payment message,
    and again at 1101. *)
Lemma confirm_twice_is_refused_witness :
  confirm_booking (quiet 1101) (confirm_body "b-1") "u1"
    (confirm_booking (quiet 1100) (confirm_body "b-1") "u1" booked).2
  = (Raise (BookingError "Cannot confirm booking with status: processing"),
     (confirm_booking (quiet 1100) (confirm_body "b-1") "u1" booked).2).
Proof.
  apply (confirm_twice_is_refused (quiet 1100) (quiet 1101) (confirm_body "b-1") "u1"
           booked
           (Raise (TypeError "Object of type Decimal is not JSON serializable"))).
  - vm_compute. reflexivity.
  - right. eexists. reflexivity.
  - reflexivity.
Defined.

(** ** After a cancellation *)

(** Whenever [cancel_booking_internal] returns on a booking that
    [get_booking_by_id] returns, the owner's count is no longer cached. *)
Lemma cancel_booking_internal_count env booking_id w b w1 w' :
  get_booking_by_id env booking_id w = (Ok (Some b), w1) →
  cancel_booking_internal env booking_id w = (Ok tt, w') →
  ∃ owner, bk_user_id b = Some owner ∧ c_count (cache w') !! owner = None.
Proof.
  intros Hget. unfold cancel_booking_internal, mbind, M_bind. rewrite Hget.
  destruct (bk_tickets b) as [tks|]; [simpl|done].
  destruct (for_in tks (release_booking_ticket env b) w1) as [[[]|e] w2]; [|done].
  destruct (update_booking_status env booking_id "cancelled" w2) as [[[]|e] w3];
    [|done].
  simpl. destruct (bk_user_id b) as [owner|]; [simpl|done].
  intros [= <-]. exists owner. split; [done|]. simpl. apply lookup_delete_eq.
Qed.

(** What a cancellation that answers 200 has done. *)
Lemma cancel_booking_done env booking_id user_id w r w' :
  cancel_booking env booking_id user_id w = (Ok r, w') → statusCode r = 200 →
  bookings w'
  = <[booking_id := set_status "cancelled" (now env)
        (default (blank_booking booking_id) (bookings w !! booking_id))]> (bookings w)
  ∧ c_booking (cache w') !! booking_id = None
  ∧ c_count (cache w') !! user_id = None.
Proof.
  intros Hrun H200.
  destruct (cancel_booking_200 _ _ _ _ _ _ Hrun H200) as [Hb Hc].
  split; [done|]. split; [done|].
  revert Hrun H200. unfold cancel_booking, mbind, M_bind.
  destruct (get_booking_by_id env booking_id w) as [[[b|]|e] w1] eqn:Hget;
    [|by intros [= <- <-]|done].
  apply get_booking_by_id_again in Hget.
  destruct (bk_user_id b) as [owner|] eqn:Hu; [simpl|done].
  case_bool_decide as Howner; [by intros [= <- <-]|].
  destruct (bk_status b) as [status|]; [simpl|done].
  case_bool_decide; [by intros [= <- <-]|].
  case_bool_decide; [by intros [= <- <-]|].
  destruct (cancel_booking_internal env booking_id w1) as [[[]|e] w2] eqn:Hint;
    [|done].
  intros [= <- <-] _.
  destruct (cancel_booking_internal_count env booking_id w1 b w1 w2 Hget Hint)
    as (owner' & Hu' & Hcount).
  rewrite Hu in Hu'. injection Hu' as <-.
  destruct (decide (owner = user_id)) as [<-|Hne]; [done|]. by destruct Howner.
Qed.

Lemma cancel_booking_cancelled env booking_id user_id w b :
  c_booking (cache w) !! booking_id = None →
  bookings w !! booking_id = Some b → bk_status b = Some "cancelled" →
  bk_user_id b = Some user_id →
  fault env (BookingsGetItem booking_id) = None →
  cancel_booking env booking_id user_id w
  = (Ok (create_response 409 (ErrorBody "Booking already cancelled")), w).
Proof.
  intros Hc Hb Hs Hu Hf. unfold cancel_booking, mbind, M_bind.
  rewrite (get_booking_by_id_cancelled env booking_id w b) by done.
  simpl. rewrite Hu. simpl.
  rewrite bool_decide_eq_false_2 by (intros H; by apply H).
  by rewrite Hs.
Qed.

(** X8.  A booking that has been cancelled cannot be cancelled again: when
    the table names the user as its owner, a second cancellation reads the
    booking from the table, answers 409, and changes nothing. *)
Theorem cancel_twice_is_refused env env' booking_id user_id w r w1 :
  cancel_booking env booking_id user_id w = (Ok r, w1) → statusCode r = 200 →
  bookings w !! booking_id ≫= bk_user_id = Some user_id →
  fault env' (BookingsGetItem booking_id) = None →
  cancel_booking env' booking_id user_id w1
  = (Ok (create_response 409 (ErrorBody "Booking already cancelled")), w1).
Proof.
  intros Hrun H200 Howner Hf.
  destruct (cancel_booking_done _ _ _ _ _ _ Hrun H200) as (Hb & Hc & _).
  destruct (bookings w !! booking_id) as [b0|] eqn:Hb0; [|done]. simpl in *.
  rewrite (cancel_booking_cancelled env' booking_id user_id w1
             (set_status "cancelled" (now env) b0)); try done.
  by rewrite Hb, lookup_insert_eq.
Qed.

Lemma cancel_twice_is_refused_witness :
  cancel_booking (quiet 1200) "b-1" "u1" cancelled
  = (Ok (create_response 409 (ErrorBody "Booking already cancelled")), cancelled).
Proof.
  apply (cancel_twice_is_refused (quiet 1100) (quiet 1200) "b-1" "u1" booked
           (create_response 200 (MessageBody "Booking cancelled successfully"))).
  - vm_compute. reflexivity.
  - reflexivity.
  - vm_compute. reflexivity.
  - reflexivity.
Defined.

(** ** The count of the quota enforcer *)

Lemma active_count_insert user_id m k v :
  m !! k = None →
  active_count user_id (<[k := v]> m)
  = (if bool_decide (bk_user_id v = Some user_id ∧ is_active_status (bk_status v) = true)
     then 1 else 0) + active_count user_id m.
Proof.
  intros Hk. unfold active_count.
  rewrite (map_to_list_insert m k v Hk). rewrite fmap_cons. simpl.
  case_bool_decide as Hv.
  - rewrite filter_cons_True by done. simpl. lia.
  - rewrite filter_cons_False by done. lia.
Qed.

(** A booking whose status is not active does not count; the others count
    whether or not it is there. *)
Lemma active_count_insert_inactive user_id m k v :
  is_active_status (bk_status v) = false →
  active_count user_id (<[k := v]> m) = active_count user_id (delete k m).
Proof.
  intros Hv. rewrite <- insert_delete_eq.
  rewrite active_count_insert by apply lookup_delete_eq.
  rewrite bool_decide_eq_false_2; [lia|]. intros [_ H]. congruence.
Qed.

Lemma active_count_delete_active user_id m k b :
  m !! k = Some b → bk_user_id b = Some user_id →
  is_active_status (bk_status b) = true →
  active_count user_id m = 1 + active_count user_id (delete k m).
Proof.
  intros Hk Hu Ha. rewrite <- (insert_id m k b Hk) at 1.
  rewrite <- insert_delete_eq.
  rewrite active_count_insert by apply lookup_delete_eq.
  by rewrite bool_decide_eq_true_2.
Qed.

(** With no count in the cache, the enforcer counts the table and caches
    the count for 60 seconds. *)
Lemma get_user_active_bookings_count_miss env user_id w :
  live env (c_count (cache w) !! user_id) = None →
  fault env (BookingsQuery user_id) = None →
  get_user_active_bookings_count env user_id w
  = (Ok (active_count user_id (bookings w)),
     set_cache
       (λ c, {| c_event := c_event c; c_booking := c_booking c;
                c_count := <[user_id := (active_count user_id (bookings w),
                                         now env + 60)]> (c_count c) |}) w).
Proof.
  intros Hlive Hf.
  unfold get_user_active_bookings_count, cache_get_count, bookings_query_count,
    cache_set_count. unfold_m. by rewrite Hlive, Hf.
Qed.

(** X9.  After a cancellation has answered 200, the owner's count is no
    longer cached: the next quota check counts the table, where the
    cancelled booking no longer counts and every other booking counts as
    before.  If the table held the booking as an active booking of the
    owner, the count is one less than the table's count before. *)
Theorem cancel_frees_quota env env' booking_id user_id w r w1 :
  cancel_booking env booking_id user_id w = (Ok r, w1) → statusCode r = 200 →
  fault env' (BookingsQuery user_id) = None →
  (get_user_active_bookings_count env' user_id w1).1
  = Ok (active_count user_id (delete booking_id (bookings w)))
  ∧ ∀ b, bookings w !! booking_id = Some b → bk_user_id b = Some user_id →
         is_active_status (bk_status b) = true →
         (get_user_active_bookings_count env' user_id w1).1
         = Ok (active_count user_id (bookings w) - 1).
Proof.
  intros Hrun H200 Hf.
  destruct (cancel_booking_done _ _ _ _ _ _ Hrun H200) as (Hb & _ & Hc).
  assert ((get_user_active_bookings_count env' user_id w1).1
          = Ok (active_count user_id (delete booking_id (bookings w)))) as Hcount.
  { rewrite get_user_active_bookings_count_miss; [|by rewrite Hc|done]. simpl.
    rewrite Hb. by rewrite active_count_insert_inactive. }
  split; [done|]. intros b Hk Hu Ha. rewrite Hcount.
  rewrite (active_count_delete_active user_id (bookings w) booking_id b) by done.
  f_equal. lia.
Qed.

Lemma cancel_frees_quota_witness :
  (get_user_active_bookings_count (quiet 1200) "u1" cancelled).1
  = Ok (active_count "u1" (delete "b-1" (bookings booked)))
  ∧ ∀ b, bookings booked !! "b-1" = Some b → bk_user_id b = Some "u1" →
         is_active_status (bk_status b) = true →
         (get_user_active_bookings_count (quiet 1200) "u1" cancelled).1
         = Ok (active_count "u1" (bookings booked) - 1).
Proof.
  apply (cancel_frees_quota (quiet 1100) (quiet 1200) "b-1" "u1" booked
           (create_response 200 (MessageBody "Booking cancelled successfully"))).
  - vm_compute. reflexivity.
  - reflexivity.
  - reflexivity.
Defined.

Lemma reserve_tickets_try_caches env event_id user_id requests w r fr :
  reserve_tickets_try env event_id user_id requests (mkFrame [] (PyInt 0) w) = (Ok r, fr) →
  c_count (cache (world fr)) = c_count (cache w)
  ∧ c_event (cache (world fr)) = c_event (cache w).
Proof.
  unfold reserve_tickets_try, mbind, M_bind.
  pose proof (reserve_loops_ok env event_id user_id requests w (mkFrame [] (PyInt 0) w))
    as Hloops.
  destruct (for_in requests (reserve_tier env event_id user_id) _) as [[[]|e] fr1];
    [|done].
  destruct (Hloops fr1 (reserving_start _ _ _ _) eq_refl)
    as [((_ & _ & Hfc & _) & _) _].
  unfold gets. simpl. unfold lift, bookings_put_item, faulty, raise, modify. simpl.
  destruct (fault env (BookingsPutItem (uuid4 env))); [done|]. simpl.
  destruct (send_to_queue_cases env BOOKING_QUEUE_URL
              (reservation_message env user_id)
              (set_cache
                 (λ c, {| c_event := c_event c;
                          c_booking :=
                            <[uuid4 env :=
                                (new_booking env user_id event_id (reserved_tickets fr1)
                                   (total_amount fr1), now env + 5 * 60)]> (c_booking c);
                          c_count := c_count c |})
                 (set_bookings
                    <[uuid4 env := new_booking env user_id event_id
                                     (reserved_tickets fr1) (total_amount fr1)]>
                    (world fr1))))
    as (w' & Hsend & _ & _ & _ & Hc & _); [by intros n|].
  unfold reservation_message, new_booking in Hsend.
  unfold RESERVATION_TIMEOUT_MINUTES. rewrite Hsend. simpl.
  intros [= _ <-]. simpl. rewrite Hc. simpl. by rewrite Hfc.
Qed.

(** X10.  A reservation is checked against the count and then leaves the
    cached count alone.  When the enforcer had to count the table for this
    request, then for the next 60 seconds it answers with that count, which
    does not include the booking just made, whatever the table holds. *)
Theorem reservation_is_not_counted_at_once env env' body user_id w r w1 :
  reserve_tickets env body user_id w = (Ok r, w1) →
  live env (c_count (cache w) !! user_id) = None →
  now env' < now env + 60 →
  get_user_active_bookings_count env' user_id w1
  = (Ok (active_count user_id (bookings w)), w1)
  ∧ (bookings w !! uuid4 env = None →
     active_count user_id (bookings w1) = 1 + active_count user_id (bookings w)).
Proof.
  intros Hrun Hmiss Hlive.
  pose proof (reserve_tickets_ok _ _ _ _ _ _ Hrun)
    as (event_id & requests & reserved & _ & _ & _ & _ & _ & _ & _ & _ & Hb & _).
  split.
  - revert Hrun. unfold reserve_tickets, mbind, M_bind.
    destruct (validate_booking_request env body); [done|]. cbn [mret M_ret].
    unfold getitem.
    destruct (b_event_id body) as [event_id'|]; [simpl|done].
    destruct (b_tickets body) as [requests'|]; [simpl|done].
    destruct (fault env (BookingsQuery user_id)) eqn:Hf.
    { unfold get_user_active_bookings_count, cache_get_count, bookings_query_count.
      unfold_m. by rewrite Hmiss, Hf. }
    rewrite get_user_active_bookings_count_miss by done.
    set (wc := set_cache _ w).
    case_bool_decide; [done|].
    pose proof (get_event_frame env event_id' wc) as He.
    destruct (get_event env event_id' wc) as [[event|e] wd]; [|done].
    simpl in He. destruct He as (_ & _ & _ & _ & _ & _ & Hec).
    case_bool_decide; [done|].
    unfold distributed_lock. destruct (lock_acquired env); [|done].
    unfold with_locals, except_Exception.
    pose proof (reserve_tickets_try_caches env event_id' user_id requests' wd) as Htry.
    destruct (reserve_tickets_try env event_id' user_id requests' _) as [[r0|e] fr].
    2:{ unfold mbind, M_bind, gets. simpl.
        by destruct (lift (rollback_reservations env (reserved_tickets fr) user_id) fr)
          as [[[]|e'] fr2]. }
    intros [= _ <-]. destruct (Htry r0 fr eq_refl) as [Hcc _].
    unfold get_user_active_bookings_count, cache_get_count, mbind, M_bind, gets.
    rewrite Hcc, Hec. subst wc. simpl. rewrite lookup_insert_eq. simpl.
    by rewrite bool_decide_eq_true_2.
  - intros Hfresh. rewrite Hb, active_count_insert by done.
    by rewrite bool_decide_eq_true_2.
Qed.

Lemma reservation_is_not_counted_at_once_witness :
  get_user_active_bookings_count (quiet 1059) "u1" booked
  = (Ok (active_count "u1" (bookings venue)), booked)
  ∧ (bookings venue !! uuid4 (quiet 1000) = None →
     active_count "u1" (bookings booked) = 1 + active_count "u1" (bookings venue)).
Proof.
  apply (reservation_is_not_counted_at_once (quiet 1000) (quiet 1059) one_standard
           "u1" venue reserved_response booked).
  - vm_compute. reflexivity.
  - reflexivity.
  - reflexivity.
Defined.

(** ** Reading through the cache *)

(** X11.  [get_booking_by_id] caches what it reads from the table exactly
    when the status is [reserved] or [processing]: such a booking is then
    served from the cache for 300 seconds, whatever happens to the table,
    and a booking in any other status leaves the cache as it is. *)
Theorem read_through_caches_active_bookings env env' booking_id w b w1 :
  live env (c_booking (cache w) !! booking_id) = None →
  get_booking_by_id env booking_id w = (Ok (Some b), w1) →
  (bk_status b = Some "reserved" ∨ bk_status b = Some "processing" →
   c_booking (cache w1) !! booking_id = Some (b, now env + 300)
   ∧ (now env' < now env + 300 →
      get_booking_by_id env' booking_id w1 = (Ok (Some b), w1)))
  ∧ (bk_status b ≠ Some "reserved" → bk_status b ≠ Some "processing" → w1 = w).
Proof.
  intros Hmiss.
  unfold get_booking_by_id at 1.
  unfold cache_get_booking, bookings_get_item, cache_set_booking. unfold_m.
  rewrite Hmiss.
  destruct (fault env (BookingsGetItem booking_id)); [done|].
  destruct (bookings w !! booking_id) as [b0|]; [simpl|done].
  destruct (bk_status b0) as [s|] eqn:Hs; [|done]. simpl.
  case_bool_decide as Hactive; simpl; intros [= <- <-]; split.
  - intros _. simpl. rewrite lookup_insert_eq. split; [done|]. intros Hlive.
    unfold get_booking_by_id, cache_get_booking, gets, mbind, M_bind. simpl.
    rewrite lookup_insert_eq. simpl. by rewrite bool_decide_eq_true_2.
  - simpl. intros H1 H2. rewrite Hs in H1, H2. destruct Hactive as [->| ->]; congruence.
  - simpl. rewrite Hs. intros [[= ->]|[= ->]]; destruct Hactive; auto.
  - done.
Qed.

Lemma read_through_caches_active_bookings_witness :
  (bk_status (b_1 "reserved" 1000) = Some "reserved"
   ∨ bk_status (b_1 "reserved" 1000) = Some "processing" →
   c_booking (cache (get_booking_by_id (quiet 1400) "b-1" booked).2) !! "b-1"
   = Some (b_1 "reserved" 1000, now (quiet 1400) + 300)
   ∧ (now (quiet 1500) < now (quiet 1400) + 300 →
      get_booking_by_id (quiet 1500) "b-1" (get_booking_by_id (quiet 1400) "b-1" booked).2
      = (Ok (Some (b_1 "reserved" 1000)),
         (get_booking_by_id (quiet 1400) "b-1" booked).2)))
  ∧ (bk_status (b_1 "reserved" 1000) ≠ Some "reserved" →
     bk_status (b_1 "reserved" 1000) ≠ Some "processing" →
     (get_booking_by_id (quiet 1400) "b-1" booked).2 = booked).
Proof.
  apply (read_through_caches_active_bookings (quiet 1400) (quiet 1500) "b-1" booked
           (b_1 "reserved" 1000)).
  - vm_compute. reflexivity.
  - vm_compute. reflexivity.
Defined.

(** X12.  A booking that is not cached while the bookings table cannot be
    read looks like a booking that does not exist: [get_booking] and
    [cancel_booking] answer 404 and [confirm_booking] raises the not-found
    [BookingError], and nothing is changed. *)
Theorem table_fault_reads_as_missing env body booking_id user_id w code :
  live env (c_booking (cache w) !! booking_id) = None →
  fault env (BookingsGetItem booking_id) = Some code →
  get_booking env booking_id user_id w
  = (Ok (create_response 404 (ErrorBody "Booking not found")), w)
  ∧ cancel_booking env booking_id user_id w
    = (Ok (create_response 404 (ErrorBody "Booking not found")), w)
  ∧ (b_booking_id body = Some booking_id → booking_id ≠ "" →
     confirm_booking env body user_id w
     = (Raise (BookingError "Booking not found"), w)).
Proof.
  intros Hmiss Hf.
  assert (get_booking_by_id env booking_id w = (Ok None, w)) as Hget.
  { unfold get_booking_by_id, cache_get_booking, bookings_get_item. unfold_m.
    by rewrite Hmiss, Hf. }
  split; [|split].
  - unfold get_booking, mbind, M_bind. by rewrite Hget.
  - unfold cancel_booking, mbind, M_bind. by rewrite Hget.
  - intros Hid Hne. unfold confirm_booking. rewrite Hid.
    destruct booking_id as [|c s]; [done|].
    unfold mbind, M_bind. by rewrite Hget.
Qed.

(** Booking [b-1] exists, its cache entry has expired at 1300, and the
    table cannot be read at 1400. *)
Lemma table_fault_reads_as_missing_witness :
  get_booking (bookings_unreadable 1400) "b-1" "u1" booked
  = (Ok (create_response 404 (ErrorBody "Booking not found")), booked)
  ∧ cancel_booking (bookings_unreadable 1400) "b-1" "u1" booked
    = (Ok (create_response 404 (ErrorBody "Booking not found")), booked)
  ∧ (b_booking_id (confirm_body "b-1") = Some "b-1" → "b-1" ≠ "" →
     confirm_booking (bookings_unreadable 1400) (confirm_body "b-1") "u1" booked
     = (Raise (BookingError "Booking not found"), booked)).
Proof.
  apply (table_fault_reads_as_missing (bookings_unreadable 1400) (confirm_body "b-1")
           "b-1" "u1" booked "ProvisionedThroughputExceededException").
  - vm_compute. reflexivity.
  - reflexivity.
Defined.

(** ** The candidates of a reservation *)

(** X13.  [get_available_tickets] changes nothing and returns at most
    [2 * quantity] tickets, each of them stored in the tickets table for the
    event, of the tier asked for, and in status [available]. *)
Theorem candidates_are_available env event_id tier quantity w l w1 :
  get_available_tickets env event_id tier quantity w = (Ok l, w1) →
  w1 = w
  ∧ (length l ≤ Z.to_nat (quantity * 2))%nat
  ∧ ∀ t, t ∈ l →
         tk_event_id t = event_id ∧ tk_tier t = Some tier
         ∧ tk_status t = Some "available"
         ∧ ∃ k, tickets w !! k = Some t.
Proof.
  unfold get_available_tickets, validate_limit, faulty, raise, gets.
  case_bool_decide; [done|].
  destruct (fault env _); [done|]. intros [= <- <-].
  split; [done|]. split.
  - etrans; [apply length_filter|]. rewrite length_take. lia.
  - intros t Ht. apply list_elem_of_filter in Ht as [Htier Ht].
    apply elem_of_take in Ht as (i & Ht & _).
    apply list_elem_of_lookup_2 in Ht.
    apply list_elem_of_filter in Ht as [[Hev Hst] Ht].
    apply list_elem_of_fmap in Ht as ([k t'] & -> & Ht).
    apply elem_of_map_to_list in Ht. simpl in *. repeat (split; [done|]). by exists k.
Qed.

Lemma candidates_are_available_witness :
  (get_available_tickets (quiet 1000) "e1" "vip" 2 venue).2 = venue
  ∧ (length [seat "v1" "vip" 200; seat "v2" "vip" 200] ≤ Z.to_nat (2 * 2))%nat
  ∧ ∀ t, t ∈ [seat "v1" "vip" 200; seat "v2" "vip" 200] →
         tk_event_id t = "e1" ∧ tk_tier t = Some "vip"
         ∧ tk_status t = Some "available"
         ∧ ∃ k, tickets (get_available_tickets (quiet 1000) "e1" "vip" 2 venue).2 !! k
                = Some t.
Proof.
  pose proof (candidates_are_available (quiet 1000) "e1" "vip" 2 venue
                [seat "v1" "vip" 200; seat "v2" "vip" 200]
                (get_available_tickets (quiet 1000) "e1" "vip" 2 venue).2) as H.
  destruct H as (Hw & Hlen & Hall).
  - vm_compute. reflexivity.
  - split; [exact Hw|]. split; [exact Hlen|].
    intros t Ht. destruct (Hall t Ht) as (? & ? & ? & k & Hk).
    repeat (split; [done|]). exists k. by rewrite Hw.
Defined.

(** ** The handler as a whole *)

Lemma tables_kept_refl w : tables_kept w w.
Proof. by repeat split. Qed.

Lemma get_booking_tables env booking_id user_id w :
  tables_kept w (get_booking env booking_id user_id w).2.
Proof.
  unfold get_booking, mbind, M_bind.
  pose proof (get_booking_by_id_frame env booking_id w) as Hframe.
  destruct (get_booking_by_id env booking_id w) as [[[b|]|e] w1]; simpl in Hframe;
    destruct Hframe as (He & Ht & Hb & Hq & _); unfold getitem;
    [destruct (bk_user_id b); [simpl; case_bool_decide|]| |]; by repeat split.
Qed.

Lemma bookings_query_page_world env user_id limit start status_filter w :
  (bookings_query_page env user_id limit start status_filter w).2 = w.
Proof.
  unfold bookings_query_page, validate_limit, faulty, raise, gets.
  case_bool_decide; [done|]. destruct (fault env _); [done|].
  by case_bool_decide.
Qed.

(** What [get_user_bookings] does once its parameters are read. *)
Lemma get_user_bookings_read env user_id query_params w :
  (∃ e, get_user_bookings env user_id query_params w = (Raise e, w))
  ∨ ∃ limit start,
      get_user_bookings env user_id query_params w
      = ('(items, last_evaluated_key) ←
           bookings_query_page env user_id limit start
             (truthy (qp_status query_params));
         mret (create_response 200
                 (BookingsBody items (Z.of_nat (length items)) last_evaluated_key))) w
      ∧ limit = match qp_limit query_params with
                | Some (Accepted n) => n
                | _ => 20
                end
      ∧ start = match qp_last_key query_params with
                | Some (Accepted k) => Some k
                | _ => None
                end.
Proof.
  unfold get_user_bookings, read, mbind, M_bind, mret, M_ret, raise.
  destruct (qp_limit query_params) as [[e|n]|]; [left; by eexists| |];
    (destruct (qp_last_key query_params) as [[e|k]|]; [left; by eexists| |]);
    right; by eexists _, _.
Qed.

Lemma get_user_bookings_world env user_id query_params w :
  (get_user_bookings env user_id query_params w).2 = w.
Proof.
  destruct (get_user_bookings_read env user_id query_params w)
    as [[e ->]|(limit & start & -> & _ & _)]; [done|].
  unfold mbind, M_bind.
  pose proof (bookings_query_page_world env user_id limit start
                (truthy (qp_status query_params)) w) as Hw.
  by destruct (bookings_query_page _ _ _ _ _ w) as [[[items key]|e] w1].
Qed.

(** The [except] clauses of [lambda_handler] write to no table. *)
Lemma lambda_handler_tables env event w :
  tables_kept w (route env event w).2 → tables_kept w (lambda_handler env event w).2.
Proof.
  unfold lambda_handler. destruct (route env event w) as [[r|e] w1]; [done|].
  by destruct e.
Qed.

(** X14.  A [GET] request changes neither the events, the tickets or the
    bookings table nor the queue, whatever its path, its user and the faults
    of the store. *)
Theorem get_requests_keep_the_tables env event w :
  httpMethod event = "GET" →
  events (lambda_handler env event w).2 = events w
  ∧ tickets (lambda_handler env event w).2 = tickets w
  ∧ bookings (lambda_handler env event w).2 = bookings w
  ∧ queue (lambda_handler env event w).2 = queue w.
Proof.
  intros Hget. apply lambda_handler_tables. unfold route. rewrite Hget.
  rewrite (bool_decide_eq_false_2 ("GET" = "POST" ∧ path event = "/booking/reserve"))
    by (by intros [? _]).
  rewrite (bool_decide_eq_false_2 ("GET" = "POST" ∧ path event = "/booking/confirm"))
    by (by intros [? _]).
  rewrite (bool_decide_eq_true_2 ("GET" = "GET")) by done.
  rewrite (bool_decide_eq_false_2 ("GET" = "DELETE")) by done. simpl.
  destruct (String.prefix "/booking/" (path event)); [apply get_booking_tables|].
  case_bool_decide.
  - rewrite get_user_bookings_world. apply tables_kept_refl.
  - apply tables_kept_refl.
Qed.

(** Booking [b-1] is read at 1400, after its cache entry has expired. *)
Lemma get_requests_keep_the_tables_witness :
  events (lambda_handler (quiet 1400) (booking_request "GET" "b-1" "u1") booked).2
  = events booked
  ∧ tickets (lambda_handler (quiet 1400) (booking_request "GET" "b-1" "u1") booked).2
    = tickets booked
  ∧ bookings (lambda_handler (quiet 1400) (booking_request "GET" "b-1" "u1") booked).2
    = bookings booked
  ∧ queue (lambda_handler (quiet 1400) (booking_request "GET" "b-1" "u1") booked).2
    = queue booked.
Proof.
  apply (get_requests_keep_the_tables (quiet 1400) (booking_request "GET" "b-1" "u1")
           booked).
  reflexivity.
Defined.

Lemma get_booking_codes env booking_id user_id w r w' :
  get_booking env booking_id user_id w = (Ok r, w') →
  statusCode r ∈ [200; 403; 404].
Proof.
  unfold get_booking, mbind, M_bind.
  destruct (get_booking_by_id env booking_id w) as [[[b|]|e] w1]; [| |done].
  - unfold getitem. destruct (bk_user_id b); [simpl|done].
    case_bool_decide; intros [= <- <-]; simpl;
      rewrite !elem_of_cons; tauto.
  - intros [= <- <-]. simpl. rewrite !elem_of_cons; tauto.
Qed.

Lemma cancel_booking_codes env booking_id user_id w r w' :
  cancel_booking env booking_id user_id w = (Ok r, w') →
  statusCode r ∈ [200; 403; 404; 409].
Proof.
  unfold cancel_booking, mbind, M_bind.
  destruct (get_booking_by_id env booking_id w) as [[[b|]|e] w1]; [| |done].
  - unfold getitem. destruct (bk_user_id b); [simpl|done].
    case_bool_decide; [intros [= <- <-]; simpl; rewrite !elem_of_cons; tauto|].
    destruct (bk_status b); [simpl|done].
    case_bool_decide; [intros [= <- <-]; simpl; rewrite !elem_of_cons; tauto|].
    case_bool_decide; [intros [= <- <-]; simpl; rewrite !elem_of_cons; tauto|].
    destruct (cancel_booking_internal env booking_id w1) as [[[]|e] w2]; [|done].
    intros [= <- <-]. simpl. rewrite !elem_of_cons; tauto.
  - intros [= <- <-]. simpl. rewrite !elem_of_cons; tauto.
Qed.

Lemma confirm_booking_code env body user_id w r w' :
  confirm_booking env body user_id w = (Ok r, w') → statusCode r = 200.
Proof.
  unfold confirm_booking.
  destruct (b_booking_id body) as [[|c s]|]; [done| |done].
  unfold mbind, M_bind.
  destruct (get_booking_by_id env (String c s) w) as [[[b|]|e] w1]; [|done|done].
  unfold getitem.
  destruct (bk_user_id b); [simpl|done]. case_bool_decide; [done|].
  destruct (bk_status b); [simpl|done]. case_bool_decide; [done|].
  destruct (bk_reserved_until b); [simpl|done]. case_bool_decide.
  { by destruct (cancel_booking_internal env (String c s) w1) as [[[]|e] w2]. }
  destruct (update_booking_status env (String c s) "processing" w1) as [[[]|e] w2];
    [|done].
  destruct (bk_total_amount b); [simpl|done].
  destruct (send_to_queue env PAYMENT_QUEUE_URL _ w2) as [[[]|e] w3]; [|done].
  by intros [= <- <-].
Qed.

Lemma get_user_bookings_code env user_id query_params w r w' :
  get_user_bookings env user_id query_params w = (Ok r, w') → statusCode r = 200.
Proof.
  destruct (get_user_bookings_read env user_id query_params w)
    as [[e ->]|(limit & start & -> & _ & _)]; [done|].
  unfold mbind, M_bind.
  destruct (bookings_query_page env user_id _ _ _ w) as [[[items key]|e] w1]; [|done].
  by intros [= <- <-].
Qed.

(** X15.  Whatever the request, the store and the faults, [lambda_handler]
    answers with one of the status codes 200, 201, 400, 403, 404, 409 and
    500, and with 201 only on the route [POST /booking/reserve]. *)
Theorem lambda_handler_status_codes env event w :
  statusCode (lambda_handler env event w).1 ∈ [200; 201; 400; 403; 404; 409; 500]
  ∧ (statusCode (lambda_handler env event w).1 = 201 →
     httpMethod event = "POST" ∧ path event = "/booking/reserve").
Proof.
  unfold lambda_handler.
  destruct (route env event w) as [[r|e] w1] eqn:Hroute; simpl.
  2:{ destruct e; simpl; (split; [rewrite !elem_of_cons; tauto|done]). }
  revert Hroute. unfold route.
  case_bool_decide as Hreserve.
  { intros Hrun. apply reserve_tickets_ok in Hrun as (? & ? & ? & _ & _ & -> & _).
    simpl. split; [rewrite !elem_of_cons; tauto|done]. }
  case_bool_decide as Hconfirm.
  { intros Hrun. apply confirm_booking_code in Hrun as ->.
    split; [rewrite !elem_of_cons; tauto|done]. }
  destruct (bool_decide (httpMethod event = "GET") && _).
  { intros Hrun. apply get_booking_codes in Hrun.
    revert Hrun. rewrite !elem_of_cons, elem_of_nil.
    intros [->|[->|[->|[]]]]; (split; [tauto|done]). }
  destruct (bool_decide (httpMethod event = "DELETE") && _).
  { intros Hrun. apply cancel_booking_codes in Hrun.
    revert Hrun. rewrite !elem_of_cons, elem_of_nil.
    intros [->|[->|[->|[->|[]]]]]; (split; [tauto|done]). }
  case_bool_decide.
  { intros Hrun. apply get_user_bookings_code in Hrun as ->.
    split; [rewrite !elem_of_cons; tauto|done]. }
  intros [= <- <-]. simpl. split; [rewrite !elem_of_cons; tauto|done].
Qed.

(** ** Requests that are refused before a ticket is written *)

Lemma get_available_tickets_candidates env event_id tier quantity w :
  1 ≤ quantity →
  fault env (TicketsQuery event_id tier) = None →
  get_available_tickets env event_id tier quantity w
  = (Ok (candidates event_id tier quantity (tickets w)), w).
Proof.
  intros Hq Hf. unfold get_available_tickets, validate_limit, faulty.
  rewrite bool_decide_eq_false_2 by lia. by rewrite Hf.
Qed.

(** X16.  When the first tier of a request has fewer candidates than the
    quantity asked for, [reserve_tickets] raises [TicketNotAvailableError]
    with the number of candidates in its message, and the tickets table,
    the bookings table and the queue are as before. *)
Theorem short_first_tier_reserves_nothing
    env body user_id w event_id tier q rest count w1 ev w2 :
  validate_booking_request env body = None →
  b_event_id body = Some event_id →
  b_tickets body = Some (mkTicketRequest tier q :: rest) →
  get_user_active_bookings_count env user_id w = (Ok count, w1) →
  count + total_quantity (mkTicketRequest tier q :: rest) ≤ 6 →
  get_event env event_id w1 = (Ok (Some ev), w2) →
  ev_status ev = "active" →
  lock_acquired env = true →
  fault env (TicketsQuery event_id tier) = None →
  Z.of_nat (length (candidates event_id tier q (tickets w))) < q →
  reserve_tickets env body user_id w
  = (Raise (TicketNotAvailableError
              ("Only " +:+ pretty (length (candidates event_id tier q (tickets w)))
               +:+ " " +:+ tier +:+ " tickets available")), w2)
  ∧ tickets w2 = tickets w ∧ bookings w2 = bookings w ∧ queue w2 = queue w.
Proof.
  intros Hvalid Hev Hreq Hcount Hquota Hevent Hactive Hlock Hquery Hshort.
  pose proof (get_user_active_bookings_count_frame env user_id w) as Hf1.
  rewrite Hcount in Hf1. simpl in Hf1. destruct Hf1 as (_ & Ht1 & Hb1 & Hq1 & _).
  pose proof (get_event_frame env event_id w1) as Hf2.
  rewrite Hevent in Hf2. simpl in Hf2. destruct Hf2 as (_ & Ht2 & Hb2 & Hq2 & _).
  split; [|by rewrite Ht2, Hb2, Hq2].
  unfold reserve_tickets. rewrite Hvalid, Hev, Hreq.
  unfold mbind, M_bind, mret, M_ret, getitem. simpl. rewrite Hcount.
  rewrite bool_decide_eq_false_2 by (unfold MAX_TICKETS_PER_USER; lia).
  rewrite Hevent.
  rewrite bool_decide_eq_false_2
    by (intros [?|Hs]; [done|]; apply Hs; simpl; by rewrite Hactive).
  unfold distributed_lock. rewrite Hlock.
  unfold with_locals, except_Exception, reserve_tickets_try, mbind, M_bind.
  simpl. unfold mbind, M_bind, reserve_tier at 1, mbind, M_bind, lift. simpl.
  assert (1 ≤ q) as Hq by lia.
  rewrite (get_available_tickets_candidates env event_id tier q _ Hq Hquery), Ht2, Ht1.
  rewrite bool_decide_eq_true_2 by done.
  unfold raise. simpl. done.
Qed.

(** The venue has two vip tickets; the request asks for three. *)
Lemma short_first_tier_reserves_nothing_witness :
  reserve_tickets (quiet 1000)
    (mkBody (Some "e1") (Some [mkTicketRequest "vip" 3]) None None) "u1" venue
  = (Raise (TicketNotAvailableError
              ("Only " +:+ pretty (length (candidates "e1" "vip" 3 (tickets venue)))
               +:+ " " +:+ "vip" +:+ " tickets available")),
     (get_event (quiet 1000) "e1"
        (get_user_active_bookings_count (quiet 1000) "u1" venue).2).2)
  ∧ tickets (get_event (quiet 1000) "e1"
               (get_user_active_bookings_count (quiet 1000) "u1" venue).2).2
    = tickets venue
  ∧ bookings (get_event (quiet 1000) "e1"
                (get_user_active_bookings_count (quiet 1000) "u1" venue).2).2
    = bookings venue
  ∧ queue (get_event (quiet 1000) "e1"
             (get_user_active_bookings_count (quiet 1000) "u1" venue).2).2
    = queue venue.
Proof.
  apply (short_first_tier_reserves_nothing (quiet 1000)
           (mkBody (Some "e1") (Some [mkTicketRequest "vip" 3]) None None) "u1" venue
           "e1" "vip" 3 [] 0
           (get_user_active_bookings_count (quiet 1000) "u1" venue).2
           (mkEvent "e1" "active")).
  - reflexivity.
  - reflexivity.
  - reflexivity.
  - vm_compute. reflexivity.
  - vm_compute. discriminate.
  - vm_compute. reflexivity.
  - reflexivity.
  - reflexivity.
  - reflexivity.
  - vm_compute. reflexivity.
Defined.

Lemma get_event_unavailable env event_id w :
  live env (c_event (cache w) !! event_id) = None →
  (is_Some (fault env (EventsGetItem event_id))
   ∨ events w !! event_id = None
   ∨ ∃ e, events w !! event_id = Some e ∧ ev_status e ≠ "active") →
  ∃ ev w2, get_event env event_id w = (Ok ev, w2)
           ∧ (ev = None ∨ ev_status <$> ev ≠ Some "active").
Proof.
  intros Hmiss Hcause.
  unfold get_event, cache_get_event, events_get_item, cache_set_event. unfold_m.
  rewrite Hmiss.
  destruct (fault env (EventsGetItem event_id)) as [code|] eqn:Hfault.
  { exists None, w. by split; [|left]. }
  destruct Hcause as [[code Hcode]|[Habsent|(e & Hstored & Hstatus)]]; [done| |].
  - rewrite Habsent. exists None, w. by split; [|left].
  - rewrite Hstored. eexists (Some e), _. split; [done|]. right. simpl. congruence.
Qed.

(** X17.  A request for an event that is not cached and that the events
    table cannot be asked for, does not hold, or holds in a status other
    than [active], is refused with the event-unavailable [BookingError], and
    the tickets table, the bookings table and the queue are as before. *)
Theorem unavailable_event_is_refused env body user_id w event_id requests count w1 :
  validate_booking_request env body = None →
  b_event_id body = Some event_id →
  b_tickets body = Some requests →
  get_user_active_bookings_count env user_id w = (Ok count, w1) →
  count + total_quantity requests ≤ 6 →
  live env (c_event (cache w) !! event_id) = None →
  (is_Some (fault env (EventsGetItem event_id))
   ∨ events w !! event_id = None
   ∨ ∃ e, events w !! event_id = Some e ∧ ev_status e ≠ "active") →
  ∃ w2, reserve_tickets env body user_id w
        = (Raise (BookingError "Event not available for booking"), w2)
        ∧ tickets w2 = tickets w ∧ bookings w2 = bookings w ∧ queue w2 = queue w.
Proof.
  intros Hvalid Hev Hreq Hcount Hquota Hmiss Hcause.
  pose proof (get_user_active_bookings_count_frame env user_id w) as Hf1.
  rewrite Hcount in Hf1. simpl in Hf1. destruct Hf1 as (He1 & Ht1 & Hb1 & Hq1 & _).
  pose proof (get_user_active_bookings_count_cache env user_id w) as Hc1.
  rewrite Hcount in Hc1. simpl in Hc1. destruct Hc1 as [_ Hc1].
  unfold reserve_tickets. rewrite Hvalid, Hev, Hreq.
  unfold mbind, M_bind, mret, M_ret, getitem. simpl. rewrite Hcount.
  rewrite bool_decide_eq_false_2 by (unfold MAX_TICKETS_PER_USER; lia).
  destruct (get_event_unavailable env event_id w1) as (ev & w2 & Hevent & Hbad).
  { by rewrite Hc1. }
  { by rewrite He1. }
  pose proof (get_event_frame env event_id w1) as Hf2.
  rewrite Hevent in Hf2. simpl in Hf2. destruct Hf2 as (_ & Ht2 & Hb2 & Hq2 & _).
  rewrite Hevent. exists w2. rewrite bool_decide_eq_true_2 by done.
  split; [done|]. by rewrite Ht2, Hb2, Hq2.
Qed.

Lemma unavailable_event_is_refused_witness :
  ∃ w2, reserve_tickets (quiet 1000) one_standard "u1" closed_venue
        = (Raise (BookingError "Event not available for booking"), w2)
        ∧ tickets w2 = tickets closed_venue ∧ bookings w2 = bookings closed_venue
        ∧ queue w2 = queue closed_venue.
Proof.
  apply (unavailable_event_is_refused (quiet 1000) one_standard "u1" closed_venue
           "e1" [mkTicketRequest "standard" 1] 0
           (get_user_active_bookings_count (quiet 1000) "u1" closed_venue).2).
  - reflexivity.
  - reflexivity.
  - reflexivity.
  - vm_compute. reflexivity.
  - vm_compute. discriminate.
  - vm_compute. reflexivity.
  - right. right. exists (mkEvent "e1" "cancelled"). split; [vm_compute; reflexivity|].
    simpl. discriminate.
Defined.

(** ** The rollback on dicts that carry their keys *)

Lemma rollback_ticket_spares env user_id d w k :
  reserved_by_is user_id (tickets w !! k) = false →
  tickets (rollback_ticket env user_id d w).2 !! k = tickets w !! k.
Proof.
  intros Hk. unfold rollback_ticket, tickets_update_item. unfold_m.
  destruct (d !! "event_id") as [event_id|]; [simpl|done].
  destruct (d !! "ticket_id") as [ticket_id|]; [simpl|done].
  destruct (fault env _); [done|].
  destruct event_id as [e|]; [|done]. destruct ticket_id as [t|]; [|done]. simpl.
  destruct (reserved_by_is user_id (tickets w !! (e, t))) eqn:Hown; [simpl|done].
  apply lookup_insert_ne. intros <-. congruence.
Qed.

Lemma rollback_ticket_frame env user_id d w :
  same_but_tickets w (rollback_ticket env user_id d w).2.
Proof.
  unfold rollback_ticket, tickets_update_item. unfold_m.
  destruct (d !! "event_id") as [event_id|]; [simpl|done].
  destruct (d !! "ticket_id") as [ticket_id|]; [simpl|done].
  destruct (fault env _); [done|].
  destruct event_id as [e|]; [|done]. destruct ticket_id as [t|]; [|done]. simpl.
  by destruct (reserved_by_is user_id (tickets w !! (e, t))).
Qed.

Lemma rollback_reservations_spares env reserved user_id w k :
  reserved_by_is user_id (tickets w !! k) = false →
  tickets (rollback_reservations env reserved user_id w).2 !! k = tickets w !! k.
Proof.
  unfold rollback_reservations.
  apply (for_in_preserves
           (λ w w', reserved_by_is user_id (tickets w !! k) = false →
                    tickets w' !! k = tickets w !! k)).
  - done.
  - intros w1 w2 w3 H12 H23 H1. rewrite H23; rewrite H12; done.
  - intros d w0. apply rollback_ticket_spares.
Qed.

Lemma rollback_reservations_frame env reserved user_id w :
  same_but_tickets w (rollback_reservations env reserved user_id w).2.
Proof.
  unfold rollback_reservations. apply (for_in_preserves same_but_tickets).
  - by repeat split.
  - intros w1 w2 w3 (? & ? & ? & ? & ?) (? & ? & ? & ? & ?).
    repeat split; congruence.
  - intros d w0. apply rollback_ticket_frame.
Qed.

(** X18.  [rollback_reservations] is safe on any list of dicts and under
    any fault: it changes nothing but the tickets table, and there it leaves
    every item alone that is not reserved by the user it is called for. *)
Theorem rollback_spares_other_users env reserved user_id w k :
  reserved_by_is user_id (tickets w !! k) = false →
  tickets (rollback_reservations env reserved user_id w).2 !! k = tickets w !! k
  ∧ same_but_tickets w (rollback_reservations env reserved user_id w).2.
Proof.
  intros Hk. split; [by apply rollback_reservations_spares|].
  apply rollback_reservations_frame.
Qed.

(** Ticket [s1] is held by [u1]; a rollback for [u2] names it. *)
Lemma rollback_spares_other_users_witness :
  tickets (rollback_reservations (quiet 1100)
             [keyed "e1" (snapshot "s1" "standard" 50 "A01-01")] "u2" booked).2
    !! ("e1", "s1")
  = tickets booked !! ("e1", "s1")
  ∧ same_but_tickets booked
      (rollback_reservations (quiet 1100)
         [keyed "e1" (snapshot "s1" "standard" 50 "A01-01")] "u2" booked).2.
Proof.
  apply (rollback_spares_other_users (quiet 1100)
           [keyed "e1" (snapshot "s1" "standard" 50 "A01-01")] "u2" booked
           ("e1", "s1")).
  vm_compute. reflexivity.
Defined.






(** ** What no request undoes *)

Section later_states.
Variable env : Env.

Local Abbreviation fresh := (uuid4 env).

Lemma grows_refl w : grows fresh w w.
Proof.
  repeat split; try done.
  - intros k t Hk. by exists t.
  - intros id b _ Hb. by exists b.
Qed.

Lemma grows_trans w1 w2 w3 : grows fresh w1 w2 → grows fresh w2 w3 → grows fresh w1 w3.
Proof.
  intros (He1 & Ht1 & Hb1 & Hq1 & Hs1) (He2 & Ht2 & Hb2 & Hq2 & Hs2).
  split; [congruence|]. split; [|split; [|split; by etrans]].
  - intros k t Hk. destruct (Ht1 k t Hk) as (t' & Hk' & ? & ? & ? & ? & ?).
    destruct (Ht2 k t' Hk') as (t'' & Hk'' & ? & ? & ? & ? & ?).
    exists t''. split; [done|]. repeat split; congruence.
  - intros id b Hid Hb.
    destruct (Hb1 id b Hid Hb) as (b' & Hb' & ? & ? & ? & ? & ? & ? & ? & ?).
    destruct (Hb2 id b' Hid Hb') as (b'' & Hb'' & ? & ? & ? & ? & ? & ? & ? & ?).
    exists b''. split; [done|]. repeat split; congruence.
Qed.

Lemma keeps_ret {S A} (proj : S → World) (a : A) : keeps fresh proj (mret a).
Proof. intros s. apply grows_refl. Qed.

Lemma keeps_raise {S A} (proj : S → World) e : keeps fresh proj (@raise S A e).
Proof. intros s. apply grows_refl. Qed.

Lemma keeps_gets {S A} (proj : S → World) (f : S → A) : keeps fresh proj (gets f).
Proof. intros s. apply grows_refl. Qed.

Lemma keeps_getitem {S A} (proj : S → World) key (o : option A) :
  keeps fresh proj (getitem key o).
Proof. intros s. destruct o; apply grows_refl. Qed.

Lemma keeps_getindex {S A} (proj : S → World) (l : list A) i :
  keeps fresh proj (getindex l i).
Proof. intros s. unfold getindex. destruct (l !! i); apply grows_refl. Qed.

Lemma keeps_bind {S A B} (proj : S → World) (c : M S A) (k : A → M S B) :
  keeps fresh proj c → (∀ a, keeps fresh proj (k a)) → keeps fresh proj (c ≫= k).
Proof.
  intros Hc Hk s. unfold mbind, M_bind. specialize (Hc s).
  destruct (c s) as [[a|e] s1]; simpl in *; [|done].
  eapply grows_trans; [exact Hc|apply Hk].
Qed.

Lemma keeps_for_in {S A} (proj : S → World) (l : list A) (body : A → M S unit) :
  (∀ x, keeps fresh proj (body x)) → keeps fresh proj (for_in l body).
Proof.
  intros Hbody. induction l as [|x l IH]; simpl; [apply keeps_ret|].
  apply keeps_bind; [apply Hbody|]. intros _. exact IH.
Qed.

Lemma keeps_except_ClientError {S A} (proj : S → World) (c : M S A) h :
  keeps fresh proj c → (∀ code, keeps fresh proj (h code)) →
  keeps fresh proj (except_ClientError c h).
Proof.
  intros Hc Hh s. unfold except_ClientError. specialize (Hc s).
  destruct (c s) as [[a|e] s1]; simpl in *; [done|].
  destruct e; try done. eapply grows_trans; [exact Hc|apply Hh].
Qed.

Lemma keeps_except_Exception {S A} (proj : S → World) (c : M S A) h :
  keeps fresh proj c → (∀ e, keeps fresh proj (h e)) →
  keeps fresh proj (except_Exception c h).
Proof.
  intros Hc Hh s. unfold except_Exception. specialize (Hc s).
  destruct (c s) as [[a|e] s1]; simpl in *; [done|].
  eapply grows_trans; [exact Hc|apply Hh].
Qed.

Lemma keeps_lift {A} (c : M World A) : keeps fresh id c → keeps fresh world (lift c).
Proof.
  intros Hc fr. unfold lift. specialize (Hc (world fr)).
  by destruct (c (world fr)).
Qed.

Lemma keeps_with_locals {A} (c : M Frame A) :
  keeps fresh world c → keeps fresh id (with_locals c).
Proof.
  intros Hc w. unfold with_locals. specialize (Hc (mkFrame [] (PyInt 0) w)).
  by destruct (c _).
Qed.

Lemma keeps_faulty {A} call (k : M World A) :
  keeps fresh id k → keeps fresh id (faulty env call k).
Proof. intros Hk. unfold faulty. destruct (fault env call); [apply keeps_raise|done]. Qed.

Lemma keeps_validate_limit {A} limit (k : M World A) :
  keeps fresh id k → keeps fresh id (validate_limit limit k).
Proof.
  intros Hk. unfold validate_limit. case_bool_decide; [apply keeps_raise|done].
Qed.

Lemma keeps_set_cache f : keeps fresh id (modify (set_cache f)).
Proof. intros w. exact (grows_refl w). Qed.

Lemma keeps_append_reserved d : keeps fresh world (append_reserved d).
Proof. intros fr. apply grows_refl. Qed.

Lemma keeps_add_amount price : keeps fresh world (add_amount price).
Proof. intros fr. apply grows_refl. Qed.

Lemma keeps_print line : keeps fresh id (print line).
Proof.
  intros w. destruct (grows_refl w) as (? & ? & ? & ? & _).
  repeat (split; [done|]). by apply prefix_app_r.
Qed.

Lemma keeps_sqs_send_message url m : keeps fresh id (sqs_send_message env url m).
Proof.
  apply keeps_faulty. intros w. destruct (grows_refl w) as (? & ? & ? & _ & ?).
  repeat (split; [done|]). split; [|done]. by apply prefix_app_r.
Qed.

Lemma keeps_tickets_update_item site event_id ticket_id condition update :
  (∀ t, ticket_kept t (update t)) →
  keeps fresh id (tickets_update_item env site event_id ticket_id condition update).
Proof.
  intros Hupdate. unfold tickets_update_item. apply keeps_faulty.
  destruct event_id as [e|]; [|apply keeps_raise].
  destruct ticket_id as [t|]; [|apply keeps_raise].
  intros w. unfold mbind, M_bind, gets, modify, raise. simpl.
  destruct (condition (tickets w !! (e, t))); [simpl|apply grows_refl].
  destruct (grows_refl w) as (? & _ & ? & ? & ?).
  split; [done|]. split; [|done]. intros k t0 Hk. simpl.
  destruct (decide (k = (e, t))) as [->|Hne].
  - rewrite lookup_insert_eq, Hk. simpl. by eexists.
  - rewrite lookup_insert_ne by done. exists t0. by split.
Qed.

Lemma keeps_bookings_put_item b :
  bk_booking_id b = fresh → keeps fresh id (bookings_put_item env b).
Proof.
  intros Hid. unfold bookings_put_item. apply keeps_faulty. intros w.
  destruct (grows_refl w) as (? & ? & _ & ? & ?).
  split; [done|]. split; [done|]. split; [|done]. intros bid b0 Hne Hb0. unfold id in *. simpl.
  rewrite lookup_insert_ne by congruence. exists b0. by split.
Qed.

Lemma keeps_bookings_update_item booking_id status :
  keeps fresh id (bookings_update_item env booking_id status).
Proof.
  unfold bookings_update_item. apply keeps_faulty. intros w.
  destruct (grows_refl w) as (? & ? & _ & ? & ?).
  split; [done|]. split; [done|]. split; [|done]. intros bid b0 _ Hb0. unfold id in *. simpl.
  destruct (decide (bid = booking_id)) as [->|Hne].
  - rewrite lookup_insert_eq, Hb0. simpl. by eexists.
  - rewrite lookup_insert_ne by done. exists b0. by split.
Qed.

Ltac keeps_step :=
  cbv beta zeta;
  lazymatch goal with
  | |- keeps _ _ (mbind _ _) => apply keeps_bind; [|intros ?]
  | |- keeps _ _ (except_ClientError _ _) =>
      apply keeps_except_ClientError; [|intros ?]
  | |- keeps _ _ (except_Exception _ _) => apply keeps_except_Exception; [|intros ?]
  | |- keeps _ _ (for_in _ _) => apply keeps_for_in; intros ?
  | |- keeps _ _ (lift _) => apply keeps_lift
  | |- keeps _ _ (with_locals _) => apply keeps_with_locals
  | |- keeps _ _ (faulty _ _ _) => apply keeps_faulty
  | |- keeps _ _ (validate_limit _ _) => apply keeps_validate_limit
  | |- keeps _ _ (mret _) => apply keeps_ret
  | |- keeps _ _ (raise _) => apply keeps_raise
  | |- keeps _ _ (gets _) => apply keeps_gets
  | |- keeps _ _ (getitem _ _) => apply keeps_getitem
  | |- keeps _ _ (getindex _ _) => apply keeps_getindex
  | |- keeps _ _ (modify (set_cache _)) => apply keeps_set_cache
  | |- keeps _ _ (append_reserved _) => apply keeps_append_reserved
  | |- keeps _ _ (add_amount _) => apply keeps_add_amount
  | |- keeps _ _ (print _) => apply keeps_print
  | |- keeps _ _ (sqs_send_message _ _ _) => apply keeps_sqs_send_message
  | |- keeps _ _ (bookings_update_item _ _ _) => apply keeps_bookings_update_item
  | |- keeps _ _ (bookings_put_item _ _) => by apply keeps_bookings_put_item
  | |- keeps _ _ (tickets_update_item _ _ _ _ _ _) =>
      apply keeps_tickets_update_item; intros ?; by repeat split
  | |- keeps _ _ (if ?b then _ else _) => destruct b
  | |- keeps _ _ (match ?x with _ => _ end) => destruct x
  end.

Lemma keeps_get_event event_id : keeps fresh id (get_event env event_id).
Proof.
  unfold get_event, cache_get_event, events_get_item, cache_set_event.
  repeat keeps_step.
Qed.

Lemma keeps_get_available_tickets event_id tier quantity :
  keeps fresh id (get_available_tickets env event_id tier quantity).
Proof. unfold get_available_tickets. repeat keeps_step. Qed.

Lemma keeps_reserve_ticket_in_db event_id ticket_id user_id :
  keeps fresh id (reserve_ticket_in_db env event_id ticket_id user_id).
Proof. unfold reserve_ticket_in_db. repeat keeps_step. Qed.

Lemma keeps_rollback_reservations reserved user_id :
  keeps fresh id (rollback_reservations env reserved user_id).
Proof. unfold rollback_reservations, rollback_ticket. repeat keeps_step. Qed.

Lemma keeps_get_user_active_bookings_count user_id :
  keeps fresh id (get_user_active_bookings_count env user_id).
Proof.
  unfold get_user_active_bookings_count, cache_get_count, bookings_query_count,
    cache_set_count.
  repeat keeps_step.
Qed.

Lemma keeps_get_booking_by_id booking_id :
  keeps fresh id (get_booking_by_id env booking_id).
Proof.
  unfold get_booking_by_id, cache_get_booking, bookings_get_item, cache_set_booking.
  repeat keeps_step.
Qed.

Lemma keeps_update_booking_status booking_id status :
  keeps fresh id (update_booking_status env booking_id status).
Proof.
  unfold update_booking_status, cache_set_booking.
  repeat first [apply keeps_get_booking_by_id | keeps_step].
Qed.

Lemma keeps_cancel_booking_internal booking_id :
  keeps fresh id (cancel_booking_internal env booking_id).
Proof.
  unfold cancel_booking_internal, release_booking_ticket, release_ticket,
    cache_delete_booking, cache_delete_count.
  repeat first [apply keeps_get_booking_by_id | apply keeps_update_booking_status
               | keeps_step].
Qed.

Lemma keeps_send_to_queue url m : keeps fresh id (send_to_queue env url m).
Proof. unfold send_to_queue, json_dumps. repeat keeps_step. Qed.

Lemma keeps_reserve_tier event_id user_id request :
  keeps fresh world (reserve_tier env event_id user_id request).
Proof.
  unfold reserve_tier, reserve_candidate.
  repeat first [apply keeps_get_available_tickets | apply keeps_reserve_ticket_in_db
               | apply keeps_rollback_reservations | keeps_step].
Qed.

Lemma keeps_reserve_tickets body user_id :
  keeps fresh id (reserve_tickets env body user_id).
Proof.
  unfold reserve_tickets, distributed_lock, reserve_tickets_try, cache_set_booking.
  repeat first [apply keeps_get_user_active_bookings_count | apply keeps_get_event
               | apply keeps_reserve_tier | apply keeps_rollback_reservations
               | apply keeps_send_to_queue | keeps_step].
Qed.

Lemma keeps_confirm_booking body user_id :
  keeps fresh id (confirm_booking env body user_id).
Proof.
  unfold confirm_booking.
  repeat first [apply keeps_get_booking_by_id | apply keeps_update_booking_status
               | apply keeps_cancel_booking_internal | apply keeps_send_to_queue
               | keeps_step].
Qed.

Lemma keeps_get_booking booking_id user_id :
  keeps fresh id (get_booking env booking_id user_id).
Proof.
  unfold get_booking. repeat first [apply keeps_get_booking_by_id | keeps_step].
Qed.

Lemma keeps_cancel_booking booking_id user_id :
  keeps fresh id (cancel_booking env booking_id user_id).
Proof.
  unfold cancel_booking.
  repeat first [apply keeps_get_booking_by_id | apply keeps_cancel_booking_internal
               | keeps_step].
Qed.

Lemma keeps_get_user_bookings user_id query_params :
  keeps fresh id (get_user_bookings env user_id query_params).
Proof. unfold get_user_bookings, bookings_query_page, read. repeat keeps_step. Qed.

Lemma keeps_route event : keeps fresh id (route env event).
Proof.
  unfold route.
  repeat first [apply keeps_reserve_tickets | apply keeps_confirm_booking
               | apply keeps_get_booking | apply keeps_cancel_booking
               | apply keeps_get_user_bookings | keeps_step].
Qed.

Lemma lambda_handler_grows event w :
  grows fresh w (lambda_handler env event w).2.
Proof.
  unfold lambda_handler. pose proof (keeps_route event w) as Hroute.
  destruct (route env event w) as [[r|e] w1]; simpl in *; [done|].
  destruct e; try done;
    (eapply grows_trans; [exact Hroute|apply (keeps_print _ w1)]).
Qed.

End later_states.

(** X20.  No request removes a ticket or changes the event, the tier, the
    price or the seat it was created with, and no request writes to the
    events table: the handler only ever sets a ticket's status and its
    reservation attributes. *)
Theorem tickets_are_never_dropped_or_repriced env event w k t :
  tickets w !! k = Some t →
  events (lambda_handler env event w).2 = events w
  ∧ ∃ t', tickets (lambda_handler env event w).2 !! k = Some t'
          ∧ tk_event_id t' = tk_event_id t ∧ tk_ticket_id t' = tk_ticket_id t
          ∧ tk_tier t' = tk_tier t ∧ tk_price t' = tk_price t
          ∧ tk_seat_number t' = tk_seat_number t.
Proof.
  intros Hk. destruct (lambda_handler_grows env event w) as (He & Ht & _).
  split; [done|]. exact (Ht k t Hk).
Qed.

Lemma tickets_are_never_dropped_or_repriced_witness :
  events (lambda_handler (quiet 1100) (booking_request "DELETE" "b-1" "u1") booked).2
  = events booked
  ∧ ∃ t', tickets (lambda_handler (quiet 1100)
                     (booking_request "DELETE" "b-1" "u1") booked).2 !! ("e1", "s1")
          = Some t'
          ∧ tk_event_id t' = tk_event_id (set_reserved "u1" 1300 (seat "s1" "standard" 50))
          ∧ tk_ticket_id t'
            = tk_ticket_id (set_reserved "u1" 1300 (seat "s1" "standard" 50))
          ∧ tk_tier t' = tk_tier (set_reserved "u1" 1300 (seat "s1" "standard" 50))
          ∧ tk_price t' = tk_price (set_reserved "u1" 1300 (seat "s1" "standard" 50))
          ∧ tk_seat_number t'
            = tk_seat_number (set_reserved "u1" 1300 (seat "s1" "standard" 50)).
Proof.
  apply (tickets_are_never_dropped_or_repriced (quiet 1100)
           (booking_request "DELETE" "b-1" "u1") booked ("e1", "s1")
           (set_reserved "u1" 1300 (seat "s1" "standard" 50))).
  vm_compute. reflexivity.
Defined.

(** X21.  No request removes a booking or changes its owner, its event, its
    tickets, its total or its times of creation and expiry; the one
    exception is a booking stored under the identifier that the request
    draws for a new booking, which [put_item] replaces.  The queue and the
    printed lines only grow. *)
Theorem bookings_keep_what_they_record env event w booking_id b :
  booking_id ≠ uuid4 env →
  bookings w !! booking_id = Some b →
  (∃ b', bookings (lambda_handler env event w).2 !! booking_id = Some b'
         ∧ bk_user_id b' = bk_user_id b ∧ bk_event_id b' = bk_event_id b
         ∧ bk_tickets b' = bk_tickets b ∧ bk_total_amount b' = bk_total_amount b
         ∧ bk_reserved_until b' = bk_reserved_until b
         ∧ bk_created_at b' = bk_created_at b ∧ bk_ttl b' = bk_ttl b)
  ∧ queue w `prefix_of` queue (lambda_handler env event w).2
  ∧ stdout w `prefix_of` stdout (lambda_handler env event w).2.
Proof.
  intros Hne Hb.
  destruct (lambda_handler_grows env event w) as (_ & _ & Hbk & Hq & Hs).
  split; [|done].
  destruct (Hbk booking_id b Hne Hb) as (b' & Hb' & _ & Hrest).
  by exists b'.
Qed.

(** Booking [b-1] while [u2] reserves the other standard ticket. *)
Lemma bookings_keep_what_they_record_witness :
  (∃ b', bookings (lambda_handler (second 1100)
                     (reserve_request "u2" [mkTicketRequest "standard" 1]) booked).2
           !! "b-1" = Some b'
         ∧ bk_user_id b' = bk_user_id (b_1 "reserved" 1000)
         ∧ bk_event_id b' = bk_event_id (b_1 "reserved" 1000)
         ∧ bk_tickets b' = bk_tickets (b_1 "reserved" 1000)
         ∧ bk_total_amount b' = bk_total_amount (b_1 "reserved" 1000)
         ∧ bk_reserved_until b' = bk_reserved_until (b_1 "reserved" 1000)
         ∧ bk_created_at b' = bk_created_at (b_1 "reserved" 1000)
         ∧ bk_ttl b' = bk_ttl (b_1 "reserved" 1000))
  ∧ queue booked
    `prefix_of` queue (lambda_handler (second 1100)
                         (reserve_request "u2" [mkTicketRequest "standard" 1]) booked).2
  ∧ stdout booked
    `prefix_of` stdout (lambda_handler (second 1100)
                          (reserve_request "u2" [mkTicketRequest "standard" 1]) booked).2.
Proof.
  apply (bookings_keep_what_they_record (second 1100)
           (reserve_request "u2" [mkTicketRequest "standard" 1]) booked "b-1"
           (b_1 "reserved" 1000)).
  - simpl. discriminate.
  - vm_compute. reflexivity.
Defined.

(** ** The listing of a user's bookings *)

(** X22.  When [get_user_bookings] answers, it has changed nothing, its
    limit was at least 1 and its start key, if it had one, named the user
    who asks; the answer is 200 with [count] the number of bookings
    listed, no more than the limit, each of them a booking that the table
    stores for that user, read after the start key, and of the status
    asked for when the request names one that is not the empty text. *)
Theorem listing_shows_own_bookings env user_id query_params w r w1 :
  get_user_bookings env user_id query_params w = (Ok r, w1) →
  w1 = w
  ∧ ∃ limit items last_key,
      limit = match qp_limit query_params with
              | Some (Accepted n) => n
              | _ => 20
              end
      ∧ 1 ≤ limit
      ∧ (∀ k, qp_last_key query_params = Some (Accepted k) → sk_user_id k = user_id)
      ∧ r = create_response 200 (BookingsBody items (Z.of_nat (length items)) last_key)
      ∧ Z.of_nat (length items) ≤ limit
      ∧ ∀ b, b ∈ items →
             bk_user_id b = Some user_id
             ∧ (∃ booking_id stored,
                  bookings w !! booking_id = Some stored ∧ b = as_read stored)
             ∧ (∀ k, qp_last_key query_params = Some (Accepted k) → follows k b)
             ∧ (∀ s, qp_status query_params = Some s → s ≠ "" →
                     bk_status b = Some s).
Proof.
  intros Hrun.
  pose proof (get_user_bookings_world env user_id query_params w) as Hw.
  rewrite Hrun in Hw. simpl in Hw. split; [done|]. clear Hw.
  destruct (get_user_bookings_read env user_id query_params w)
    as [[e He]|(limit & start & Hsteps & Hlimit & Hstart)]; [congruence|].
  rewrite Hsteps in Hrun. clear Hsteps. revert Hrun.
  unfold bookings_query_page, validate_limit, faulty, raise, gets, mbind, M_bind.
  case_bool_decide as Hmin; [done|].
  destruct (fault env (BookingsQuery user_id)); [done|].
  case_bool_decide as Hkey; [|done].
  simpl. intros [= <- <-].
  eexists limit, _, _. split; [done|]. split; [lia|]. split.
  { intros k Hk. rewrite Hk in Hstart. subst start.
    destruct Hkey as [[= Hkey]|]; done. }
  split; [done|]. split.
  { transitivity (Z.of_nat (Z.to_nat limit)); [|lia]. apply inj_le.
    destruct (truthy (qp_status query_params)); [etrans; [apply length_filter|]|];
      rewrite length_take; lia. }
  intros b Hb.
  set (index := merge_sort (λ a b, read_before (index_key a) (index_key b))
                  (filter (λ b, bk_user_id b = Some user_id)
                     (as_read ∘ snd <$> map_to_list (bookings w)))) in *.
  set (rest := match start with
               | Some k => filter (follows k) index
               | None => index
               end) in *.
  assert (b ∈ take (Z.to_nat limit) rest) as Hpage.
  { destruct (truthy (qp_status query_params)); [|done].
    by apply list_elem_of_filter in Hb as [_ ?]. }
  assert (b ∈ rest) as Hrest.
  { apply elem_of_take in Hpage as (i & Hi & _). by eapply list_elem_of_lookup_2. }
  assert (b ∈ index) as Hindex.
  { subst rest. destruct start; [|done]. by apply list_elem_of_filter in Hrest as [_ ?]. }
  subst index. rewrite merge_sort_Permutation in Hindex.
  apply list_elem_of_filter in Hindex as [Huser Hstored].
  apply list_elem_of_fmap in Hstored as ([booking_id stored] & -> & Hstored).
  apply elem_of_map_to_list in Hstored. simpl in *.
  split; [done|]. split; [by exists booking_id, stored|]. split.
  - intros k Hk. rewrite Hk in Hstart. subst start rest.
    by apply list_elem_of_filter in Hrest as [? _].
  - intros s Hs Hne. rewrite Hs in Hb.
    destruct s as [|c s]; [done|]. simpl in Hb.
    by apply list_elem_of_filter in Hb as [? _].
Qed.

(** The reserved bookings of [u1], who holds [b-1]. *)
Lemma listing_shows_own_bookings_witness :
  booked = booked
  ∧ ∃ limit items last_key,
      limit = match qp_limit (mkQueryParams None None (Some "reserved")) with
              | Some (Accepted n) => n
              | _ => 20
              end
      ∧ 1 ≤ limit
      ∧ (∀ k, qp_last_key (mkQueryParams None None (Some "reserved"))
              = Some (Accepted k) → sk_user_id k = "u1")
      ∧ create_response 200 (BookingsBody [b_1 "reserved" 1000] 1 None)
        = create_response 200 (BookingsBody items (Z.of_nat (length items)) last_key)
      ∧ Z.of_nat (length items) ≤ limit
      ∧ ∀ b, b ∈ items →
             bk_user_id b = Some "u1"
             ∧ (∃ booking_id stored,
                  bookings booked !! booking_id = Some stored ∧ b = as_read stored)
             ∧ (∀ k, qp_last_key (mkQueryParams None None (Some "reserved"))
                     = Some (Accepted k) → follows k b)
             ∧ (∀ s, qp_status (mkQueryParams None None (Some "reserved")) = Some s →
                     s ≠ "" → bk_status b = Some s).
Proof.
  apply (listing_shows_own_bookings (quiet 1100) "u1"
           (mkQueryParams None None (Some "reserved")) booked
           (create_response 200 (BookingsBody [b_1 "reserved" 1000] 1 None)) booked).
  vm_compute. reflexivity.
Defined.

(** ** The queue refusing the reservation message *)

(** X23.  A reservation does not depend on the queue.  If it succeeds
    while the queue takes the message, the same request on the same world
    succeeds with the same response while the queue refuses it with a
    [ClientError]: the tables and the cache end up the same, the message
    is not in the queue, and one line is printed. *)
Theorem reservation_survives_queue_failure env code body user_id w r w1 :
  reserve_tickets (with_queue None env) body user_id w = (Ok r, w1) →
  ∃ w2 m, reserve_tickets (with_queue (Some code) env) body user_id w = (Ok r, w2)
          ∧ tickets w2 = tickets w1 ∧ bookings w2 = bookings w1
          ∧ cache w2 = cache w1 ∧ queue w1 = queue w2 ++ [m]
          ∧ ∃ line, stdout w2 = stdout w1 ++ [line].
Proof. apply reserve_tickets_queue_down. Qed.

(** The reservation of ticket [s1], with the queue refusing the message. *)
Lemma reservation_survives_queue_failure_witness :
  ∃ w2 m,
    reserve_tickets (with_queue (Some "ServiceUnavailable") (quiet 1000))
      one_standard "u1" venue
    = (Ok reserved_response, w2)
    ∧ tickets w2 = tickets booked ∧ bookings w2 = bookings booked
    ∧ cache w2 = cache booked ∧ queue booked = queue w2 ++ [m]
    ∧ ∃ line, stdout w2 = stdout booked ++ [line].
Proof.
  apply (reservation_survives_queue_failure (quiet 1000) "ServiceUnavailable"
           one_standard "u1" venue reserved_response booked).
  vm_compute. reflexivity.
Defined.
